(** * figma-antd-mcp: design tree -> Ant Design code -> validation

    A shallow embedding of the four pipeline stages of the repository
    (FigmaParser, CodeGenerator, the formatter, CodeValidator) together
    with the properties stated about them.

    Conventions of the embedding:
    - JavaScript strings are [string]s of 8-bit code units, the code
      points U+0000 to U+00FF; all literals of the source are ASCII.
    - JavaScript numbers that carry geometry, colour channels or style
      values are finite doubles, carried as their exact rational values
      ([Q]); where the source multiplies or subtracts them the result is
      rounded as IEEE 754 asks ([Double]).  Counters and confidence
      weights, which the source only ever adds and compares and which stay
      small integers, are integers ([Z]).
    - An optional field ([x?: T], or a field the source guards with [?.])
      is an [option].
    - A function that can throw returns a [Completion]. *)

From Stdlib Require Import ZArith QArith Qabs Qround List String Ascii Bool Lia.
From Stdlib Require Import HexadecimalString HexadecimalZ DecimalString DecimalZ Permutation Sorted.
From Stdlib Require OrdersEx.
Import ListNotations.
Set Warnings "-register-all".
Local Open Scope string_scope.
Local Open Scope Z_scope.

(* ===================================================================== *)
(** * JavaScript primitives used by the sources *)
(* ===================================================================== *)

Module JS.

(** [s.startsWith(p)] *)
Fixpoint startsWith (s p : string) {struct p} : bool :=
  match p with
  | EmptyString => true
  | String c p' =>
      match s with
      | EmptyString => false
      | String d s' => Ascii.eqb c d && startsWith s' p'
      end
  end.

(** [s.includes(p)] *)
Fixpoint includes (s p : string) : bool :=
  startsWith s p ||
  match s with
  | EmptyString => false
  | String _ s' => includes s' p
  end.

(** [s.endsWith(p)] *)
Fixpoint endsWith (s p : string) : bool :=
  String.eqb s p ||
  match s with
  | EmptyString => false
  | String _ s' => endsWith s' p
  end.

(** Truthiness of a string: every string but the empty one. *)
Definition truthy (s : string) : bool :=
  match s with EmptyString => false | _ => true end.

(** Truthiness of an optional string ([undefined] is falsy). *)
Definition truthy_opt (o : option string) : bool :=
  match o with Some s => truthy s | None => false end.

(** Truthiness of a finite number: non-zero. *)
Definition truthy_num (q : Q) : bool := negb (Qeq_bool q 0).

(** [a < b] on numbers. *)
Definition lt (a b : Q) : bool := negb (Qle_bool b a).

(** [Math.round]: the integer nearest to [a], a tie going to the larger
    one, i.e. [floor (a + 1/2)]. *)
Definition round (a : Q) : Z := Qfloor (a + (1 # 2))%Q.

(** [String.prototype.toLowerCase] on the 8-bit code units: the capital
    letters A to Z and, in the Latin-1 range, U+00C0 to U+00DE without the
    multiplication sign U+00D7, go 32 places up; the other code units are
    kept. *)
Definition lowerChar (c : ascii) : ascii :=
  let n := nat_of_ascii c in
  if ((Nat.leb 65 n && Nat.leb n 90)
      || (Nat.leb 192 n && Nat.leb n 222 && negb (Nat.eqb n 215)))%bool
  then ascii_of_nat (n + 32) else c.

Fixpoint toLowerCase (s : string) : string :=
  match s with
  | EmptyString => EmptyString
  | String c s' => String (lowerChar c) (toLowerCase s')
  end.

(** [Array.prototype.sort(cmp)]: a stable sort (ECMAScript 2019, 23.1.3.30);
    [cmp a b <= 0] keeps [a] in front of [b].  Insertion from the right
    puts an element in front of every later element it does not have to
    follow, which is what stability asks for. *)
Section Sort.
Context {A : Type} (cmp : A -> A -> Z).

Fixpoint insert (a : A) (l : list A) : list A :=
  match l with
  | [] => [a]
  | b :: l' => if cmp a b <=? 0 then a :: b :: l' else b :: insert a l'
  end.

Fixpoint sort (l : list A) : list A :=
  match l with
  | [] => []
  | a :: l' => insert a (sort l')
  end.
End Sort.

(** [a.join(sep)] *)
Fixpoint join (sep : string) (l : list string) : string :=
  match l with
  | [] => ""
  | [a] => a
  | a :: l' => a ++ sep ++ join sep l'
  end.

(** [s.split(sep)] for a one-character separator. *)
Fixpoint split (sep : ascii) (s : string) : list string :=
  match s with
  | EmptyString => [EmptyString]
  | String c s' =>
      if Ascii.eqb c sep then EmptyString :: split sep s'
      else match split sep s' with
           | piece :: pieces => String c piece :: pieces
           | [] => [String c EmptyString]
           end
  end.

(** White space and line terminators among the 8-bit code units: tab,
    line feed, vertical tab, form feed, carriage return, space and the
    no-break space U+00A0.  The other white space of ECMAScript (U+1680,
    U+2000 to U+200A, U+2028, U+2029, U+202F, U+205F, U+3000, U+FEFF) lies
    above U+00FF. *)
Definition isWhiteSpace (c : ascii) : bool :=
  let n := nat_of_ascii c in
  (Nat.leb 9 n && Nat.leb n 13) || Nat.eqb n 32 || Nat.eqb n 160.

Fixpoint trimStart (s : string) : string :=
  match s with
  | String c s' => if isWhiteSpace c then trimStart s' else s
  | EmptyString => EmptyString
  end.

Fixpoint trimEnd (s : string) : string :=
  match s with
  | String c s' =>
      match trimEnd s' with
      | EmptyString => if isWhiteSpace c then EmptyString else String c EmptyString
      | t => String c t
      end
  | EmptyString => EmptyString
  end.

(** [s.trim()] *)
Definition trim (s : string) : string := trimEnd (trimStart s).

(** [s.repeat(n)] *)
Fixpoint repeat (s : string) (n : nat) : string :=
  match n with
  | O => ""
  | S n' => s ++ repeat s n'
  end.

(** The line feed and the double quote. *)
Definition LF : ascii := "010"%char.
Definition DQ : ascii := "034"%char.
Definition nl : string := String LF EmptyString.
Definition dq : string := String DQ EmptyString.

(** Completion of a call: a value, or a thrown [Error] with its message. *)
Inductive Completion (A : Type) : Type :=
| Normal (a : A)
| Throw (message : string).
Arguments Normal {A} a.
Arguments Throw {A} message.

End JS.

(* ===================================================================== *)
(** * Double-precision arithmetic *)
(* ===================================================================== *)

(** A JavaScript number is an IEEE 754 binary64 value (ECMAScript 6.1.6.1).
    The embedding carries a finite number as its exact rational value.
    Where the source computes with numbers, the product in [colorToHex]
    and the differences in [extractLayout], the result is the exact result
    rounded to the nearest double, a tie going to the double whose
    significand is even; a result that rounds to [2^1024] or beyond is an
    infinity.  The operands are finite, so no NaN arises. *)
Module Double.

Inductive Number :=
| Finite (q : Q)
| Infinite (negative : bool).

(** [2^e <= n / d], for positive [n] and [d]. *)
Definition reaches (n d e : Z) : bool :=
  if 0 <=? e then 2 ^ e * d <=? n else d <=? n * 2 ^ (- e).

(** The binary exponent of [n / d], for positive [n] and [d]: the [e]
    with [2^e <= n / d < 2^(e+1)]. *)
Definition exponent (n d : Z) : Z :=
  let e := Z.log2 n - Z.log2 d in
  if reaches n d e then e else e - 1.

(** [n / d] rounded to the nearest integer, a tie going to the even one. *)
Definition nearestEven (n d : Z) : Z :=
  let f := n / d in
  match 2 * (n mod d) ?= d with
  | Lt => f
  | Gt => f + 1
  | Eq => if Z.even f then f else f + 1
  end.

Definition signed (negative : bool) (m : Z) : Z :=
  if negative then - m else m.

(** The double nearest to [n / d], for positive [n] and [d], with the sign
    given.  A double is a multiple [m * 2^e] of the unit in its last
    place: [e] lies 52 below the binary exponent of the number, and not
    below -1074, the exponent of the subnormal numbers; [m] has at most 53
    bits. *)
Definition roundPositive (negative : bool) (n d : Z) : Number :=
  let e := Z.max (exponent n d) (-1022) - 52 in
  if 0 <=? e then
    let m := nearestEven n (d * 2 ^ e) in
    if 2 ^ 1024 <=? m * 2 ^ e then Infinite negative
    else Finite (inject_Z (signed negative (m * 2 ^ e)))
  else
    let m := nearestEven (n * 2 ^ (- e)) d in
    Finite (signed negative m # Z.to_pos (2 ^ (- e))).

(** The double nearest to [q]; it is also the value of the decimal
    literal [q]. *)
Definition round (q : Q) : Number :=
  match Qnum q with
  | Z0 => Finite 0
  | Zpos n => roundPositive false (Zpos n) (Zpos (Qden q))
  | Zneg n => roundPositive true (Zpos n) (Zpos (Qden q))
  end.

(** [q] is the value of a double. *)
Definition representable (q : Q) : bool :=
  match round q with
  | Finite p => Qeq_bool p q
  | Infinite _ => false
  end.

(** The finite double written as the decimal literal [q]. *)
Definition literal (q : Q) : Q :=
  match round q with
  | Finite p => Qred p
  | Infinite _ => 0%Q
  end.

(** [a * b] and [a - b] on doubles. *)
Definition mul (a b : Q) : Number := round (a * b).
Definition sub (a b : Q) : Number := round (a - b).

(** [Math.abs] *)
Definition abs (n : Number) : Number :=
  match n with
  | Finite q => Finite (Qabs q)
  | Infinite _ => Infinite false
  end.

(** [m < n] *)
Definition lt (m n : Number) : bool :=
  match m, n with
  | Finite p, Finite q => JS.lt p q
  | Finite _, Infinite negative => negb negative
  | Infinite negative, Finite _ => negative
  | Infinite negative, Infinite negative' => negative && negb negative'
  end.

(** The result of [Math.round]: an integer, or the infinity it was given. *)
Inductive Integral :=
| Integer (n : Z)
| Unbounded (negative : bool).

(** [Math.round] *)
Definition mathRound (n : Number) : Integral :=
  match n with
  | Finite q => Integer (JS.round q)
  | Infinite negative => Unbounded negative
  end.

End Double.

(* ===================================================================== *)
(** * Regular expressions, as the validator uses them *)
(* ===================================================================== *)

(** A backtracking matcher in the style of the ECMAScript specification
    (22.2.2): a pattern is run against the rest of the input with a
    continuation, the first alternative that lets the continuation succeed
    wins, a greedy quantifier tries one more iteration before it tries the
    continuation and a lazy one the other way round. *)
Module RegExp.

Inductive pattern :=
| Empty
| Class (p : ascii -> bool)
| Seq (p1 p2 : pattern)
| Alt (p1 p2 : pattern)
| Star (p : pattern)
| LazyStar (p : pattern)
| Group (i : nat) (p : pattern)
| Backref (i : nat).

(** Captures: group number to captured text. *)
Definition captures := nat -> option string.

Definition noCaptures : captures := fun _ => None.

Definition setCapture (i : nat) (t : string) (c : captures) : captures :=
  fun j => if Nat.eqb j i then Some t else c j.

(** The text consumed between input [s] and its suffix [rest]. *)
Definition consumed (s rest : string) : string :=
  substring 0 (String.length s - String.length rest) s.

(** [s] without its first [n] code units. *)
Fixpoint drop (n : nat) (s : string) : string :=
  match n, s with
  | O, _ => s
  | S n', String _ s' => drop n' s'
  | S _, EmptyString => EmptyString
  end.

Section Matcher.
Context {R : Type}.

Definition continuation := string -> captures -> option R.

(** One quantifier loop.  An iteration that consumes nothing is
    rejected (RepeatMatcher, step 2.b), so [fuel] iterations suffice
    when [fuel] is the length of the input. *)
Fixpoint repeat (greedy : bool)
    (body : string -> captures -> continuation -> option R)
    (k : continuation) (fuel : nat) (s : string) (c : captures) : option R :=
  match fuel with
  | O => k s c
  | S fuel' =>
      let again :=
        body s c (fun s' c' =>
          if (String.length s' <? String.length s)%nat
          then repeat greedy body k fuel' s' c'
          else None) in
      if greedy
      then match again with Some res => Some res | None => k s c end
      else match k s c with Some res => Some res | None => again end
  end.

Fixpoint run (p : pattern) (s : string) (c : captures) (k : continuation)
    : option R :=
  match p with
  | Empty => k s c
  | Class cls =>
      match s with
      | String ch s' => if cls ch then k s' c else None
      | EmptyString => None
      end
  | Seq p1 p2 => run p1 s c (fun s' c' => run p2 s' c' k)
  | Alt p1 p2 =>
      match run p1 s c k with
      | Some res => Some res
      | None => run p2 s c k
      end
  | Star p1 => repeat true (run p1) k (String.length s) s c
  | LazyStar p1 => repeat false (run p1) k (String.length s) s c
  | Group i p1 =>
      run p1 s c (fun s' c' => k s' (setCapture i (consumed s s') c'))
  | Backref i =>
      match c i with
      | None => k s c
      | Some t =>
          if JS.startsWith s t then k (drop (String.length t) s) c else None
      end
  end.
End Matcher.

(** A match at the start of [s]: the rest of the input and the captures. *)
Definition matchHere (p : pattern) (s : string) : option (string * captures) :=
  run p s noCaptures (fun rest c => Some (rest, c)).

(** The array [exec] returns: [index], [match[0]] and the groups. *)
Record MatchResult := {
  index : nat;
  matched : string;
  groups : captures
}.

(** The successive results of [while ((match = regex.exec(code)) !== null)]
    for a global pattern: the leftmost match from [lastIndex] on, then
    [lastIndex] is moved to its end.  [skip] counts the code units still
    covered by the previous match.  No pattern of the validator matches the
    empty string; the model steps over an empty match. *)
Fixpoint execAllFrom (p : pattern) (skip : nat) (index : nat) (s : string)
    : list MatchResult :=
  match skip with
  | S skip' =>
      match s with
      | String _ s' => execAllFrom p skip' (S index) s'
      | EmptyString => []
      end
  | O =>
      match matchHere p s with
      | Some (rest, c) =>
          let text := consumed s rest in
          {| index := index; matched := text; groups := c |} ::
          match s with
          | String _ s' => execAllFrom p (String.length text - 1) (S index) s'
          | EmptyString => []
          end
      | None =>
          match s with
          | String _ s' => execAllFrom p 0 (S index) s'
          | EmptyString => []
          end
      end
  end.

Definition execAll (p : pattern) (s : string) : list MatchResult :=
  execAllFrom p 0 0 s.

(** ** Pattern syntax *)

Definition inRange (lo hi : nat) (ch : ascii) : bool :=
  (Nat.leb lo (nat_of_ascii ch) && Nat.leb (nat_of_ascii ch) hi)%bool.

(** [\w] *)
Definition isWord (ch : ascii) : bool :=
  inRange 97 122 ch || inRange 65 90 ch || inRange 48 57 ch || Ascii.eqb ch "_".

(** [\s], on the 8-bit code units: tab, line feed, vertical tab, form
    feed, carriage return, space and the no-break space U+00A0 (the other
    white space of ECMAScript lies above U+00FF). *)
Definition isSpace (ch : ascii) : bool :=
  inRange 9 13 ch || Ascii.eqb ch " " || Nat.eqb (nat_of_ascii ch) 160.

(** [.]: any code unit but a line terminator. *)
Definition isDot (ch : ascii) : bool :=
  negb (Nat.eqb (nat_of_ascii ch) 10 || Nat.eqb (nat_of_ascii ch) 13).

Definition word := Class isWord.
Definition space := Class isSpace.
Definition dot := Class isDot.
Definition any := Class (fun _ => true).
Definition char (ch : ascii) := Class (Ascii.eqb ch).
Definition notOneOf (l : list ascii) :=
  Class (fun ch => negb (existsb (Ascii.eqb ch) l)).
Definition upper := Class (inRange 65 90).

(** A literal string. *)
Fixpoint lit (t : string) : pattern :=
  match t with
  | EmptyString => Empty
  | String ch EmptyString => char ch
  | String ch t' => Seq (char ch) (lit t')
  end.

(** [p+] and [p?] *)
Definition plus (p : pattern) := Seq p (Star p).
Definition opt (p : pattern) := Alt p Empty.

(** [p1 p2 ... pn] *)
Fixpoint seq (ps : list pattern) : pattern :=
  match ps with
  | [] => Empty
  | [p] => p
  | p :: ps' => Seq p (seq ps')
  end.

End RegExp.

(* ===================================================================== *)
(** * types/antd.ts *)
(* ===================================================================== *)

Record MappingRule := {
  condition : string;
  action : string;
  weight : Z
}.

Record ComponentMapping := {
  figmaType : string;
  figmaName : option string;
  antdComponent : string;
  confidence : Z;
  rules : list MappingRule
}.

Record AntdComponent := {
  antd_name : string;
  antd_displayName : string;
  antd_category : string
}.

(* ===================================================================== *)
(** * parsers/figma-parser.ts: data *)
(* ===================================================================== *)

Inductive FlexDirection := row | column.

Record LayoutInfo := {
  width : Q;
  height : Q;
  x : Q;
  y : Q;
  constraints : option (string * string);
  flexDirection : option FlexDirection
}.

Record ShadowInfo := {
  shadow_type : string;
  shadow_color : string;
  shadow_x : Q;
  shadow_y : Q;
  shadow_blur : Q
}.

Record FillInfo := {
  fill_type : string;
  fill_color : option string
}.

Record StylingInfo := {
  backgroundColor : option string;
  borderColor : option string;
  borderWidth : option Q;
  borderRadius : option Q;
  opacity : option Q;
  shadows : option (list ShadowInfo);
  fills : option (list FillInfo)
}.

Record ContentInfo := {
  text : option string;
  fontFamily : option string;
  fontSize : option Q
}.

(** The value of a [ComponentProperty] ([value: any]). *)
Inductive PropertyValue :=
| VBool (b : bool)
| VNum (q : Q)
| VStr (s : string).

Record ComponentProperty := {
  property_name : string;
  property_value : PropertyValue;
  property_type : string
}.

(** [ParsedComponent].  The generator receives it as [figmaNode: any] and
    guards [name], [layout], [styling] and [content] with [?.] or [&&], so
    these are optional here. *)
Inductive ParsedComponent := mkParsedComponent {
  pc_id : string;
  pc_name : option string;
  pc_type : string;
  pc_properties : list ComponentProperty;
  pc_children : option (list ParsedComponent);
  pc_layout : option LayoutInfo;
  pc_styling : option StylingInfo;
  pc_content : option ContentInfo
}.

(* ===================================================================== *)
(** * types/figma.ts and parsers/figma-parser.ts: layout and colour *)
(* ===================================================================== *)

Record Rectangle := {
  rect_x : Q;
  rect_y : Q;
  rect_width : Q;
  rect_height : Q
}.

Module Color.
Record t := {
  r : Q;
  g : Q;
  b : Q;
  a : option Q
}.
End Color.

(** [FigmaNode], with the fields [extractLayout] reads. *)
Inductive FigmaNode := mkFigmaNode {
  node_id : string;
  node_name : string;
  node_type : string;
  absoluteBoundingBox : option Rectangle;
  node_constraints : option (string * string);
  node_children : option (list FigmaNode)
}.

Module FigmaParser.

(** [node.absoluteBoundingBox?.f || 0] *)
Definition boxOrZero (node : FigmaNode) (f : Rectangle -> Q) : Q :=
  match absoluteBoundingBox node with
  | Some box => if JS.truthy_num (f box) then f box else 0%Q
  | None => 0%Q
  end.

(** The flex direction [extractLayout] infers, [None] when it leaves
    [layout.flexDirection] unset. *)
Definition inferFlexDirection (node : FigmaNode) : option FlexDirection :=
  if String.eqb (node_type node) "FRAME" || String.eqb (node_type node) "COMPONENT"
  then
    match node_children node with
    | Some (firstChild :: secondChild :: _) =>
        match absoluteBoundingBox firstChild, absoluteBoundingBox secondChild with
        | Some box1, Some box2 =>
            let isHorizontal :=
              Double.lt (Double.abs (Double.sub (rect_y box1) (rect_y box2)))
                        (Double.abs (Double.sub (rect_x box1) (rect_x box2))) in
            Some (if isHorizontal then row else column)
        | _, _ => None
        end
    | _ => None
    end
  else None.

(** [extractLayout] *)
Definition extractLayout (node : FigmaNode) : LayoutInfo :=
  {| width := boxOrZero node rect_width;
     height := boxOrZero node rect_height;
     x := boxOrZero node rect_x;
     y := boxOrZero node rect_y;
     constraints := node_constraints node;
     flexDirection := inferFlexDirection node |}.

(** [x.toString(16)] on an integer. *)
Definition toString16 (n : Z) : string :=
  HexadecimalString.NilZero.string_of_int (Z.to_hex_int n).

(** The callback of [colorToHex]: two digits for a one-digit value. *)
Definition channelToHex (n : Z) : string :=
  let hex := toString16 n in
  if (String.length hex =? 1)%nat then "0" ++ hex else hex.

(** The callback on a result of [Math.round]: the numeral of an infinity
    has more than one character and is kept. *)
Definition roundedToHex (x : Double.Integral) : string :=
  match x with
  | Double.Integer n => channelToHex n
  | Double.Unbounded negative => if negative then "-Infinity" else "Infinity"
  end.

(** [colorToHex] *)
Definition colorToHex (color : Color.t) : string :=
  let r := Double.mathRound (Double.mul (Color.r color) 255) in
  let g := Double.mathRound (Double.mul (Color.g color) 255) in
  let b := Double.mathRound (Double.mul (Color.b color) 255) in
  "#" ++ JS.join "" (map roundedToHex [r; g; b]).

End FigmaParser.

(* ===================================================================== *)
(** * utils: the formatter behind [prettier.format] *)
(* ===================================================================== *)

Inductive OutputFormat := typescript | javascript.

Module Prettier.

Definition startsWithAny (line : string) (l : list string) : bool :=
  existsb (JS.startsWith line) l.

Definition endsWithAny (line : string) (l : list string) : bool :=
  existsb (JS.endsWith line) l.

(** The body of the loop of [formatCode] over the lines, with the
    indentation level it carries. *)
Fixpoint formatLines (spaces : string) (indentLevel : nat) (lines : list string)
    : list string :=
  match lines with
  | [] => []
  | raw :: rest =>
      let line := JS.trim raw in
      if negb (JS.truthy line) then "" :: formatLines spaces indentLevel rest
      else
        (* Handle closing braces/brackets *)
        let indentLevel :=
          if startsWithAny line ["}"; "]"; ")"] then Nat.pred indentLevel
          else indentLevel in
        (* Add indentation *)
        let indentedLine := JS.repeat spaces indentLevel ++ line in
        (* Handle opening braces/brackets *)
        let indentLevel' :=
          if endsWithAny line ["{"; "["; "("] then S indentLevel else indentLevel in
        (* Handle JSX self-closing tags and opening tags *)
        let indentLevel' :=
          if JS.includes line "<" && negb (JS.includes line "</")
             && negb (JS.endsWith line "/>")
          then
            if JS.includes line ">" then
              if negb (JS.endsWith line "/>") then S indentLevel' else indentLevel'
            else indentLevel'
          else indentLevel' in
        (* Handle JSX closing tags *)
        let indentLevel' :=
          if JS.includes line "</" then Nat.pred indentLevel' else indentLevel' in
        indentedLine :: formatLines spaces indentLevel' rest
  end.

(** [formatCode(code, options)]; the generator passes [{ parser }] only,
    so [tabWidth] is 2. *)
Definition formatCode (code : string) (parser : OutputFormat) : string :=
  let tabWidth := 2%nat in
  let spaces := JS.repeat " " tabWidth in
  JS.join JS.nl (formatLines spaces 0 (JS.split JS.LF code)).

(** [prettier.format] *)
Definition format (code : string) (parser : OutputFormat) : string :=
  formatCode code parser.

End Prettier.

(* ===================================================================== *)
(** * generators/code-generator.ts: the mapping engine *)
(* ===================================================================== *)

Module CodeGenerator.

(** [initializeComponentMappings]: the registry, in registration order. *)
Definition componentMappings : list ComponentMapping :=
  [ (* Button mappings *)
    {| figmaType := "COMPONENT"; figmaName := Some "button";
       antdComponent := "Button"; confidence := 0;
       rules :=
         [ {| condition := "name_contains_button"; action := "increase_confidence"; weight := 50 |};
           {| condition := "has_text_content"; action := "increase_confidence"; weight := 20 |};
           {| condition := "clickable_appearance"; action := "increase_confidence"; weight := 30 |} ] |};
    (* Input mappings *)
    {| figmaType := "FRAME"; figmaName := Some "input";
       antdComponent := "Input"; confidence := 0;
       rules :=
         [ {| condition := "name_contains_input"; action := "increase_confidence"; weight := 50 |};
           {| condition := "has_border"; action := "increase_confidence"; weight := 20 |};
           {| condition := "rectangular_shape"; action := "increase_confidence"; weight := 15 |} ] |};
    (* Card mappings *)
    {| figmaType := "FRAME"; figmaName := Some "card";
       antdComponent := "Card"; confidence := 0;
       rules :=
         [ {| condition := "name_contains_card"; action := "increase_confidence"; weight := 50 |};
           {| condition := "has_background"; action := "increase_confidence"; weight := 20 |};
           {| condition := "has_shadow"; action := "increase_confidence"; weight := 25 |};
           {| condition := "contains_multiple_elements"; action := "increase_confidence"; weight := 15 |} ] |};
    (* Text/Typography mappings *)
    {| figmaType := "TEXT"; figmaName := None;
       antdComponent := "Typography.Text"; confidence := 0;
       rules :=
         [ {| condition := "is_text_node"; action := "increase_confidence"; weight := 80 |};
           {| condition := "small_font_size"; action := "prefer_text"; weight := 20 |} ] |};
    (* Default fallback *)
    {| figmaType := "FRAME"; figmaName := None;
       antdComponent := "div"; confidence := 0;
       rules :=
         [ {| condition := "is_container"; action := "use_div"; weight := 10 |} ] |} ].

(** [figmaNode.name?.toLowerCase().includes(word) || false] *)
Definition nameContains (figmaNode : ParsedComponent) (word : string) : bool :=
  match pc_name figmaNode with
  | Some n => JS.includes (JS.toLowerCase n) word
  | None => false
  end.

(** [!!xs?.length] *)
Definition nonEmpty {A : Type} (xs : option (list A)) : bool :=
  match xs with
  | Some (_ :: _) => true
  | _ => false
  end.

(** [evaluateRule]: the switch on the condition string. *)
Definition evaluateRule (rule : MappingRule) (figmaNode : ParsedComponent)
    (context : option string) : bool :=
  let c := condition rule in
  if String.eqb c "name_contains_button" then nameContains figmaNode "button"
  else if String.eqb c "name_contains_input" then nameContains figmaNode "input"
  else if String.eqb c "name_contains_card" then nameContains figmaNode "card"
  else if String.eqb c "has_text_content" then
    match pc_content figmaNode with
    | Some ct => JS.truthy_opt (text ct)
    | None => false
    end
  else if String.eqb c "has_border" then
    match pc_styling figmaNode with
    | Some st => match borderWidth st with Some w => JS.truthy_num w | None => false end
    | None => false
    end
  else if String.eqb c "has_background" then
    match pc_styling figmaNode with
    | Some st => JS.truthy_opt (backgroundColor st) || nonEmpty (fills st)
    | None => false
    end
  else if String.eqb c "has_shadow" then
    match pc_styling figmaNode with
    | Some st => nonEmpty (shadows st)
    | None => false
    end
  else if String.eqb c "is_text_node" then String.eqb (pc_type figmaNode) "TEXT"
  else if String.eqb c "rectangular_shape" then
    match pc_layout figmaNode with
    | Some l => JS.lt (height l) (width l)
    | None => false
    end
  else if String.eqb c "contains_multiple_elements" then
    match pc_children figmaNode with
    | Some cs => (1 <? List.length cs)%nat
    | None => false
    end
  else false.

(** The confidence one registry entry accumulates for a node: the body of
    the loop of [getComponentMapping] up to the threshold test. *)
Definition accumulate (mapping : ComponentMapping) (figmaNode : ParsedComponent)
    (context : option string) : Z :=
  let nodeType := pc_type figmaNode in
  let nodeName :=
    match pc_name figmaNode with
    | Some n => if JS.truthy (JS.toLowerCase n) then JS.toLowerCase n else ""
    | None => ""
    end in
  let confidence := 0 in
  (* Check type matching *)
  let confidence :=
    if String.eqb (figmaType mapping) nodeType then confidence + 30 else confidence in
  (* Check name matching *)
  let confidence :=
    match figmaName mapping with
    | Some fname =>
        if JS.truthy fname && JS.includes nodeName fname
        then confidence + 40 else confidence
    | None => confidence
    end in
  (* Apply additional rules *)
  fold_left
    (fun confidence rule =>
       if evaluateRule rule figmaNode context
       then confidence + weight rule else confidence)
    (rules mapping) confidence.

(** [{ ...mapping, confidence: c }] *)
Definition withConfidence (mapping : ComponentMapping) (c : Z) : ComponentMapping :=
  {| figmaType := figmaType mapping; figmaName := figmaName mapping;
     antdComponent := antdComponent mapping; confidence := c;
     rules := rules mapping |}.

(** The candidate an entry contributes: kept above the minimum threshold,
    with the confidence capped at 100. *)
Definition candidate (mapping : ComponentMapping) (figmaNode : ParsedComponent)
    (context : option string) : option ComponentMapping :=
  let confidence := accumulate mapping figmaNode context in
  if 20 <? confidence
  then Some (withConfidence mapping (Z.min confidence 100))
  else None.

(** The list [mappings] when the loop over the registry ends. *)
Fixpoint collect (registry : list ComponentMapping) (figmaNode : ParsedComponent)
    (context : option string) : list ComponentMapping :=
  match registry with
  | [] => []
  | mapping :: rest =>
      match candidate mapping figmaNode context with
      | Some scored => scored :: collect rest figmaNode context
      | None => collect rest figmaNode context
      end
  end.

(** The comparator [(a, b) => b.confidence - a.confidence]. *)
Definition byConfidence (a b : ComponentMapping) : Z :=
  confidence b - confidence a.

(** [getComponentMapping] over a given registry. *)
Definition getComponentMappingIn (registry : list ComponentMapping)
    (figmaNode : ParsedComponent) (context : option string)
    : list ComponentMapping :=
  JS.sort byConfidence (collect registry figmaNode context).

(** [getComponentMapping(figmaNode, context?)] *)
Definition getComponentMapping (figmaNode : ParsedComponent)
    (context : option string) : list ComponentMapping :=
  getComponentMappingIn componentMappings figmaNode context.

(** ** Synthesis *)

(** A value stored in [props] or in a style object. *)
Inductive Json :=
| JString (s : string)
| JNumber (q : Q)
| JBoolean (b : bool)
| JObject (fields : list (string * Json)).

(** [GeneratedComponentConfig]; [cfg_style] is [styling.style]. *)
Inductive GeneratedComponentConfig := mkConfig {
  cfg_component : AntdComponent;
  cfg_props : list (string * Json);
  cfg_children : option (list GeneratedComponentConfig);
  cfg_style : option (list (string * Json))
}.

Record GenerationConfig := {
  figmaData_components : list ParsedComponent;
  componentName : string;
  outputFormat : OutputFormat;
  includeStyles : bool;
  antdVersion : string
}.

Record GenerationResult := {
  code : string;
  imports : list string;
  dependencies : list string;
  warnings : list string;
  mappings : list ComponentMapping
}.

(** *** The [result] object and exceptions

    A computation reads and updates the [result] object of
    [generateComponent] and either completes or throws; what was written
    to [result] before a throw stays written. *)
Definition M (A : Type) : Type :=
  GenerationResult -> JS.Completion A * GenerationResult.

Definition ret {A} (a : A) : M A := fun st => (JS.Normal a, st).

Definition bind {A B} (m : M A) (f : A -> M B) : M B :=
  fun st =>
    match m st with
    | (JS.Normal a, st') => f a st'
    | (JS.Throw msg, st') => (JS.Throw msg, st')
    end.

Definition throw {A} (msg : string) : M A := fun st => (JS.Throw msg, st).

(** [try { body } catch (error) { handler(message of error) }] *)
Definition tryCatch {A} (body : M A) (handler : string -> M A) : M A :=
  fun st =>
    match body st with
    | (JS.Normal a, st') => (JS.Normal a, st')
    | (JS.Throw msg, st') => handler msg st'
    end.

(** The completion of a call to a collaborator. *)
Definition call {A} (c : JS.Completion A) : M A := fun st => (c, st).

Definition pushWarning (w : string) : M unit :=
  fun st =>
    (JS.Normal tt,
     {| code := code st; imports := imports st; dependencies := dependencies st;
        warnings := (warnings st ++ [w])%list; mappings := mappings st |}).

Definition pushMapping (m : ComponentMapping) : M unit :=
  fun st =>
    (JS.Normal tt,
     {| code := code st; imports := imports st; dependencies := dependencies st;
        warnings := warnings st; mappings := (mappings st ++ [m])%list |}).

Definition setCode (c : string) : M unit :=
  fun st =>
    (JS.Normal tt,
     {| code := c; imports := imports st; dependencies := dependencies st;
        warnings := warnings st; mappings := mappings st |}).

Definition setImports (i : list string) : M unit :=
  fun st =>
    (JS.Normal tt,
     {| code := code st; imports := i; dependencies := dependencies st;
        warnings := warnings st; mappings := mappings st |}).

Notation "x <- m ;; k" := (bind m (fun x => k))
  (at level 61, m at next level, right associativity).
Notation "m ;;; k" := (bind m (fun _ => k))
  (at level 61, right associativity).

(** [obj[key] = value]: an own property keeps its place, a new one goes
    last. *)
Fixpoint assign {A} (key : string) (value : A) (obj : list (string * A))
    : list (string * A) :=
  match obj with
  | [] => [(key, value)]
  | (k, v) :: obj' =>
      if String.eqb k key then (k, value) :: obj' else (k, v) :: assign key value obj'
  end.

Fixpoint lookup {A} (key : string) (obj : list (string * A)) : option A :=
  match obj with
  | [] => None
  | (k, v) :: obj' => if String.eqb k key then Some v else lookup key obj'
  end.

(** A template literal prints an absent value as [undefined]. *)
Definition show (o : option string) : string :=
  match o with Some t => t | None => "undefined" end.

Section Synthesis.
(** [this.antdAnalyzer.analyzeComponents], the injected collaborator: it
    reads the component library's sources from disk. *)
Variable analyzeComponents : list string -> JS.Completion (list AntdComponent).

(** [Number::toString], as template literals and [JSON.stringify] apply
    it to a number. *)
Variable numberToString : Q -> string.

(** [generateProps] *)
Definition generateProps (figmaComponent : ParsedComponent)
    (antdComponent : AntdComponent) : list (string * Json) :=
  let props : list (string * Json) := [] in
  (* Handle text content *)
  let props :=
    match pc_content figmaComponent with
    | Some content =>
        match text content with
        | Some t =>
            if JS.truthy t then
              if existsb (String.eqb (antd_name antdComponent)) ["Button"; "Typography"]
              then assign "children" (JString t) props
              else if String.eqb (antd_name antdComponent) "Input"
              then assign "placeholder" (JString t) props
              else props
            else props
        | None => props
        end
    | None => props
    end in
  (* Handle size based on dimensions *)
  let props :=
    match pc_layout figmaComponent with
    | Some layout =>
        if String.eqb (antd_name antdComponent) "Button" then
          if Qle_bool (height layout) 24 then assign "size" (JString "small") props
          else if Qle_bool 40 (height layout) then assign "size" (JString "large") props
          else assign "size" (JString "middle") props
        else props
    | None => props
    end in
  (* Handle styling *)
  let props :=
    match pc_styling figmaComponent with
    | Some styling =>
        if String.eqb (antd_name antdComponent) "Button" then
          (* Determine button type based on styling *)
          if match fills styling with
             | Some fs => existsb (fun fill => String.eqb (fill_type fill) "SOLID") fs
             | None => false
             end
          then assign "type" (JString "primary") props
          else if match borderWidth styling with
                  | Some w => JS.truthy_num w
                  | None => false
                  end
          then assign "type" (JString "default") props
          else props
        else props
    | None => props
    end in
  (* Handle visibility *)
  if existsb (fun p => String.eqb (property_name p) "visible" &&
                       match property_value p with
                       | VBool false => true
                       | _ => false
                       end)
             (pc_properties figmaComponent)
  then
    let spread :=
      match lookup "style" props with
      | Some (JObject fields) => fields
      | _ => []
      end in
    assign "style" (JObject (assign "display" (JString "none") spread)) props
  else props.

(** [generateStyling]: the [style] of the object it returns, if any. *)
Definition generateStyling (component : ParsedComponent)
    : option (list (string * Json)) :=
  match pc_styling component with
  | Some styling =>
      let style : list (string * Json) := [] in
      (* Background color *)
      let style :=
        match backgroundColor styling with
        | Some c => if JS.truthy c then assign "backgroundColor" (JString c) style else style
        | None => style
        end in
      (* Border *)
      let style :=
        match borderColor styling, borderWidth styling with
        | Some c, Some w =>
            if JS.truthy c && JS.truthy_num w
            then assign "border" (JString (numberToString w ++ "px solid " ++ c)) style
            else style
        | _, _ => style
        end in
      (* Border radius *)
      let style :=
        match borderRadius styling with
        | Some rad => if JS.truthy_num rad then assign "borderRadius" (JNumber rad) style else style
        | None => style
        end in
      (* Opacity *)
      let style :=
        match opacity styling with
        | Some o => assign "opacity" (JNumber o) style
        | None => style
        end in
      (* Box shadow *)
      let style :=
        match shadows styling with
        | Some (shadow :: _) =>
            assign "boxShadow"
              (JString (numberToString (shadow_x shadow) ++ "px "
                        ++ numberToString (shadow_y shadow) ++ "px "
                        ++ numberToString (shadow_blur shadow) ++ "px "
                        ++ shadow_color shadow)) style
        | _ => style
        end in
      match style with
      | [] => None
      | _ => Some style
      end
  | None => None
  end.

(** [processComponent]: the mapping of one node and, recursively, of its
    children.  A failure is recorded in [result.warnings] and the node is
    dropped ([null]). *)
Fixpoint processComponent (component : ParsedComponent)
    : M (option GeneratedComponentConfig) :=
  let '(mkParsedComponent _ name _ _ children _ _ _) := component in
  tryCatch
    ((* Get component mapping *)
     match getComponentMapping component None with
     | [] =>
         pushWarning ("No suitable Ant Design component found for: " ++ show name) ;;;
         ret None
     | bestMapping :: _ =>
         pushMapping bestMapping ;;;
         (* Get Ant Design component info *)
         antdComponents <- call (analyzeComponents [antdComponent bestMapping]) ;;
         match antdComponents with
         | [] =>
             pushWarning ("Could not analyze Ant Design component: "
                          ++ antdComponent bestMapping) ;;;
             ret None
         | antdComponent :: _ =>
             (* Generate props based on Figma component properties *)
             let props := generateProps component antdComponent in
             (* Process children *)
             childConfigs <-
               match children with
               | Some cs =>
                   (fix each (cs : list ParsedComponent)
                      : M (list GeneratedComponentConfig) :=
                      match cs with
                      | [] => ret []
                      | child :: cs' =>
                          childConfig <- processComponent child ;;
                          configs <- each cs' ;;
                          ret match childConfig with
                              | Some cfg => cfg :: configs
                              | None => configs
                              end
                      end) cs
               | None => ret []
               end ;;
             ret (Some {| cfg_component := antdComponent;
                          cfg_props := props;
                          cfg_children :=
                            match childConfigs with
                            | [] => None
                            | _ => Some childConfigs
                            end;
                          cfg_style := generateStyling component |})
         end
     end)
    (fun message =>
       pushWarning ("Failed to process component " ++ show name ++ ": " ++ message) ;;;
       ret None).

(** [processComponents] *)
Fixpoint processComponents (components : list ParsedComponent)
    : M (list GeneratedComponentConfig) :=
  match components with
  | [] => ret []
  | component :: rest =>
      config <- processComponent component ;;
      configs <- processComponents rest ;;
      ret match config with
          | Some cfg => cfg :: configs
          | None => configs
          end
  end.

(** The escape [JSON.stringify] writes for a code unit of a string
    (QuoteJSONString). *)
Definition escapeChar (ch : ascii) : string :=
  let n := nat_of_ascii ch in
  if Nat.eqb n 8 then "\b"
  else if Nat.eqb n 9 then "\t"
  else if Nat.eqb n 10 then "\n"
  else if Nat.eqb n 12 then "\f"
  else if Nat.eqb n 13 then "\r"
  else if Nat.eqb n 34 then "\" ++ JS.dq
  else if Nat.eqb n 92 then "\\"
  else if Nat.ltb n 32 then "\u00" ++ FigmaParser.channelToHex (Z.of_nat n)
  else String ch EmptyString.

Fixpoint escape (t : string) : string :=
  match t with
  | EmptyString => EmptyString
  | String ch t' => escapeChar ch ++ escape t'
  end.

Definition quoteJSON (t : string) : string := JS.dq ++ escape t ++ JS.dq.

(** [JSON.stringify(value)] *)
Fixpoint stringify (value : Json) : string :=
  match value with
  | JString t => quoteJSON t
  | JNumber q => numberToString q
  | JBoolean true => "true"
  | JBoolean false => "false"
  | JObject fields =>
      "{" ++ JS.join ","
               ((fix members (fs : list (string * Json)) : list string :=
                   match fs with
                   | [] => []
                   | (k, v) :: fs' => (quoteJSON k ++ ":" ++ stringify v) :: members fs'
                   end) fields)
          ++ "}"
  end.

(** The attribute [generateComponentJSX] writes for one entry of
    [config.props]. *)
Definition attribute (key : string) (value : Json) : string :=
  if String.eqb key "children" then "" (* Handle children separately *)
  else
    match value with
    | JString t => " " ++ key ++ "=" ++ JS.dq ++ t ++ JS.dq
    | JBoolean true => " " ++ key
    | JBoolean false => " " ++ key ++ "={false}"
    | _ => " " ++ key ++ "={" ++ stringify value ++ "}"
    end.

(** [generateComponentJSX] *)
Fixpoint generateComponentJSX (config : GeneratedComponentConfig) (indent : nat)
    : string :=
  let '(mkConfig component props children style) := config in
  let spaces := JS.repeat " " indent in
  let componentName := antd_name component in
  let jsx := spaces ++ "<" ++ componentName in
  (* Add props *)
  let jsx := jsx ++ concat "" (map (fun kv => attribute (fst kv) (snd kv)) props) in
  (* Add styling *)
  let jsx :=
    match style with
    | Some st => jsx ++ " style={" ++ stringify (JObject st) ++ "}"
    | None => jsx
    end in
  (* Handle children *)
  let textChildren :=
    match lookup "children" props with
    | Some (JString t) => if JS.truthy t then Some t else None
    | _ => None
    end in
  let hasComponentChildren :=
    match children with
    | Some (_ :: _) => true
    | _ => false
    end in
  match textChildren, hasComponentChildren with
  | None, false => jsx ++ " />" ++ JS.nl
  | _, _ =>
      let jsx := jsx ++ ">" in
      let jsx := match textChildren with Some t => jsx ++ t | None => jsx end in
      let jsx :=
        match children with
        | Some (child0 :: cs0) =>
            jsx ++ JS.nl
            ++ (fix each (cs : list GeneratedComponentConfig) : string :=
                  match cs with
                  | [] => ""
                  | child :: cs' => generateComponentJSX child (indent + 2) ++ each cs'
                  end) (child0 :: cs0)
            ++ spaces
        | _ => jsx
        end in
      jsx ++ "</" ++ componentName ++ ">" ++ JS.nl
  end.

(** [antdComponents.add(name)] on the insertion-ordered set. *)
Definition add (name : string) (set : list string) : list string :=
  if existsb (String.eqb name) set then set else (set ++ [name])%list.

(** [collectComponents], run over a list of configurations. *)
Fixpoint collectComponents (config : GeneratedComponentConfig) (set : list string)
    : list string :=
  let '(mkConfig component _ children _) := config in
  let set := add (antd_name component) set in
  match children with
  | Some cs =>
      (fix each (cs : list GeneratedComponentConfig) (set : list string) :=
         match cs with
         | [] => set
         | child :: cs' => each cs' (collectComponents child set)
         end) cs set
  | None => set
  end.

(** The default comparator of [sort()]: code unit order. *)
Definition defaultCompare (s1 s2 : string) : Z :=
  match String.compare s1 s2 with
  | Lt => -1
  | Eq => 0
  | Gt => 1
  end.

(** [generateImportStatements] *)
Definition generateImportStatements (configs : list GeneratedComponentConfig)
    : string :=
  let antdComponents :=
    fold_left (fun set config => collectComponents config set) configs [] in
  let imports :=
    [ "import React from 'react';";
      "import { " ++ JS.join ", " (JS.sort defaultCompare antdComponents)
        ++ " } from 'antd';" ] in
  JS.join JS.nl imports.

(** [generateReactCode] *)
Definition generateReactCode (componentName : string)
    (configs : list GeneratedComponentConfig) (outputFormat : OutputFormat)
    (includeStyles : bool) : string :=
  let imports := generateImportStatements configs in
  let typeAnnotations :=
    match outputFormat with typescript => ": React.FC" | javascript => "" end in
  let code := imports ++ JS.nl ++ JS.nl in
  let code :=
    match outputFormat with
    | typescript => code ++ "interface " ++ componentName ++ "Props {}" ++ JS.nl ++ JS.nl
    | javascript => code
    end in
  let code :=
    code ++ "const " ++ componentName ++ typeAnnotations ++ " = ("
    ++ match outputFormat with
       | typescript => "props: " ++ componentName ++ "Props"
       | javascript => ""
       end
    ++ ") => {" ++ JS.nl in
  let code := code ++ "  return (" ++ JS.nl in
  let code := code ++ "    <div>" ++ JS.nl in
  (* Generate JSX for each component *)
  let code :=
    fold_left (fun code config => code ++ generateComponentJSX config 6) configs code in
  let code := code ++ "    </div>" ++ JS.nl in
  let code := code ++ "  );" ++ JS.nl in
  let code := code ++ "};" ++ JS.nl ++ JS.nl in
  code ++ "export default " ++ componentName ++ ";".

(** [generateImports] *)
Definition generateImports (configs : list GeneratedComponentConfig)
    (outputFormat : OutputFormat) : list string :=
  let imports := ["react"; "antd"] in
  match outputFormat with
  | typescript => (imports ++ ["@types/react"])%list
  | javascript => imports
  end.

(** [formatCode]: [prettier.format], the unformatted code if it throws
    (the formatter of this repository does not). *)
Definition formatCode (code : string) (outputFormat : OutputFormat) : M string :=
  tryCatch (ret (Prettier.format code outputFormat)) (fun _ => ret code).

(** [generateErrorComponent] *)
Definition generateErrorComponent (componentName error : string)
    (outputFormat : OutputFormat) : string :=
  let typeAnnotation :=
    match outputFormat with typescript => ": React.FC" | javascript => "" end in
  "import React from 'react';" ++ JS.nl ++
  "import { Alert } from 'antd';" ++ JS.nl ++
  JS.nl ++
  "const " ++ componentName ++ typeAnnotation ++ " = () => {" ++ JS.nl ++
  "  return (" ++ JS.nl ++
  "    <Alert" ++ JS.nl ++
  "      message=" ++ JS.dq ++ "Component Generation Error" ++ JS.dq ++ JS.nl ++
  "      description=" ++ JS.dq ++ error ++ JS.dq ++ JS.nl ++
  "      type=" ++ JS.dq ++ "error" ++ JS.dq ++ JS.nl ++
  "      showIcon" ++ JS.nl ++
  "    />" ++ JS.nl ++
  "  );" ++ JS.nl ++
  "};" ++ JS.nl ++
  JS.nl ++
  "export default " ++ componentName ++ ";".

(** The [try] block of [generateComponent]. *)
Definition generateComponentBody (config : GenerationConfig) : M unit :=
  (* Process the main component tree *)
  let rootComponents := figmaData_components config in
  match rootComponents with
  | [] => throw "No components found in Figma data"
  | _ =>
      (* Generate component configuration *)
      componentConfigs <- processComponents rootComponents ;;
      (* Generate React code *)
      let componentCode :=
        generateReactCode (componentName config) componentConfigs
          (outputFormat config) (includeStyles config) in
      (* Format the code *)
      formatted <- formatCode componentCode (outputFormat config) ;;
      setCode formatted ;;;
      (* Add required imports *)
      setImports (generateImports componentConfigs (outputFormat config))
  end.

(** The [catch] handler of [generateComponent]. *)
Definition generateComponentHandler (config : GenerationConfig) (message : string)
    : M unit :=
  pushWarning ("Code generation failed: " ++ message) ;;;
  setCode (generateErrorComponent (componentName config) message (outputFormat config)).

Definition initialResult : GenerationResult :=
  {| code := ""; imports := ["React"]; dependencies := ["react"; "antd"];
     warnings := []; mappings := [] |}.

(** [generateComponent(config)]: the returned [result], or the exception
    that leaves the function. *)
Definition generateComponent (config : GenerationConfig)
    : JS.Completion GenerationResult :=
  match tryCatch (generateComponentBody config) (generateComponentHandler config)
          initialResult with
  | (JS.Normal _, result) => JS.Normal result
  | (JS.Throw message, _) => JS.Throw message
  end.
End Synthesis.

End CodeGenerator.

(* ===================================================================== *)
(** * validators/code-validator.ts *)
(* ===================================================================== *)

Module CodeValidator.
Import RegExp.

(** ** Interfaces *)

Record ValidationOptions := {
  strict : bool;
  checkImports : bool;
  checkProps : bool;
  checkAccessibility : bool;
  checkPerformance : bool
}.

(** [Partial<ValidationOptions>] *)
Record PartialOptions := {
  opt_strict : option bool;
  opt_checkImports : option bool;
  opt_checkProps : option bool;
  opt_checkAccessibility : option bool;
  opt_checkPerformance : option bool
}.

Definition noOptions : PartialOptions :=
  {| opt_strict := None; opt_checkImports := None; opt_checkProps := None;
     opt_checkAccessibility := None; opt_checkPerformance := None |}.

Inductive ErrorType := syntax | import | prop | accessibility | antd_usage.
Inductive Severity := error | warning.
Inductive WarningType := performance | best_practice | style.
Inductive SuggestionType := improvement | alternative | optimization.

Record ValidationError := {
  error_type : ErrorType;
  error_message : string;
  error_line : option nat;
  severity : Severity
}.

Record ValidationWarning := {
  warning_type : WarningType;
  warning_message : string;
  warning_line : option nat;
  warning_suggestion : option string
}.

Record ValidationSuggestion := {
  suggestion_type : SuggestionType;
  suggestion_message : string;
  suggestion_example : option string
}.

Record ValidationResult := {
  isValid : bool;
  errors : list ValidationError;
  warnings : list ValidationWarning;
  suggestions : list ValidationSuggestion;
  score : Z
}.

Record ImportInfo := {
  import_source : option string;
  defaultImport : option string;
  namedImports : list string;
  namespaceImport : option string;
  import_line : nat
}.

Record ComponentInfo := {
  component_name : option string;
  component_line : nat
}.

Record JSXInfo := {
  tagName : option string;
  fullMatch : string;
  jsx_line : nat;
  isAntdComponent : bool
}.

Inductive PropType := expression | string_.

Record PropInfo := {
  prop_name : option string;
  prop_value : option string;
  prop_type : PropType;
  prop_line : nat
}.

Record StyleInfo := {
  style_content : option string;
  style_line : nat
}.

Record ParsedCode := {
  raw : string;
  lines : list string;
  imports : list ImportInfo;
  components : list ComponentInfo;
  jsx : list JSXInfo;
  props : list PropInfo;
  styles : list StyleInfo
}.

(** ** Pattern extraction *)

(** [code.substring(0, index).split('\n').length] *)
Definition lineAt (code : string) (index : nat) : nat :=
  List.length (JS.split JS.LF (substring 0 index code)).

Definition quote : pattern :=
  Class (fun ch => Ascii.eqb ch "'" || Ascii.eqb ch JS.DQ).

(** [/import\s+(?:{([^}]+)}|\*\s+as\s+(\w+)|(\w+))\s+from\s+[Q]([^Q]+)[Q]/g],
    where [Q] stands for the two quote characters of the source's class. *)
Definition importRegex : pattern :=
  seq [ lit "import"; plus space;
        Alt (seq [lit "{"; Group 1 (plus (notOneOf ["}"%char])); lit "}"])
            (Alt (seq [lit "*"; plus space; lit "as"; plus space; Group 2 (plus word)])
                 (Group 3 (plus word)));
        plus space; lit "from"; plus space;
        quote; Group 4 (plus (notOneOf ["'"%char; JS.DQ])); quote ].

(** [/const\s+(\w+).*?=\s*\([^)]*\)\s*=>\s*{/g] *)
Definition funcComponentRegex : pattern :=
  seq [ lit "const"; plus space; Group 1 (plus word); LazyStar dot;
        lit "="; Star space; lit "("; Star (notOneOf [")"%char]); lit ")";
        Star space; lit "=>"; Star space; lit "{" ].

(** The pattern of [extractJSX], with flag g, piece by piece:
    [<], [(\w+)], an optional [\s+] followed by any number of [[^>]],
    then either [\s*\/>] or [>[\s\S]*?<\/\1>]. *)
Definition jsxRegex : pattern :=
  seq [ lit "<"; Group 1 (plus word);
        opt (Seq (plus space) (Star (notOneOf [">"%char])));
        Alt (Seq (Star space) (lit "/>"))
            (seq [lit ">"; LazyStar any; lit "</"; Backref 1; lit ">"]) ].

(** [/(\w+)=(?:{([^}]+)}|D([^D]+)D)/g], where [D] stands for the double
    quote of the source. *)
Definition propRegex : pattern :=
  seq [ Group 1 (plus word); lit "=";
        Alt (seq [lit "{"; Group 2 (plus (notOneOf ["}"%char])); lit "}"])
            (seq [char JS.DQ; Group 3 (plus (notOneOf [JS.DQ])); char JS.DQ]) ].

(** [/style=\{([^}]+)\}/g] *)
Definition inlineStyleRegex : pattern :=
  seq [ lit "style="; lit "{"; Group 1 (plus (notOneOf ["}"%char])); lit "}" ].

Definition extractImports (code : string) : list ImportInfo :=
  map (fun m =>
         {| import_source := groups m 4%nat;
            defaultImport := groups m 3%nat;
            namedImports :=
              match groups m 1%nat with
              | Some named =>
                  if JS.truthy named then map JS.trim (JS.split ","%char named) else []
              | None => []
              end;
            namespaceImport := groups m 2%nat;
            import_line := lineAt code (index m) |})
      (execAll importRegex code).

Definition extractComponents (code : string) : list ComponentInfo :=
  map (fun m =>
         {| component_name := groups m 1%nat;
            component_line := lineAt code (index m) |})
      (execAll funcComponentRegex code).

Section WithCatalog.
(** [this.antdComponents]: the names read from the component library's
    index file, or the fallback list below. *)
Variable antdComponents : list string.

Definition has (name : option string) : bool :=
  match name with
  | Some n => existsb (String.eqb n) antdComponents
  | None => false
  end.

Definition extractJSX (code : string) : list JSXInfo :=
  map (fun m =>
         {| tagName := groups m 1%nat;
            fullMatch := matched m;
            jsx_line := lineAt code (index m);
            isAntdComponent := has (groups m 1%nat) |})
      (execAll jsxRegex code).

Definition extractProps (code : string) : list PropInfo :=
  map (fun m =>
         let jsValue := groups m 2%nat in
         let stringValue := groups m 3%nat in
         {| prop_name := groups m 1%nat;
            prop_value := if JS.truthy_opt jsValue then jsValue else stringValue;
            prop_type := if JS.truthy_opt jsValue then expression else string_;
            prop_line := lineAt code (index m) |})
      (execAll propRegex code).

Definition extractStyles (code : string) : list StyleInfo :=
  map (fun m =>
         {| style_content := groups m 1%nat;
            style_line := lineAt code (index m) |})
      (execAll inlineStyleRegex code).

Definition parseCode (code : string) : ParsedCode :=
  {| raw := code;
     lines := JS.split JS.LF code;
     imports := extractImports code;
     components := extractComponents code;
     jsx := extractJSX code;
     props := extractProps code;
     styles := extractStyles code |}.
End WithCatalog.

(** The fallback list of [loadAntdComponents]. *)
Definition commonComponents : list string :=
  [ "Button"; "Input"; "Card"; "Typography"; "Space"; "Row"; "Col";
    "Form"; "Table"; "Modal"; "Drawer"; "Alert"; "Spin"; "Menu";
    "Dropdown"; "Tooltip"; "Popover"; "Tabs"; "Select"; "DatePicker";
    "Checkbox"; "Radio"; "Switch"; "Slider"; "Upload"; "Avatar";
    "Badge"; "Tag"; "Progress"; "Tree"; "List"; "Steps"; "Breadcrumb" ].

(** ** Validation rules *)

Record RuleResult := {
  rule_errors : list ValidationError;
  rule_warnings : list ValidationWarning;
  rule_suggestions : list ValidationSuggestion
}.

(** [initializeValidationRules]: the rule classes, in order. *)
Inductive ValidationRule :=
| ImportValidationRule
| AntdUsageValidationRule
| PropValidationRule
| AccessibilityValidationRule
| PerformanceValidationRule
| BestPracticeValidationRule.

Definition validationRules : list ValidationRule :=
  [ ImportValidationRule; AntdUsageValidationRule; PropValidationRule;
    AccessibilityValidationRule; PerformanceValidationRule;
    BestPracticeValidationRule ].

(** A template literal prints an absent value as [undefined]. *)
Definition show (o : option string) : string :=
  match o with Some t => t | None => "undefined" end.

Definition equals (o : option string) (t : string) : bool :=
  match o with Some u => String.eqb u t | None => false end.

Definition validateImports (code : ParsedCode) : RuleResult :=
  (* Check for missing React import *)
  let hasReactImport := existsb (fun imp => equals (import_source imp) "react") (imports code) in
  let errors :=
    if negb hasReactImport && (0 <? List.length (jsx code))%nat
    then [ {| error_type := import; error_message := "Missing React import";
              error_line := None; severity := error |} ]
    else [] in
  (* Check for unused imports *)
  let warnings :=
    flat_map (fun imp =>
      if equals (import_source imp) "antd" then
        flat_map (fun namedImport =>
          let isUsed := existsb (fun j => equals (tagName j) namedImport) (jsx code) in
          if negb isUsed
          then [ {| warning_type := best_practice;
                    warning_message := "Unused import: " ++ namedImport ++ " from antd";
                    warning_line := None;
                    warning_suggestion := Some "Remove unused imports to reduce bundle size" |} ]
          else [])
          (namedImports imp)
      else [])
      (imports code) in
  {| rule_errors := errors; rule_warnings := warnings; rule_suggestions := [] |}.

Definition validateAntdUsage (code : ParsedCode) : RuleResult :=
  let errors :=
    flat_map (fun j =>
      if isAntdComponent j then
        (* Check for common Ant Design mistakes *)
        if equals (tagName j) "Form.Item" && negb (existsb (fun j' => equals (tagName j') "Form") (jsx code))
        then [ {| error_type := antd_usage;
                  error_message := "Form.Item must be inside a Form component";
                  error_line := Some (jsx_line j); severity := error |} ]
        else []
      else [])
      (jsx code) in
  {| rule_errors := errors; rule_warnings := []; rule_suggestions := [] |}.

Definition validateProps (code : ParsedCode) : RuleResult :=
  let warnings :=
    flat_map (fun p =>
      if equals (prop_name p) "size" &&
         negb (existsb (equals (prop_value p)) ["small"; "middle"; "large"])
      then [ {| warning_type := best_practice;
                warning_message := "Invalid size prop value: " ++ show (prop_value p);
                warning_line := Some (prop_line p);
                warning_suggestion :=
                  Some ("Use " ++ JS.dq ++ "small" ++ JS.dq ++ ", " ++ JS.dq ++ "middle"
                        ++ JS.dq ++ ", or " ++ JS.dq ++ "large" ++ JS.dq) |} ]
      else [])
      (props code) in
  {| rule_errors := []; rule_warnings := warnings; rule_suggestions := [] |}.

Definition imageMissingAlt (j : JSXInfo) : ValidationWarning :=
  {| warning_type := best_practice;
     warning_message := "Image missing alt text";
     warning_line := Some (jsx_line j);
     warning_suggestion := Some "Add alt attribute for accessibility" |}.

Definition buttonWithoutLabel (j : JSXInfo) : ValidationWarning :=
  {| warning_type := best_practice;
     warning_message := "Button without accessible label";
     warning_line := Some (jsx_line j);
     warning_suggestion := Some "Add aria-label or text content" |}.

Definition validateAccessibility (code : ParsedCode) : RuleResult :=
  let warnings :=
    flat_map (fun j =>
      (* Check for missing alt text on images *)
      ((if equals (tagName j) "img" && negb (JS.includes (fullMatch j) "alt=")
        then [imageMissingAlt j] else [])
       ++
       (* Check for buttons without accessible labels *)
       (if equals (tagName j) "Button" && negb (JS.includes (fullMatch j) "aria-label")
           && negb (JS.includes (fullMatch j) ">")
        then [buttonWithoutLabel j] else []))%list)
      (jsx code) in
  {| rule_errors := []; rule_warnings := warnings; rule_suggestions := [] |}.

(** [lines.forEach((line, index) => ...)], [index] counted from [i]. *)
Fixpoint inlineHandlers (i : nat) (ls : list string) : list ValidationWarning :=
  match ls with
  | [] => []
  | line :: ls' =>
      ((if JS.includes line "() =>" && JS.includes line "onClick"
        then [ {| warning_type := performance;
                  warning_message := "Inline function in event handler";
                  warning_line := Some (i + 1)%nat;
                  warning_suggestion :=
                    Some "Move function outside render or use useCallback" |} ]
        else [])
       ++ inlineHandlers (S i) ls')%list
  end.

Definition validatePerformance (code : ParsedCode) : RuleResult :=
  {| rule_errors := []; rule_warnings := inlineHandlers 0 (lines code);
     rule_suggestions := [] |}.

(** [/^[A-Z]/.test(name)]: the pattern is anchored at the start. *)
Definition startsUppercase (name : option string) : bool :=
  match matchHere upper (show name) with
  | Some _ => true
  | None => false
  end.

Definition validateBestPractice (code : ParsedCode) : RuleResult :=
  let warnings :=
    flat_map (fun comp =>
      if negb (startsUppercase (component_name comp))
      then [ {| warning_type := best_practice;
                warning_message :=
                  "Component name should start with uppercase: " ++ show (component_name comp);
                warning_line := Some (component_line comp);
                warning_suggestion := None |} ]
      else [])
      (components code) in
  let suggestions :=
    if (10 <? List.length (jsx code))%nat
    then [ {| suggestion_type := improvement;
              suggestion_message :=
                "Consider breaking down large components into smaller ones";
              suggestion_example :=
                Some "Extract repeated patterns into reusable components" |} ]
    else [] in
  {| rule_errors := []; rule_warnings := warnings; rule_suggestions := suggestions |}.

(** [rule.validate(parsedCode, config)] *)
Definition ruleValidate (rule : ValidationRule) (code : ParsedCode)
    (config : ValidationOptions) : RuleResult :=
  match rule with
  | ImportValidationRule => validateImports code
  | AntdUsageValidationRule => validateAntdUsage code
  | PropValidationRule => validateProps code
  | AccessibilityValidationRule => validateAccessibility code
  | PerformanceValidationRule => validatePerformance code
  | BestPracticeValidationRule => validateBestPractice code
  end.

(** [shouldApplyRule] *)
Definition shouldApplyRule (rule : ValidationRule) (config : ValidationOptions) : bool :=
  match rule with
  | ImportValidationRule => checkImports config
  | PropValidationRule => checkProps config
  | AccessibilityValidationRule => checkAccessibility config
  | PerformanceValidationRule => checkPerformance config
  | _ => true
  end.

Definition isError (e : ValidationError) : bool :=
  match severity e with error => true | warning => false end.

Definition isWarning (e : ValidationError) : bool :=
  match severity e with warning => true | error => false end.

Definition count {A : Type} (f : A -> bool) (l : list A) : Z :=
  Z.of_nat (List.length (filter f l)).

(** [calculateScore] *)
Definition calculateScore (result : ValidationResult) : Z :=
  let score := 100 in
  (* Deduct points for errors *)
  let score := score - count isError (errors result) * 20 in
  let score := score - count isWarning (errors result) * 5 in
  let score := score - Z.of_nat (List.length (warnings result)) * 2 in
  Z.max 0 score.

(** The defaults of [validate] overridden by the caller's options. *)
Definition mergeOptions (options : PartialOptions) : ValidationOptions :=
  let pick (o : option bool) := match o with Some v => v | None => true end in
  {| strict := pick (opt_strict options);
     checkImports := pick (opt_checkImports options);
     checkProps := pick (opt_checkProps options);
     checkAccessibility := pick (opt_checkAccessibility options);
     checkPerformance := pick (opt_checkPerformance options) |}.

(** The loop of [validate] over the rules: the diagnostics of every
    applicable rule are appended to those collected so far. *)
Fixpoint runRules (rs : list ValidationRule) (code : ParsedCode)
    (config : ValidationOptions) (result : ValidationResult) : ValidationResult :=
  match rs with
  | [] => result
  | rule :: rs' =>
      let result :=
        if shouldApplyRule rule config then
          let ruleResult := ruleValidate rule code config in
          {| isValid := isValid result;
             errors := (errors result ++ rule_errors ruleResult)%list;
             warnings := (warnings result ++ rule_warnings ruleResult)%list;
             suggestions := (suggestions result ++ rule_suggestions ruleResult)%list;
             score := score result |}
        else result in
      runRules rs' code config result
  end.

(** The [try] block of [validate].  For a [code] that is a string nothing
    in it throws: the extraction is string and pattern operations only, and
    the rules read the extracted arrays. *)
Definition validateBody (antdComponents : list string) (code : string)
    (config : ValidationOptions) (result : ValidationResult)
    : JS.Completion ValidationResult :=
  (* Parse the code *)
  let parsedCode := parseCode antdComponents code in
  (* Run validation rules *)
  let result := runRules validationRules parsedCode config result in
  (* Calculate overall score *)
  let score' := calculateScore result in
  JS.Normal
    {| isValid := (List.length (filter isError (errors result)) =? 0)%nat;
       errors := errors result;
       warnings := warnings result;
       suggestions := suggestions result;
       score := score' |}.

(** [validate(code, options)] *)
Definition validate (antdComponents : list string) (code : string)
    (options : PartialOptions) : ValidationResult :=
  let config := mergeOptions options in
  let result :=
    {| isValid := true; errors := []; warnings := []; suggestions := []; score := 0 |} in
  match validateBody antdComponents code config result with
  | JS.Normal result' => result'
  | JS.Throw message =>
      {| isValid := false;
         errors :=
           (errors result
            ++ [ {| error_type := syntax;
                    error_message := "Failed to parse code: " ++ message;
                    error_line := None; severity := error |} ])%list;
         warnings := warnings result;
         suggestions := suggestions result;
         score := 0 |}
  end.

End CodeValidator.


(* ===================================================================== *)
(** * parsers/figma-parser.ts: the document tree *)
(* ===================================================================== *)

Module FigmaTree.
Local Open Scope list_scope.

(** [Paint], [Effect] and [TypeStyle] of types/figma.ts, with the fields
    the parser copies into the records above. *)
Record Paint := {
  paint_type : string;
  paint_color : option Color.t
}.

Record Effect := {
  effect_type : string;
  effect_radius : Q;
  effect_color : option Color.t;
  effect_offset : option (Q * Q)
}.

Record TypeStyle := {
  style_fontFamily : string;
  style_fontSize : Q
}.

(** [FigmaNode], with the fields the parser reads. *)
Inductive Node := mkNode {
  n_id : string;
  n_name : string;
  n_type : string;
  n_visible : option bool;
  n_locked : option bool;
  n_opacity : option Q;
  n_absoluteBoundingBox : option Rectangle;
  n_constraints : option (string * string);
  n_effects : option (list Effect);
  n_layoutAlign : option string;
  n_layoutGrow : option Q;
  n_layoutSizingHorizontal : option string;
  n_layoutSizingVertical : option string;
  n_backgroundColor : option Color.t;
  n_fills : option (list Paint);
  n_strokes : option (list Paint);
  n_strokeWeight : option Q;
  n_cornerRadius : option Q;
  n_children : option (list Node);
  n_characters : option string;
  n_style : option TypeStyle
}.

(** [findNodeById] *)
Fixpoint findNodeById (node : Node) (nodeId : string) : option Node :=
  if String.eqb (n_id node) nodeId then Some node
  else
    match n_children node with
    | Some children =>
        (fix each (children : list Node) : option Node :=
           match children with
           | [] => None
           | child :: children' =>
               match findNodeById child nodeId with
               | Some found => Some found
               | None => each children'
               end
           end) children
    | None => None
    end.

(** [extractProperties] *)
Definition extractProperties (node : Node) : list ComponentProperty :=
  let properties : list ComponentProperty := [] in
  (* Basic properties *)
  let properties :=
    match n_visible node with
    | Some v =>
        properties ++ [ {| property_name := "visible"; property_value := VBool v;
                           property_type := "boolean" |} ]
    | None => properties
    end in
  let properties :=
    match n_locked node with
    | Some v =>
        properties ++ [ {| property_name := "locked"; property_value := VBool v;
                           property_type := "boolean" |} ]
    | None => properties
    end in
  let properties :=
    match n_opacity node with
    | Some v =>
        properties ++ [ {| property_name := "opacity"; property_value := VNum v;
                           property_type := "number" |} ]
    | None => properties
    end in
  (* Layout properties *)
  let properties :=
    match n_layoutAlign node with
    | Some v =>
        if JS.truthy v
        then properties ++ [ {| property_name := "layoutAlign"; property_value := VStr v;
                                property_type := "string" |} ]
        else properties
    | None => properties
    end in
  let properties :=
    match n_layoutGrow node with
    | Some v =>
        properties ++ [ {| property_name := "layoutGrow"; property_value := VNum v;
                           property_type := "number" |} ]
    | None => properties
    end in
  let properties :=
    match n_layoutSizingHorizontal node with
    | Some v =>
        if JS.truthy v
        then properties ++ [ {| property_name := "layoutSizingHorizontal";
                                property_value := VStr v; property_type := "string" |} ]
        else properties
    | None => properties
    end in
  let properties :=
    match n_layoutSizingVertical node with
    | Some v =>
        if JS.truthy v
        then properties ++ [ {| property_name := "layoutSizingVertical";
                                property_value := VStr v; property_type := "string" |} ]
        else properties
    | None => properties
    end in
  properties.

(** The node as [extractLayout] sees it. *)
Fixpoint layoutView (node : Node) : FigmaNode :=
  let '(mkNode id name type _ _ _ box constraints _ _ _ _ _ _ _ _ _ _ children _ _) := node in
  mkFigmaNode id name type box constraints
    match children with
    | Some cs => Some (map layoutView cs)
    | None => None
    end.

(** [extractLayout] *)
Definition extractLayout (node : Node) : LayoutInfo :=
  FigmaParser.extractLayout (layoutView node).

(** [parseFill]: the type and the colour of the fill. *)
Definition parseFill (fill : Paint) : FillInfo :=
  {| fill_type := paint_type fill;
     fill_color :=
       if String.eqb (paint_type fill) "SOLID"
       then match paint_color fill with
            | Some color => Some (FigmaParser.colorToHex color)
            | None => None
            end
       else None |}.

(** The shadow [extractStyling] makes of an effect. *)
Definition shadowOf (effect : Effect) : ShadowInfo :=
  {| shadow_type := effect_type effect;
     shadow_color :=
       match effect_color effect with
       | Some color => FigmaParser.colorToHex color
       | None => "#000000"
       end;
     shadow_x :=
       match effect_offset effect with
       | Some (ox, _) => if JS.truthy_num ox then ox else 0%Q
       | None => 0%Q
       end;
     shadow_y :=
       match effect_offset effect with
       | Some (_, oy) => if JS.truthy_num oy then oy else 0%Q
       | None => 0%Q
       end;
     shadow_blur := effect_radius effect |}.

(** [extractStyling]: every member of [styling] is set by one statement of
    the source, under the condition given here. *)
Definition extractStyling (node : Node) : StylingInfo :=
  {| (* Background color *)
     backgroundColor :=
       match n_backgroundColor node with
       | Some color => Some (FigmaParser.colorToHex color)
       | None => None
       end;
     (* Border *)
     borderColor :=
       match n_strokes node with
       | Some (stroke :: _) =>
           match paint_color stroke with
           | Some color => Some (FigmaParser.colorToHex color)
           | None => None
           end
       | _ => None
       end;
     borderWidth :=
       match n_strokeWeight node with
       | Some w => if JS.truthy_num w then Some w else None
       | None => None
       end;
     (* Border radius *)
     borderRadius :=
       match n_cornerRadius node with
       | Some rad => if JS.truthy_num rad then Some rad else None
       | None => None
       end;
     (* Opacity *)
     opacity := n_opacity node;
     (* Effects (shadows, blurs, etc.) *)
     shadows :=
       match n_effects node with
       | Some (e :: es) =>
           Some (map shadowOf
                   (filter (fun effect =>
                              String.eqb (effect_type effect) "DROP_SHADOW"
                              || String.eqb (effect_type effect) "INNER_SHADOW")
                           (e :: es)))
       | _ => None
       end;
     (* Fills *)
     fills :=
       match n_fills node with
       | Some (f :: fs) => Some (map parseFill (f :: fs))
       | _ => None
       end |}.

(** [extractContent]: the text and the font. *)
Definition extractContent (node : Node) : ContentInfo :=
  {| text :=
       match n_characters node with
       | Some t => if JS.truthy t then Some t else None
       | None => None
       end;
     fontFamily :=
       match n_style node with
       | Some style => Some (style_fontFamily style)
       | None => None
       end;
     fontSize :=
       match n_style node with
       | Some style => Some (style_fontSize style)
       | None => None
       end |}.

(** [parseNode] *)
Fixpoint parseNode (node : Node) : list ParsedComponent :=
  let components : list ParsedComponent := [] in
  let component :=
    {| pc_id := n_id node;
       pc_name := Some (n_name node);
       pc_type := n_type node;
       pc_properties := extractProperties node;
       pc_layout := Some (extractLayout node);
       pc_styling := Some (extractStyling node);
       (* Extract text content if it's a text node *)
       pc_content :=
         if String.eqb (n_type node) "TEXT" && JS.truthy_opt (n_characters node)
         then Some (extractContent node)
         else None;
       (* Parse children *)
       pc_children :=
         match n_children node with
         | Some children =>
             match children with
             | [] => None
             | _ :: _ =>
                 Some ((fix each (children : list Node) : list ParsedComponent :=
                          match children with
                          | [] => []
                          | child :: children' => parseNode child ++ each children'
                          end) children)
             end
         | None => None
         end |} in
  components ++ [component].

End FigmaTree.

(* ===================================================================== *)
(** * services/figma-api.ts: keys and node ids in URLs *)
(* ===================================================================== *)

Module FigmaApi.
Import RegExp.

(** [s.match(p)] and [p.test(s)] for a pattern without flag g: the
    captures of the leftmost match. *)
Fixpoint search (p : pattern) (s : string) : option captures :=
  match matchHere p s with
  | Some (_, c) => Some c
  | None =>
      match s with
      | String _ s' => search p s'
      | EmptyString => None
      end
  end.

(** [^p$]: a match of [p] that takes the whole of [s]. *)
Definition whole (p : pattern) (s : string) : bool :=
  match run p s noCaptures
          (fun rest _ => match rest with EmptyString => Some tt | _ => None end) with
  | Some _ => true
  | None => false
  end.

(** [p{n}] *)
Fixpoint times (n : nat) (p : pattern) : pattern :=
  match n with
  | O => Empty
  | S O => p
  | S n' => Seq p (times n' p)
  end.

(** [[a-zA-Z0-9_-]] *)
Definition isKeyChar (ch : ascii) : bool :=
  inRange 97 122 ch || inRange 65 90 ch || inRange 48 57 ch
  || Ascii.eqb ch "_" || Ascii.eqb ch "-".

Definition keyChar : pattern := Class isKeyChar.

(** [/figma\.com\/(?:file|design)\/([a-zA-Z0-9_-]+)/] *)
Definition filePattern : pattern :=
  seq [ lit "figma.com/"; Alt (lit "file") (lit "design"); lit "/";
        Group 1 (plus keyChar) ].

(** [/figma\.com\/([a-zA-Z0-9_-]+)/], the fallback *)
Definition fallbackPattern : pattern :=
  seq [ lit "figma.com/"; Group 1 (plus keyChar) ].

(** [/^[a-zA-Z0-9_-]{15,}$/] *)
Definition bareKeyPattern : pattern := Seq (times 15 keyChar) (Star keyChar).

(** [extractFileKey] *)
Definition extractFileKey (figmaUrl : string) : JS.Completion string :=
  if negb (JS.truthy figmaUrl)
  then JS.Throw "Invalid Figma URL: URL must be a non-empty string"
  else
    let patterns := [filePattern; fallbackPattern] in
    match
      (fix each (patterns : list pattern) : option string :=
         match patterns with
         | [] => None
         | pattern :: patterns' =>
             match search pattern figmaUrl with
             | Some c =>
                 match c 1%nat with
                 | Some key =>
                     (* Figma file keys are usually longer than 10 chars *)
                     if JS.truthy key && (10 <? String.length key)%nat
                     then Some key
                     else each patterns'
                 | None => each patterns'
                 end
             | None => each patterns'
             end
         end) patterns
    with
    | Some key => JS.Normal key
    | None =>
        (* If it's already just a file key *)
        if whole bareKeyPattern figmaUrl
        then JS.Normal figmaUrl
        else JS.Throw ("Invalid Figma URL format: " ++ figmaUrl
                       ++ ". Expected format: https://www.figma.com/file/FILE_KEY/Title")
    end.

(** [s.replace(from, to)] for one-character strings: the first occurrence
    only. *)
Fixpoint replace (s : string) (from to : ascii) : string :=
  match s with
  | EmptyString => EmptyString
  | String ch s' => if Ascii.eqb ch from then String to s' else String ch (replace s' from to)
  end.

(** [/node-id=([^&]+)/] *)
Definition nodeIdPattern : pattern :=
  seq [ lit "node-id="; Group 1 (plus (notOneOf ["&"%char])) ].

Section NodeId.
(** [decodeURIComponent], which throws a [URIError] on a malformed
    escape. *)
Variable decodeURIComponent : string -> JS.Completion string.

(** [extractNodeId]: the id, [None] for [null]. *)
Definition extractNodeId (figmaUrl : string) : JS.Completion (option string) :=
  match search nodeIdPattern figmaUrl with
  | None => JS.Normal None
  | Some c =>
      match decodeURIComponent (match c 1%nat with Some t => t | None => "undefined" end) with
      | JS.Throw message => JS.Throw message
      | JS.Normal nodeId =>
          (* Convert URL format (28439-1428) to API format (28439:1428) *)
          let nodeId :=
            if JS.includes nodeId "-" && negb (JS.includes nodeId ":")
            then replace nodeId "-" ":"
            else nodeId in
          JS.Normal (Some nodeId)
      end
  end.
End NodeId.

End FigmaApi.

(* ===================================================================== *)
(** * Vocabulary of the properties *)
(* ===================================================================== *)

Local Open Scope list_scope.

(** [Before x y l]: an occurrence of [x] in [l] has an occurrence of [y]
    somewhere after it. *)
Inductive Before {A : Type} (x y : A) : list A -> Prop :=
| Before_here (l : list A) : In y l -> Before x y (x :: l)
| Before_later (z : A) (l : list A) : Before x y l -> Before x y (z :: l).

(** The three parts of the confidence an entry accumulates for a node. *)
Definition typeScore (mapping : ComponentMapping) (figmaNode : ParsedComponent) : Z :=
  if String.eqb (figmaType mapping) (pc_type figmaNode) then 30 else 0.

Definition nameScore (mapping : ComponentMapping) (figmaNode : ParsedComponent) : Z :=
  match figmaName mapping, pc_name figmaNode with
  | Some fname, Some n =>
      if JS.truthy fname && JS.includes (JS.toLowerCase n) fname then 40 else 0
  | Some fname, None => if JS.truthy fname && JS.includes "" fname then 40 else 0
  | None, _ => 0
  end.

Definition ruleScore (mapping : ComponentMapping) (figmaNode : ParsedComponent)
    (context : option string) : Z :=
  fold_right Z.add 0
    (map weight
       (filter (fun rule => CodeGenerator.evaluateRule rule figmaNode context)
               (rules mapping))).

(** The value of a lower-case hexadecimal digit. *)
Definition hexValue (ch : ascii) : option Z :=
  let n := Z.of_nat (nat_of_ascii ch) in
  if (48 <=? n) && (n <=? 57) then Some (n - 48)
  else if (97 <=? n) && (n <=? 102) then Some (n - 87)
  else None.

(** [s] is the two-digit hexadecimal numeral of [n]. *)
Definition twoHexDigits (s : string) (n : Z) : Prop :=
  exists hi lo vh vl,
    s = String hi (String lo EmptyString)
    /\ hexValue hi = Some vh /\ hexValue lo = Some vl
    /\ n = 16 * vh + vl.

Definition checkTwoHexDigits (s : string) (n : Z) : bool :=
  match s with
  | String hi (String lo EmptyString) =>
      match hexValue hi, hexValue lo with
      | Some vh, Some vl => n =? 16 * vh + vl
      | _, _ => false
      end
  | _ => false
  end.

(** [n] is [q] rounded to the nearest integer, a half going up. *)
Definition roundsHalfUpTo (q : Q) (n : Z) : Prop :=
  (inject_Z n <= q + (1 # 2) /\ q + (1 # 2) < inject_Z n + 1)%Q.

(** [hex] is the two-digit numeral of channel [c] scaled by 255: the
    product [p] the source computes is a finite double within [2^-46] of
    the exact product, and [hex] is the numeral of [p] rounded to the
    nearest integer [n], a half going up. *)
Definition channelHex (c : Q) (hex : string) : Prop :=
  exists (p : Q) (n : Z),
    Double.mul c 255 = Double.Finite p
    /\ (Qabs (p - c * 255) <= 1 # 2 ^ 46)%Q
    /\ roundsHalfUpTo p n /\ 0 <= n <= 255 /\ twoHexDigits hex n.

(** The double written [0.00196078431372549], which is [(2^56 - 1) / 255]
    over [2^57]: its exact product with 255 lies just below 1/2. *)
Definition faintChannel : Q :=
  Double.literal (196078431372549 # 100000000000000000).

(** [m] lies below [n] in the order of the numbers: the order of the
    rationals, with every finite number between the two infinities. *)
Definition below (m n : Double.Number) : Prop :=
  match m, n with
  | Double.Finite p, Double.Finite q => (p < q)%Q
  | Double.Finite _, Double.Infinite negative => negative = false
  | Double.Infinite negative, Double.Finite _ => negative = true
  | Double.Infinite negative, Double.Infinite negative' =>
      negative = true /\ negative' = false
  end.

(** Sample nodes. *)
Definition plainFrame : ParsedComponent :=
  mkParsedComponent "1:2" (Some "Container") "FRAME" [] None None None None.

Definition inputCard : ParsedComponent :=
  mkParsedComponent "1:4" (Some "Input Card") "FRAME" [] None
    (Some {| width := 200; height := 40; x := 0; y := 0;
             constraints := None; flexDirection := None |})
    (Some {| backgroundColor := Some "#ffffff"; borderColor := Some "#d9d9d9";
             borderWidth := Some 1%Q; borderRadius := None; opacity := None;
             shadows := None; fills := None |})
    None.

Definition childAt (id : string) (px py : Q) : FigmaNode :=
  mkFigmaNode id "Child" "RECTANGLE"
    (Some {| rect_x := px; rect_y := py; rect_width := 10; rect_height := 10 |})
    None None.

Definition frameOfTwo : FigmaNode :=
  mkFigmaNode "1:1" "Row" "FRAME" None None
    (Some [childAt "1:2" 0 0; childAt "1:3" 100 0]).

Definition groupOfTwo : FigmaNode :=
  mkFigmaNode "1:1" "Row" "GROUP" None None
    (Some [childAt "1:2" 0 0; childAt "1:3" 100 0]).

(** Two children at (0, 0.1) and (0.6, 0.7), the coordinates being the
    doubles so written. *)
Definition frameOfNearTie : FigmaNode :=
  mkFigmaNode "1:1" "Stack" "FRAME" None None
    (Some [childAt "1:2" 0 (Double.literal (1 # 10));
           childAt "1:3" (Double.literal (6 # 10)) (Double.literal (7 # 10))]).

(** The quality score in the words of the specification: 100, less 20
    per error-severity diagnostic, 5 per warning-severity diagnostic of the
    error list and 2 per warning, not below 0. *)
Definition specScore (nErrors nWarningErrors nWarnings : Z) : Z :=
  Z.max 0 (100 - 20 * nErrors - 5 * nWarningErrors - 2 * nWarnings).

Definition errorCount (result : CodeValidator.ValidationResult) : Z :=
  CodeValidator.count CodeValidator.isError (CodeValidator.errors result).

Definition warningErrorCount (result : CodeValidator.ValidationResult) : Z :=
  CodeValidator.count CodeValidator.isWarning (CodeValidator.errors result).

Definition warningCount (result : CodeValidator.ValidationResult) : Z :=
  Z.of_nat (List.length (CodeValidator.warnings result)).

(** What a pattern matches, as a relation: [Matches p s c s' c'] when [p]
    can consume the front of [s] up to [s'] and turn the captures [c] into
    [c']. *)
Inductive Iterates (R : string -> RegExp.captures -> string -> RegExp.captures -> Prop)
    : string -> RegExp.captures -> string -> RegExp.captures -> Prop :=
| Iterates_stop (s : string) (c : RegExp.captures) : Iterates R s c s c
| Iterates_step (s s1 s' : string) (c c1 c' : RegExp.captures) :
    R s c s1 c1 -> Iterates R s1 c1 s' c' -> Iterates R s c s' c'.

Fixpoint Matches (p : RegExp.pattern) (s : string) (c : RegExp.captures)
    (s' : string) (c' : RegExp.captures) : Prop :=
  match p with
  | RegExp.Empty => s' = s /\ c' = c
  | RegExp.Class cls => exists ch, s = String ch s' /\ cls ch = true /\ c' = c
  | RegExp.Seq p1 p2 => exists s1 c1, Matches p1 s c s1 c1 /\ Matches p2 s1 c1 s' c'
  | RegExp.Alt p1 p2 => Matches p1 s c s' c' \/ Matches p2 s c s' c'
  | RegExp.Star p1 => Iterates (Matches p1) s c s' c'
  | RegExp.LazyStar p1 => Iterates (Matches p1) s c s' c'
  | RegExp.Group i p1 =>
      exists c1, Matches p1 s c s' c1 /\ c' = RegExp.setCapture i (RegExp.consumed s s') c1
  | RegExp.Backref i =>
      match c i with
      | None => s' = s
      | Some t => s = (t ++ s')%string
      end /\ c' = c
  end.

(** A pattern without capture groups. *)
Fixpoint groupFree (p : RegExp.pattern) : bool :=
  match p with
  | RegExp.Empty | RegExp.Class _ | RegExp.Backref _ => true
  | RegExp.Seq p1 p2 | RegExp.Alt p1 p2 => groupFree p1 && groupFree p2
  | RegExp.Star p1 | RegExp.LazyStar p1 => groupFree p1
  | RegExp.Group _ _ => false
  end.

(** Every code unit of [s] satisfies [f]. *)
Fixpoint allChars (f : ascii -> bool) (s : string) : bool :=
  match s with
  | EmptyString => true
  | String ch s' => f ch && allChars f s'
  end.

(** Every match of [p] ends with the code unit [last]. *)
Fixpoint EndsIn (last : ascii) (p : RegExp.pattern) : Prop :=
  match p with
  | RegExp.Class cls => forall ch, cls ch = true -> ch = last
  | RegExp.Seq _ p2 => EndsIn last p2
  | RegExp.Alt p1 p2 => EndsIn last p1 /\ EndsIn last p2
  | _ => False
  end.

Definition isAntdUsage (e : CodeValidator.ValidationError) : bool :=
  match CodeValidator.error_type e with
  | CodeValidator.antd_usage => true
  | _ => false
  end.

(** Sample source texts. *)
Definition reactImport : string := "import React from 'react';" ++ JS.nl.

Definition formItemWithoutForm : string :=
  reactImport ++ "<Form.Item><Input /></Form.Item>".

Definition bareButton : string := reactImport ++ "<Button />".

Definition nestedImage : string := reactImport ++ "<div><img src='a.png' /></div>".

Definition topLevelImage : string := reactImport ++ "<img src='a.png' />".

Definition cleanResult : CodeValidator.ValidationResult :=
  {| CodeValidator.isValid := true; CodeValidator.errors := [];
     CodeValidator.warnings := []; CodeValidator.suggestions := [];
     CodeValidator.score := 100 |}.

Definition notButtonWarning (w : CodeValidator.ValidationWarning) : Prop :=
  CodeValidator.warning_message w <> "Button without accessible label".

(** The message of the exception [generateComponent] throws at an empty
    component list. *)
Definition noComponents : string := "No components found in Figma data".

(** The [result] object after [result.warnings.push(w)]. *)
Definition withWarning (st : CodeGenerator.GenerationResult) (w : string)
    : CodeGenerator.GenerationResult :=
  {| CodeGenerator.code := CodeGenerator.code st;
     CodeGenerator.imports := CodeGenerator.imports st;
     CodeGenerator.dependencies := CodeGenerator.dependencies st;
     CodeGenerator.warnings := CodeGenerator.warnings st ++ [w];
     CodeGenerator.mappings := CodeGenerator.mappings st |}.

(** The [result] object after [result.mappings.push(m)]. *)
Definition withMapping (st : CodeGenerator.GenerationResult) (m : ComponentMapping)
    : CodeGenerator.GenerationResult :=
  {| CodeGenerator.code := CodeGenerator.code st;
     CodeGenerator.imports := CodeGenerator.imports st;
     CodeGenerator.dependencies := CodeGenerator.dependencies st;
     CodeGenerator.warnings := CodeGenerator.warnings st;
     CodeGenerator.mappings := CodeGenerator.mappings st ++ [m] |}.

(** The component definition the synthesizer writes around an empty list
    of configurations: a definition with an empty body. *)
Definition emptyBodyDefinition (numberToString : Q -> string) (name : string)
    (format : OutputFormat) (includeStyles : bool) : string :=
  Prettier.format
    (CodeGenerator.generateReactCode numberToString name [] format includeStyles) format.

(** Sample collaborators: a catalog that knows every name, one that knows
    none, and one whose disk access fails. *)
Definition fullCatalog (names : list string) : JS.Completion (list AntdComponent) :=
  JS.Normal (map (fun n => {| antd_name := n; antd_displayName := n;
                              antd_category := "Other" |}) names).

Definition emptyCatalog (names : list string) : JS.Completion (list AntdComponent) :=
  JS.Normal [].

Definition failingCatalog (names : list string) : JS.Completion (list AntdComponent) :=
  JS.Throw "EACCES".

(** [Number::toString] on integers (the samples hold no other number). *)
Definition integerToString (q : Q) : string :=
  DecimalString.NilZero.string_of_int (Z.to_int (Qfloor q)).

Definition configOf (components : list ParsedComponent) : CodeGenerator.GenerationConfig :=
  {| CodeGenerator.figmaData_components := components;
     CodeGenerator.componentName := "App";
     CodeGenerator.outputFormat := typescript;
     CodeGenerator.includeStyles := true;
     CodeGenerator.antdVersion := "5.x" |}.

(** The five entries of the registry, by target component. *)
Definition buttonEntry : ComponentMapping :=
  {| figmaType := "COMPONENT"; figmaName := Some "button";
     antdComponent := "Button"; confidence := 0;
     rules :=
       [ {| condition := "name_contains_button"; action := "increase_confidence"; weight := 50 |};
         {| condition := "has_text_content"; action := "increase_confidence"; weight := 20 |};
         {| condition := "clickable_appearance"; action := "increase_confidence"; weight := 30 |} ] |}.

Definition textEntry : ComponentMapping :=
  {| figmaType := "TEXT"; figmaName := None;
     antdComponent := "Typography.Text"; confidence := 0;
     rules :=
       [ {| condition := "is_text_node"; action := "increase_confidence"; weight := 80 |};
         {| condition := "small_font_size"; action := "prefer_text"; weight := 20 |} ] |}.

(** [!!figmaNode.content?.text] *)
Definition hasText (figmaNode : ParsedComponent) : bool :=
  match pc_content figmaNode with
  | Some ct => JS.truthy_opt (text ct)
  | None => false
  end.

(** The lower-cased name of the node holds none of the words the registry
    looks for. *)
Definition plainName (figmaNode : ParsedComponent) : Prop :=
  CodeGenerator.nameContains figmaNode "button" = false
  /\ CodeGenerator.nameContains figmaNode "input" = false
  /\ CodeGenerator.nameContains figmaNode "card" = false.

Definition textNode (name content : string) : ParsedComponent :=
  mkParsedComponent "2:1" (Some name) "TEXT" [] None None None
    (Some {| text := Some content; fontFamily := None; fontSize := None |}).

Definition componentNode (name : string) : ParsedComponent :=
  mkParsedComponent "3:1" (Some name) "COMPONENT" [] None None None None.


(** [figmaComponent.properties.some(p => p.name === 'visible' && p.value === false)] *)
Definition isHidden (figmaComponent : ParsedComponent) : bool :=
  existsb (fun p => String.eqb (property_name p) "visible" &&
                    match property_value p with
                    | VBool false => true
                    | _ => false
                    end)
          (pc_properties figmaComponent).

(** The non-empty text of a node, if it has one. *)
Definition textOf (figmaComponent : ParsedComponent) : option string :=
  match pc_content figmaComponent with
  | Some ct =>
      match text ct with
      | Some t => if JS.truthy t then Some t else None
      | None => None
      end
  | None => None
  end.

Definition catalogEntry (name : string) : AntdComponent :=
  {| antd_name := name; antd_displayName := name; antd_category := "Other" |}.

Definition sizedNode (h : Q) : ParsedComponent :=
  mkParsedComponent "4:1" (Some "Submit button") "COMPONENT" [] None
    (Some {| width := 120; height := h; x := 0; y := 0;
             constraints := None; flexDirection := None |})
    None None.

Definition hiddenNode : ParsedComponent :=
  mkParsedComponent "4:2" (Some "Layer") "FRAME"
    [ {| property_name := "visible"; property_value := VBool false;
         property_type := "boolean" |} ]
    None None None None.


(** The four steps of [generateProps], each from the [props] built so far:
    text content, size, button type, visibility. *)
Definition textProps (figmaComponent : ParsedComponent) (antdComponent : AntdComponent)
    (props : list (string * CodeGenerator.Json)) : list (string * CodeGenerator.Json) :=
  match textOf figmaComponent with
  | Some t =>
      if existsb (String.eqb (antd_name antdComponent)) ["Button"; "Typography"]
      then CodeGenerator.assign "children" (CodeGenerator.JString t) props
      else if String.eqb (antd_name antdComponent) "Input"
      then CodeGenerator.assign "placeholder" (CodeGenerator.JString t) props
      else props
  | None => props
  end.

Definition sizeProps (figmaComponent : ParsedComponent) (antdComponent : AntdComponent)
    (props : list (string * CodeGenerator.Json)) : list (string * CodeGenerator.Json) :=
  match pc_layout figmaComponent with
  | Some layout =>
      if String.eqb (antd_name antdComponent) "Button" then
        if Qle_bool (height layout) 24
        then CodeGenerator.assign "size" (CodeGenerator.JString "small") props
        else if Qle_bool 40 (height layout)
        then CodeGenerator.assign "size" (CodeGenerator.JString "large") props
        else CodeGenerator.assign "size" (CodeGenerator.JString "middle") props
      else props
  | None => props
  end.

Definition typeOf (figmaComponent : ParsedComponent) : option string :=
  match pc_styling figmaComponent with
  | Some styling =>
      if match fills styling with
         | Some fs => existsb (fun fill => String.eqb (fill_type fill) "SOLID") fs
         | None => false
         end
      then Some "primary"
      else if match borderWidth styling with
              | Some w => JS.truthy_num w
              | None => false
              end
      then Some "default"
      else None
  | None => None
  end.

Definition typeProps (figmaComponent : ParsedComponent) (antdComponent : AntdComponent)
    (props : list (string * CodeGenerator.Json)) : list (string * CodeGenerator.Json) :=
  match typeOf figmaComponent with
  | Some t =>
      if String.eqb (antd_name antdComponent) "Button"
      then CodeGenerator.assign "type" (CodeGenerator.JString t) props
      else props
  | None => props
  end.

Definition hiddenProps (figmaComponent : ParsedComponent)
    (props : list (string * CodeGenerator.Json)) : list (string * CodeGenerator.Json) :=
  if isHidden figmaComponent then
    CodeGenerator.assign "style"
      (CodeGenerator.JObject
         (CodeGenerator.assign "display" (CodeGenerator.JString "none")
            match CodeGenerator.lookup "style" props with
            | Some (CodeGenerator.JObject fields) => fields
            | _ => []
            end))
      props
  else props.


(** The [result] object after the warnings [ws] and the mappings [ms] were
    pushed to it, in this order each. *)
Definition extended (st : CodeGenerator.GenerationResult) (ws : list string)
    (ms : list ComponentMapping) : CodeGenerator.GenerationResult :=
  {| CodeGenerator.code := CodeGenerator.code st;
     CodeGenerator.imports := CodeGenerator.imports st;
     CodeGenerator.dependencies := CodeGenerator.dependencies st;
     CodeGenerator.warnings := (CodeGenerator.warnings st ++ ws)%list;
     CodeGenerator.mappings := (CodeGenerator.mappings st ++ ms)%list |}.

(** The number of nodes of a parsed tree, of a forest, and the same for
    the configurations made from them. *)
Fixpoint nodeCount (component : ParsedComponent) : nat :=
  S match pc_children component with
    | Some cs => list_sum (map nodeCount cs)
    | None => 0
    end.

Definition nodeTotal (components : list ParsedComponent) : nat :=
  list_sum (map nodeCount components).

Fixpoint configCount (config : CodeGenerator.GeneratedComponentConfig) : nat :=
  S match CodeGenerator.cfg_children config with
    | Some cs => list_sum (map configCount cs)
    | None => 0
    end.

Definition configTotal (configs : list CodeGenerator.GeneratedComponentConfig) : nat :=
  list_sum (map configCount configs).

(** A node the registry maps to a component the catalog knows. *)
Definition convertible
    (analyzeComponents : list string -> JS.Completion (list AntdComponent))
    (component : ParsedComponent) : bool :=
  match CodeGenerator.getComponentMapping component None with
  | best :: _ =>
      match analyzeComponents [antdComponent best] with
      | JS.Normal (_ :: _) => true
      | _ => false
      end
  | [] => false
  end.

(** [test] holds of the node and of every node below it. *)
Fixpoint everyNode (test : ParsedComponent -> bool) (component : ParsedComponent) : bool :=
  test component &&
  match pc_children component with
  | Some cs => forallb (everyNode test) cs
  | None => true
  end.

(** The three warnings of [processComponent], by their fixed text. *)
Definition nodeWarning (w : string) : bool :=
  JS.startsWith w "No suitable Ant Design component found for: "
  || JS.startsWith w "Could not analyze Ant Design component: "
  || JS.startsWith w "Failed to process component ".

(** What [processComponent] leaves behind for one node: the configuration
    [config] (none if the node was dropped), the warnings [ws] and the
    mappings [ms] it pushed. *)
Definition optionCount (config : option CodeGenerator.GeneratedComponentConfig) : nat :=
  match config with Some cfg => configCount cfg | None => 0%nat end.

Definition nodeOutcome
    (analyzeComponents : list string -> JS.Completion (list AntdComponent))
    (component : ParsedComponent)
    (config : option CodeGenerator.GeneratedComponentConfig) (ws : list string)
    (ms : list ComponentMapping) : Prop :=
  (optionCount config + List.length ws <= nodeCount component)%nat
  /\ (optionCount config <= List.length ms <= optionCount config + List.length ws)%nat
  /\ (config = None -> List.length ws = 1%nat)
  /\ (ws = [] <-> everyNode (convertible analyzeComponents) component = true)
  /\ (ws = [] -> optionCount config = nodeCount component)
  /\ Forall (fun w => nodeWarning w = true) ws.

(** The same for [processComponents] on a forest. *)
Definition forestOutcome
    (analyzeComponents : list string -> JS.Completion (list AntdComponent))
    (components : list ParsedComponent)
    (configs : list CodeGenerator.GeneratedComponentConfig) (ws : list string)
    (ms : list ComponentMapping) : Prop :=
  (configTotal configs + List.length ws <= nodeTotal components)%nat
  /\ (configTotal configs <= List.length ms <= configTotal configs + List.length ws)%nat
  /\ (List.length components <= List.length configs + List.length ws)%nat
  /\ (List.length configs <= List.length components)%nat
  /\ (ws = [] <-> forallb (everyNode (convertible analyzeComponents)) components = true)
  /\ (ws = [] -> List.length configs = List.length components
                 /\ configTotal configs = nodeTotal components)
  /\ Forall (fun w => nodeWarning w = true) ws.

(** The component names of a configuration and of those below it, in the
    order [collectComponents] visits them. *)
Fixpoint namesOf (config : CodeGenerator.GeneratedComponentConfig) : list string :=
  antd_name (CodeGenerator.cfg_component config) ::
  match CodeGenerator.cfg_children config with
  | Some cs => flat_map namesOf cs
  | None => []
  end.

(** Strictly ascending in the order of the code units. *)
Definition ascending (names : list string) : Prop :=
  StronglySorted (fun a b => String.compare a b = Lt) names.

(** [collectComponents] keeps the set free of duplicates and adds the
    names of the configuration to it, no other. *)
Definition collected (config : CodeGenerator.GeneratedComponentConfig) : Prop :=
  forall set,
    (NoDup set -> NoDup (CodeGenerator.collectComponents config set))
    /\ (forall n, In n (CodeGenerator.collectComponents config set)
                  <-> In n set \/ In n (namesOf config)).

(** The one error of the import rule, and the condition under which
    [validate] meets it: imports are checked, no import statement names the
    source [react], and the tag scan found something. *)
Definition missingReactImport : CodeValidator.ValidationError :=
  {| CodeValidator.error_type := CodeValidator.import;
     CodeValidator.error_message := "Missing React import";
     CodeValidator.error_line := None;
     CodeValidator.severity := CodeValidator.error |}.

Definition lacksReactImport (antdComponents : list string) (code : string)
    (options : CodeValidator.PartialOptions) : bool :=
  CodeValidator.checkImports (CodeValidator.mergeOptions options)
  && negb (existsb (fun imp => CodeValidator.equals (CodeValidator.import_source imp) "react")
             (CodeValidator.extractImports code))
  && (0 <? List.length (CodeValidator.extractJSX antdComponents code))%nat.

(** A line number, where there is one, lies within the lines of [code]. *)
Definition lineInRange (code : string) (line : option nat) : Prop :=
  match line with
  | Some n => (1 <= n <= List.length (JS.split JS.LF code))%nat
  | None => True
  end.

(** [Scanned before rest found]: the stretches of text [found], each with
    a line number, lie in [rest] one after the other, without overlap, and
    the line number of each is the number of lines of the text in front of
    it, [before] included. *)
Inductive Scanned : string -> string -> list (nat * string) -> Prop :=
| Scanned_nil (before rest : string) : Scanned before rest []
| Scanned_cons (before gap text rest : string) (line : nat) (found : list (nat * string)) :
    line = List.length (JS.split JS.LF (before ++ gap)) ->
    Scanned (before ++ gap ++ text) rest found ->
    Scanned before (gap ++ text ++ rest) ((line, text) :: found).

(** A code unit other than the line feed. *)
Definition noLineFeed (ch : ascii) : bool := negb (Ascii.eqb ch JS.LF).

(** The nodes of a document, and the components of a parsed tree, in
    document order: a node, then the nodes below its first child, and so
    on. *)
Fixpoint documentOrder (node : FigmaTree.Node) : list FigmaTree.Node :=
  node ::
  match FigmaTree.n_children node with
  | Some children => flat_map documentOrder children
  | None => []
  end.

Fixpoint parsedOrder (component : ParsedComponent) : list ParsedComponent :=
  component ::
  match pc_children component with
  | Some children => flat_map parsedOrder children
  | None => []
  end.

(** A node with nothing but an id, a name and a type, and the same with
    children. *)
Definition leafNode (id name type : string) : FigmaTree.Node :=
  FigmaTree.mkNode id name type None None None None None None None None None None None
    None None None None None None None.

Definition branchNode (id name type : string) (children : list FigmaTree.Node)
    : FigmaTree.Node :=
  FigmaTree.mkNode id name type None None None None None None None None None None None
    None None None None (Some children) None None.

(** What every component of the parser has: a name, a layout, a styling,
    and children only if there is at least one. *)
Definition complete (component : ParsedComponent) : Prop :=
  (exists name layout styling,
      pc_name component = Some name
      /\ pc_layout component = Some layout
      /\ pc_styling component = Some styling)
  /\ pc_children component <> Some [].

(** The node types the registry has an entry for. *)
Definition knownType (type : string) : bool :=
  existsb (String.eqb type) ["FRAME"; "COMPONENT"; "TEXT"].

(** A catalog that returns an entry for every single name. *)
Definition knowsEveryName
    (analyzeComponents : list string -> JS.Completion (list AntdComponent)) : Prop :=
  forall name, exists entry others, analyzeComponents [name] = JS.Normal (entry :: others).

(** Sample documents: a page with a title, and a text layer. *)
Definition pageWithTitle : FigmaTree.Node :=
  branchNode "0:1" "Page" "FRAME" [leafNode "0:2" "Title" "TEXT"].

Definition titleLayer : FigmaTree.Node :=
  FigmaTree.mkNode "0:2" "Title" "TEXT" None None None None None None None None None None
    None None None None None None (Some "Welcome") None.

(** [rest] is empty or starts with a code unit outside the class [cls]. *)
Definition stopsAt (cls : ascii -> bool) (rest : string) : bool :=
  match rest with
  | String ch _ => negb (cls ch)
  | EmptyString => true
  end.

(** A code unit other than the letter f. *)
Definition notF (ch : ascii) : bool := negb (Ascii.eqb "f" ch).

(** A percent-decoding that leaves every text as it is (texts without
    escapes). *)
Definition noEscapes (t : string) : JS.Completion string := JS.Normal t.

(** The class [[^&]] of the node id pattern, and the digits. *)
Definition notAmpersand (ch : ascii) : bool := negb (existsb (Ascii.eqb ch) ["&"%char]).

Definition isDigit (ch : ascii) : bool := RegExp.inRange 48 57 ch.

(** The first line of every component the generator writes. *)
Definition reactLine : string := "import React from 'react';".

(* ===================================================================== *)
(** * Properties of the mapping engine *)
(* ===================================================================== *)

Section SortFacts.
Context {A : Type} (cmp : A -> A -> Z).

Lemma insert_perm (a : A) (l : list A) :
  Permutation (JS.insert cmp a l) (a :: l).
Proof.
  induction l as [|b l IH]; simpl.
  - apply Permutation_refl.
  - destruct (cmp a b <=? 0).
    + apply Permutation_refl.
    + eapply perm_trans; [apply perm_skip, IH | apply perm_swap].
Qed.

Lemma sort_perm (l : list A) : Permutation (JS.sort cmp l) l.
Proof.
  induction l as [|a l IH]; simpl.
  - constructor.
  - eapply perm_trans; [apply insert_perm | apply perm_skip, IH].
Qed.

Lemma sort_In (a : A) (l : list A) : In a (JS.sort cmp l) <-> In a l.
Proof.
  split; apply Permutation_in; [|apply Permutation_sym]; apply sort_perm.
Qed.

Lemma Before_In_tail (x y : A) (l : list A) :
  Before x y l -> In y (tl l).
Proof.
  induction 1 as [l Hy | z l HB IH]; simpl; [assumption|].
  destruct HB; simpl in *; auto.
Qed.

Lemma Before_split (x y : A) (l : list A) :
  Before x y l -> exists l1 l2 l3, l = l1 ++ x :: l2 ++ y :: l3.
Proof.
  induction 1 as [l Hy | z l HB (l1 & l2 & l3 & ->)].
  - apply in_split in Hy as (l2 & l3 & ->). now exists [], l2, l3.
  - now exists (z :: l1), l2, l3.
Qed.

(** Inserting an element keeps every other pair in its order. *)
Lemma insert_keeps_Before (a x y : A) (l : list A) :
  Before x y l -> Before x y (JS.insert cmp a l).
Proof.
  induction 1 as [l Hy | z l HB IH]; simpl.
  - destruct (cmp a x <=? 0).
    + apply Before_later, Before_here, Hy.
    + apply Before_here.
      apply (Permutation_in _ (Permutation_sym (insert_perm a l))). now right.
  - destruct (cmp a z <=? 0).
    + now do 2 apply Before_later.
    + now apply Before_later.
Qed.

(** An inserted element lands in front of everything it need not follow. *)
Lemma insert_lands_Before (a y : A) (l : list A) :
  In y l -> cmp a y <= 0 -> Before a y (JS.insert cmp a l).
Proof.
  intros Hy Hc. induction l as [|b l IH]; [destruct Hy|]. simpl.
  destruct (Z.leb_spec (cmp a b) 0) as [Hb|Hb].
  - now apply Before_here.
  - apply Before_later, IH. destruct Hy as [->|Hy]; [lia | assumption].
Qed.

(** Stability together with sortedness: a pair in input order that the
    comparator does not want exchanged stays in that order. *)
Lemma sort_keeps_Before (x y : A) (l : list A) :
  Before x y l -> cmp x y <= 0 -> Before x y (JS.sort cmp l).
Proof.
  intros HB Hc. induction HB as [l Hy | z l HB IH]; simpl.
  - apply insert_lands_Before; [now apply sort_In | assumption].
  - now apply insert_keeps_Before.
Qed.

End SortFacts.

Section MappingFacts.
Import CodeGenerator.
Variables (figmaNode : ParsedComponent) (context : option string).

Lemma candidate_Some (mapping scored : ComponentMapping) :
  candidate mapping figmaNode context = Some scored ->
  20 < accumulate mapping figmaNode context /\
  scored = withConfidence mapping (Z.min (accumulate mapping figmaNode context) 100).
Proof.
  unfold candidate. destruct (Z.ltb_spec 20 (accumulate mapping figmaNode context)).
  - intros [= <-]. now split.
  - discriminate.
Qed.

Lemma candidate_above (mapping : ComponentMapping) :
  20 < accumulate mapping figmaNode context ->
  candidate mapping figmaNode context =
  Some (withConfidence mapping (Z.min (accumulate mapping figmaNode context) 100)).
Proof.
  intros H. unfold candidate.
  destruct (Z.ltb_spec 20 (accumulate mapping figmaNode context)); [reflexivity | lia].
Qed.

Lemma collect_In (registry : list ComponentMapping) (scored : ComponentMapping) :
  In scored (collect registry figmaNode context) <->
  exists mapping, In mapping registry /\ candidate mapping figmaNode context = Some scored.
Proof.
  induction registry as [|m registry IH]; simpl.
  - split; [intros [] | intros (? & [] & _)].
  - destruct (candidate m figmaNode context) as [c|] eqn:E; simpl; rewrite IH; split.
    + intros [<- | (m' & Hin & Hc)]; [exists m | exists m']; auto.
    + intros (m' & [<- | Hin] & Hc); [left; congruence | right; eauto].
    + intros (m' & Hin & Hc). exists m'; auto.
    + intros (m' & [<- | Hin] & Hc); [congruence | eauto].
Qed.

Lemma collect_Before (registry : list ComponentMapping) (i j : nat)
    (mi mj ci cj : ComponentMapping) :
  (i < j)%nat ->
  nth_error registry i = Some mi ->
  nth_error registry j = Some mj ->
  candidate mi figmaNode context = Some ci ->
  candidate mj figmaNode context = Some cj ->
  Before ci cj (collect registry figmaNode context).
Proof.
  revert i j. induction registry as [|m registry IH]; intros i j Hij Hi Hj Hci Hcj.
  - destruct i; discriminate.
  - destruct j as [|j]; [lia|]. simpl in Hj. destruct i as [|i]; simpl in Hi.
    + injection Hi as ->. simpl. rewrite Hci. apply Before_here.
      apply collect_In. exists mj. split; [eapply nth_error_In; eassumption | assumption].
    + assert (HB : Before ci cj (collect registry figmaNode context))
        by (apply (IH i j); [lia | assumption..]).
      simpl. destruct (candidate m figmaNode context); [apply Before_later|]; exact HB.
Qed.

Lemma collect_names (registry : list ComponentMapping) (name : string) :
  In name (map antdComponent (collect registry figmaNode context)) ->
  In name (map antdComponent registry).
Proof.
  rewrite !in_map_iff. intros (c & <- & Hc).
  apply collect_In in Hc as (m & Hm & Hc).
  apply candidate_Some in Hc as [_ ->]. now exists m.
Qed.

Lemma collect_NoDup (registry : list ComponentMapping) :
  NoDup (map antdComponent registry) ->
  NoDup (map antdComponent (collect registry figmaNode context)).
Proof.
  induction registry as [|m registry IH]; simpl; intros H.
  - constructor.
  - inversion H as [|? ? Hm Hrest]; subst.
    destruct (candidate m figmaNode context) as [c|] eqn:E; simpl; [|auto].
    constructor; [|auto].
    apply candidate_Some in E as [_ ->]. simpl.
    intros Hin. apply Hm. now apply collect_names.
Qed.

(** The confidence is the sum of what the type match, the name match and
    the true predicates contribute. *)
Lemma accumulate_parts (mapping : ComponentMapping) :
  accumulate mapping figmaNode context =
  typeScore mapping figmaNode + nameScore mapping figmaNode
  + ruleScore mapping figmaNode context.
Proof.
  unfold accumulate, typeScore, nameScore, ruleScore. cbv zeta.
  assert (Hfold : forall rs c,
             fold_left (fun confidence rule =>
                          if evaluateRule rule figmaNode context
                          then confidence + weight rule else confidence) rs c
             = c + fold_right Z.add 0
                     (map weight (filter (fun rule => evaluateRule rule figmaNode context) rs))).
  { induction rs as [|rule rs IH]; intros c; simpl.
    - lia.
    - rewrite IH. destruct (evaluateRule rule figmaNode context); simpl; lia. }
  rewrite Hfold. f_equal.
  destruct (figmaName mapping) as [fname|];
    destruct (String.eqb (figmaType mapping) (pc_type figmaNode)); try lia.
  - destruct (pc_name figmaNode) as [n|].
    + replace (if JS.truthy (JS.toLowerCase n) then JS.toLowerCase n else "")
        with (JS.toLowerCase n) by (destruct (JS.toLowerCase n); reflexivity).
      destruct (JS.truthy fname && JS.includes (JS.toLowerCase n) fname); lia.
    + destruct (JS.truthy fname && JS.includes "" fname); lia.
  - destruct (pc_name figmaNode) as [n|].
    + replace (if JS.truthy (JS.toLowerCase n) then JS.toLowerCase n else "")
        with (JS.toLowerCase n) by (destruct (JS.toLowerCase n); reflexivity).
      destruct (JS.truthy fname && JS.includes (JS.toLowerCase n) fname); lia.
    + destruct (JS.truthy fname && JS.includes "" fname); lia.
Qed.

End MappingFacts.

(** The sort by confidence puts a candidate of the largest confidence
    first. *)
Lemma insert_byConfidence_head (a best : ComponentMapping)
    (l rest : list ComponentMapping) :
  (forall b r, l = b :: r -> Forall (fun m => confidence m <= confidence b) r) ->
  JS.insert CodeGenerator.byConfidence a l = best :: rest ->
  Forall (fun m => confidence m <= confidence best) rest.
Proof.
  intros Hl. destruct l as [|b l]; simpl.
  - intros [= <- <-]. constructor.
  - specialize (Hl b l eq_refl). unfold CodeGenerator.byConfidence at 1.
    destruct (Z.leb_spec (confidence b - confidence a) 0) as [Hle | Hgt].
    + intros [= <- <-]. constructor; [lia|].
      eapply Forall_impl; [|exact Hl]. simpl. intros m Hm. lia.
    + intros [= <- <-].
      assert (Hperm : Permutation (JS.insert CodeGenerator.byConfidence a l) (a :: l))
        by apply insert_perm.
      eapply Permutation_Forall; [apply Permutation_sym, Hperm|].
      constructor; [lia | exact Hl].
Qed.

Lemma sort_byConfidence_head (l : list ComponentMapping) :
  forall best rest,
    JS.sort CodeGenerator.byConfidence l = best :: rest ->
    Forall (fun m => confidence m <= confidence best) rest.
Proof.
  induction l as [|a l IH]; simpl; intros best rest H; [discriminate|].
  eapply insert_byConfidence_head; [exact IH | exact H].
Qed.

Lemma componentMappings_NoDup :
  NoDup (map antdComponent CodeGenerator.componentMappings).
Proof.
  simpl. repeat constructor; simpl; intuition discriminate.
Qed.

(** C1 -- tie-break by registration order.  When two entries of the
    registry, the first registered before the second, both clear the
    threshold for a node and end with the same confidence, that is the same
    accumulated sum capped at 100, which is the value the sort compares,
    the candidate of the earlier entry stands in front of the candidate of
    the later one in the list [getComponentMapping] returns.  This covers
    the ties the cap makes out of different sums.  The head of the list,
    which is the best mapping [processComponent] selects, has the largest
    confidence of the list and is never the later entry of such a pair. *)
Theorem getComponentMapping_tie_break :
  forall (figmaNode : ParsedComponent) (context : option string)
         (i j : nat) (earlier later : ComponentMapping),
    (i < j)%nat ->
    nth_error CodeGenerator.componentMappings i = Some earlier ->
    nth_error CodeGenerator.componentMappings j = Some later ->
    20 < CodeGenerator.accumulate earlier figmaNode context ->
    20 < CodeGenerator.accumulate later figmaNode context ->
    Z.min (CodeGenerator.accumulate earlier figmaNode context) 100
      = Z.min (CodeGenerator.accumulate later figmaNode context) 100 ->
    let c := Z.min (CodeGenerator.accumulate earlier figmaNode context) 100 in
    (exists l1 l2 l3,
        CodeGenerator.getComponentMapping figmaNode context
        = l1 ++ CodeGenerator.withConfidence earlier c
             :: l2 ++ CodeGenerator.withConfidence later c :: l3)
    /\ (forall best rest,
           CodeGenerator.getComponentMapping figmaNode context = best :: rest ->
           antdComponent best <> antdComponent later
           /\ Forall (fun m => confidence m <= confidence best) rest).
Proof.
  intros figmaNode context i j earlier later Hij Hi Hj Hthr Hthr' Heq c.
  pose proof (candidate_above figmaNode context earlier Hthr) as Hci.
  pose proof (candidate_above figmaNode context later Hthr') as Hcj.
  rewrite <- Heq in Hcj. fold c in Hci, Hcj.
  assert (HB : Before (CodeGenerator.withConfidence earlier c)
                      (CodeGenerator.withConfidence later c)
                      (CodeGenerator.getComponentMapping figmaNode context)).
  { unfold CodeGenerator.getComponentMapping, CodeGenerator.getComponentMappingIn.
    apply sort_keeps_Before.
    - eapply collect_Before; eassumption.
    - unfold CodeGenerator.byConfidence. simpl. lia. }
  split.
  - now apply Before_split.
  - intros best rest Hres. split; [|now apply (sort_byConfidence_head _ _ _ Hres)].
    intros Hname.
    assert (Hnd : NoDup (map antdComponent
                           (CodeGenerator.getComponentMapping figmaNode context))).
    { unfold CodeGenerator.getComponentMapping, CodeGenerator.getComponentMappingIn.
      eapply Permutation_NoDup.
      - apply Permutation_map, Permutation_sym, sort_perm.
      - apply collect_NoDup, componentMappings_NoDup. }
    apply Before_In_tail in HB. rewrite Hres in HB, Hnd. simpl in HB, Hnd.
    inversion Hnd as [|? ? Hnotin _]; subst. apply Hnotin.
    rewrite Hname. apply in_map_iff.
    exists (CodeGenerator.withConfidence later c). now split.
Qed.

(** For a bordered, filled frame named "Input Card" the entry for Input
    (registered second) accumulates 155 and the entry for Card (registered
    third) 140: both are stored with confidence 100, and Input comes
    first. *)
Lemma getComponentMapping_tie_break_witness :
  exists l1 l2 l3,
    CodeGenerator.getComponentMapping inputCard None
    = l1 ++ {| figmaType := "FRAME"; figmaName := Some "input";
               antdComponent := "Input"; confidence := 100;
               rules :=
                 [ {| condition := "name_contains_input"; action := "increase_confidence"; weight := 50 |};
                   {| condition := "has_border"; action := "increase_confidence"; weight := 20 |};
                   {| condition := "rectangular_shape"; action := "increase_confidence"; weight := 15 |} ] |}
         :: l2 ++ {| figmaType := "FRAME"; figmaName := Some "card";
                     antdComponent := "Card"; confidence := 100;
                     rules :=
                       [ {| condition := "name_contains_card"; action := "increase_confidence"; weight := 50 |};
                         {| condition := "has_background"; action := "increase_confidence"; weight := 20 |};
                         {| condition := "has_shadow"; action := "increase_confidence"; weight := 25 |};
                         {| condition := "contains_multiple_elements"; action := "increase_confidence"; weight := 15 |} ] |}
         :: l3.
Proof.
  refine (proj1 (getComponentMapping_tie_break inputCard None 1 2 _ _ _
                   eq_refl eq_refl eq_refl eq_refl eq_refl)).
  unfold lt. apply le_n.
Defined.

(** C2 -- confidence range.  Every candidate [getComponentMapping] returns
    comes from a registry entry whose accumulated confidence (30 for a type
    match, 40 for a name match, the weight of each true predicate) exceeds
    20, and carries that confidence capped at 100: it lies in (20, 100], so
    it is never negative.  When no entry exceeds the threshold the list is
    empty. *)
Theorem getComponentMapping_confidence_range :
  forall (figmaNode : ParsedComponent) (context : option string),
    (forall scored,
        In scored (CodeGenerator.getComponentMapping figmaNode context) ->
        20 < confidence scored <= 100 /\
        exists mapping,
          In mapping CodeGenerator.componentMappings /\
          20 < typeScore mapping figmaNode + nameScore mapping figmaNode
               + ruleScore mapping figmaNode context /\
          scored = CodeGenerator.withConfidence mapping
                     (Z.min (typeScore mapping figmaNode + nameScore mapping figmaNode
                             + ruleScore mapping figmaNode context) 100))
    /\ ((forall mapping,
            In mapping CodeGenerator.componentMappings ->
            CodeGenerator.accumulate mapping figmaNode context <= 20) ->
        CodeGenerator.getComponentMapping figmaNode context = []).
Proof.
  intros figmaNode context. split.
  - intros scored Hin.
    unfold CodeGenerator.getComponentMapping, CodeGenerator.getComponentMappingIn in Hin.
    apply sort_In in Hin. apply collect_In in Hin as (mapping & Hm & Hc).
    apply candidate_Some in Hc as [Hthr ->].
    rewrite accumulate_parts in *. simpl. split; [lia|].
    exists mapping. auto.
  - intros Hlow.
    unfold CodeGenerator.getComponentMapping, CodeGenerator.getComponentMappingIn.
    assert (Hnil : CodeGenerator.collect CodeGenerator.componentMappings figmaNode context = []).
    { destruct (CodeGenerator.collect _ _ _) as [|c l] eqn:E; [reflexivity|].
      assert (Hc : In c (CodeGenerator.collect CodeGenerator.componentMappings figmaNode context))
        by (rewrite E; now left).
      apply collect_In in Hc as (mapping & Hm & Hc).
      apply candidate_Some in Hc as [Hthr _]. specialize (Hlow mapping Hm). lia. }
    now rewrite Hnil.
Qed.

(** A rectangle is matched by no entry: the list is empty; a plain frame
    gets three candidates, each with confidence 30. *)
Lemma getComponentMapping_confidence_range_witness :
  CodeGenerator.getComponentMapping
    (mkParsedComponent "1:3" (Some "Shape") "RECTANGLE" [] None None None None) None = []
  /\ map confidence (CodeGenerator.getComponentMapping plainFrame None) = [30; 30; 30]
  /\ 20 < 30 <= 100.
Proof.
  split; [|split].
  - apply (proj2 (getComponentMapping_confidence_range
                    (mkParsedComponent "1:3" (Some "Shape") "RECTANGLE" [] None None None None)
                    None)).
    intros mapping Hin. simpl in Hin.
    repeat (destruct Hin as [<- | Hin]; [vm_compute; discriminate|]). destruct Hin.
  - reflexivity.
  - lia.
Defined.

(** C10 -- a frame is never unmappable.  For a node whose type tag is
    FRAME, whatever its name, styling or children, the fallback entry
    targeting [div] accumulates exactly 30 from the type match alone, which
    exceeds the threshold of 20: [getComponentMapping] returns a non-empty
    list that holds the [div] candidate with confidence 30. *)
Theorem frame_always_mappable :
  forall (figmaNode : ParsedComponent) (context : option string),
    pc_type figmaNode = "FRAME" ->
    (exists best rest,
        CodeGenerator.getComponentMapping figmaNode context = best :: rest)
    /\ (exists scored,
           In scored (CodeGenerator.getComponentMapping figmaNode context) /\
           antdComponent scored = "div" /\ confidence scored = 30).
Proof.
  intros figmaNode context Hty.
  set (div := {| figmaType := "FRAME"; figmaName := None; antdComponent := "div";
                 confidence := 0;
                 rules := [ {| condition := "is_container"; action := "use_div"; weight := 10 |} ] |}).
  assert (Hacc : CodeGenerator.accumulate div figmaNode context = 30).
  { unfold CodeGenerator.accumulate. rewrite Hty. reflexivity. }
  assert (Hin : In (CodeGenerator.withConfidence div 30)
                   (CodeGenerator.getComponentMapping figmaNode context)).
  { unfold CodeGenerator.getComponentMapping, CodeGenerator.getComponentMappingIn.
    apply sort_In, collect_In. exists div. split.
    - simpl. tauto.
    - rewrite candidate_above; rewrite Hacc; [reflexivity | lia]. }
  split.
  - destruct (CodeGenerator.getComponentMapping figmaNode context) as [|best rest];
      [destruct Hin | eauto].
  - exists (CodeGenerator.withConfidence div 30). auto.
Qed.

Lemma frame_always_mappable_witness :
  exists scored,
    In scored (CodeGenerator.getComponentMapping plainFrame None) /\
    antdComponent scored = "div" /\ confidence scored = 30.
Proof.
  exact (proj2 (frame_always_mappable plainFrame None eq_refl)).
Defined.

(* ===================================================================== *)
(** * Properties of the parser *)
(* ===================================================================== *)

Lemma lt_iff (p q : Q) : JS.lt p q = true <-> (p < q)%Q.
Proof.
  unfold JS.lt. rewrite negb_true_iff. split.
  - intros H. apply Qnot_le_lt. intros Hle.
    apply Qle_bool_iff in Hle. congruence.
  - intros H. destruct (Qle_bool q p) eqn:E; [|reflexivity].
    apply Qle_bool_iff in E. exfalso. exact (Qlt_not_le _ _ H E).
Qed.

Lemma Double_lt_iff (m n : Double.Number) :
  Double.lt m n = true <-> below m n.
Proof.
  destruct m as [p|[|]], n as [q|[|]]; simpl; try apply lt_iff;
    intuition congruence.
Qed.

(** C8, as amended -- inferred primary axis.  For every node of type FRAME
    or COMPONENT with at least two children whose first two children both
    have a bounding box, [extractLayout] sets [flexDirection]: to [row]
    exactly when the absolute horizontal distance between the first two
    children exceeds the absolute vertical distance, and to [column]
    otherwise.  The two distances are the ones the source computes: each
    is the absolute value of a difference of two coordinates, rounded to
    the nearest double. *)
Theorem extractLayout_flexDirection :
  forall (node first second : FigmaNode) (others : list FigmaNode)
         (box1 box2 : Rectangle),
    node_type node = "FRAME" \/ node_type node = "COMPONENT" ->
    node_children node = Some (first :: second :: others) ->
    absoluteBoundingBox first = Some box1 ->
    absoluteBoundingBox second = Some box2 ->
    let dx := Double.abs (Double.sub (rect_x box1) (rect_x box2)) in
    let dy := Double.abs (Double.sub (rect_y box1) (rect_y box2)) in
    (flexDirection (FigmaParser.extractLayout node) = Some row <-> below dy dx)
    /\ (flexDirection (FigmaParser.extractLayout node) = Some column <-> ~ below dy dx).
Proof.
  intros node first second others box1 box2 Hty Hch Hb1 Hb2 dx dy.
  assert (Hfd : flexDirection (FigmaParser.extractLayout node)
                = Some (if Double.lt dy dx then row else column)).
  { simpl. unfold FigmaParser.inferFlexDirection.
    replace (String.eqb (node_type node) "FRAME" || String.eqb (node_type node) "COMPONENT")
      with true by (destruct Hty as [-> | ->]; reflexivity).
    rewrite Hch, Hb1, Hb2. reflexivity. }
  rewrite Hfd. pose proof (Double_lt_iff dy dx) as Hlt.
  destruct (Double.lt dy dx); split; split; intros H;
    try reflexivity; try discriminate.
  - now apply Hlt.
  - exfalso. apply H. now apply Hlt.
  - apply Hlt in H. discriminate.
  - intros H'. apply Hlt in H'. discriminate.
Qed.

(** The children of [frameOfNearTie] lie at (0, 0.1) and (0.6, 0.7).  The
    exact vertical distance of these doubles is smaller than the exact
    horizontal one, but the two differences round to the same double, so
    the horizontal distance does not exceed the vertical one and the axis
    is [column]. *)
Lemma extractLayout_flexDirection_witness :
  (Qabs (Double.literal (1 # 10) - Double.literal (7 # 10))
     < Qabs (0 - Double.literal (6 # 10)))%Q
  /\ flexDirection (FigmaParser.extractLayout frameOfNearTie) = Some column.
Proof.
  split; [reflexivity|].
  apply (proj2 (extractLayout_flexDirection frameOfNearTie
                  (childAt "1:2" 0 (Double.literal (1 # 10)))
                  (childAt "1:3" (Double.literal (6 # 10)) (Double.literal (7 # 10)))
                  [] _ _ (or_introl eq_refl) eq_refl eq_refl eq_refl)).
  vm_compute. intros H. discriminate H.
Defined.

(** Two children side by side, 100 apart horizontally and level, give
    [row]. *)
Lemma extractLayout_row_of_two :
  flexDirection (FigmaParser.extractLayout frameOfTwo) = Some row.
Proof.
  reflexivity.
Qed.

(** C8, as stated, fails on a container that is neither a FRAME nor a
    COMPONENT: a GROUP whose two children lie side by side, 100 apart
    horizontally and 0 vertically, gets no inferred axis at all. *)
Lemma extractLayout_group_has_no_axis :
  node_children groupOfTwo = Some [childAt "1:2" 0 0; childAt "1:3" 100 0]
  /\ below (Double.abs (Double.sub 0 0)) (Double.abs (Double.sub 0 100))
  /\ (Qabs (0 - 0) < Qabs (0 - 100))%Q
  /\ flexDirection (FigmaParser.extractLayout groupOfTwo) = None.
Proof.
  repeat split.
Qed.

(** ** Rounding to the nearest double *)

Lemma reaches_exponent (n d : Z) :
  0 < n -> 0 < d -> Double.reaches n d (Double.exponent n d) = true.
Proof.
  intros Hn Hd. unfold Double.exponent.
  destruct (Double.reaches n d (Z.log2 n - Z.log2 d)) eqn:E; [exact E|].
  pose proof (Z.log2_spec n Hn) as [Hn1 Hn2].
  pose proof (Z.log2_spec d Hd) as [Hd1 Hd2].
  pose proof (Z.log2_nonneg n) as Hln. pose proof (Z.log2_nonneg d) as Hld.
  set (ln := Z.log2 n) in *. set (ld := Z.log2 d) in *.
  unfold Double.reaches.
  destruct (0 <=? ln - ld - 1) eqn:Es.
  - apply Z.leb_le in Es. apply Z.leb_le.
    assert (H : 2 ^ (ln - ld - 1) * 2 ^ (Z.succ ld) = 2 ^ ln).
    { rewrite <- Z.pow_add_r by lia. f_equal. lia. }
    assert (Hp : 0 < 2 ^ (ln - ld - 1)) by (apply Z.pow_pos_nonneg; lia).
    nia.
  - apply Z.leb_gt in Es. apply Z.leb_le.
    assert (H : 2 ^ ln * 2 ^ (- (ln - ld - 1)) = 2 ^ (Z.succ ld)).
    { rewrite <- Z.pow_add_r by lia. f_equal. lia. }
    assert (Hp : 0 < 2 ^ (- (ln - ld - 1))) by (apply Z.pow_pos_nonneg; lia).
    nia.
Qed.

Lemma nearestEven_nonneg (a b : Z) :
  0 <= a -> 0 < b -> 0 <= Double.nearestEven a b.
Proof.
  intros Ha Hb. unfold Double.nearestEven.
  assert (H : 0 <= a / b) by (apply Z.div_pos; lia).
  destruct (2 * (a mod b) ?= b); [destruct (Z.even (a / b))| |]; lia.
Qed.

(** Rounding does not step over an integer bound. *)
Lemma nearestEven_le (a b k : Z) :
  0 < b -> a <= k * b -> Double.nearestEven a b <= k.
Proof.
  intros Hb Ha. unfold Double.nearestEven.
  pose proof (Z.div_mod a b ltac:(lia)) as Hdm.
  pose proof (Z.mod_pos_bound a b Hb) as Hm.
  assert (Hf : a / b <= k) by (apply Z.div_le_upper_bound; lia).
  assert (Hup : 0 < a mod b -> a / b + 1 <= k) by nia.
  destruct (2 * (a mod b) ?= b) eqn:E.
  - apply Z.compare_eq in E. destruct (Z.even (a / b)); [lia|]. apply Hup. lia.
  - lia.
  - rewrite Z.compare_gt_iff in E. apply Hup. lia.
Qed.

(** The rounded integer lies within a half of the ratio. *)
Lemma nearestEven_near (a b : Z) :
  0 < b -> Z.abs (2 * (Double.nearestEven a b * b - a)) <= b.
Proof.
  intros Hb. unfold Double.nearestEven.
  pose proof (Z.div_mod a b ltac:(lia)) as Hdm.
  pose proof (Z.mod_pos_bound a b Hb) as Hm.
  destruct (2 * (a mod b) ?= b) eqn:E.
  - apply Z.compare_eq in E. destruct (Z.even (a / b)); nia.
  - rewrite Z.compare_lt_iff in E. nia.
  - rewrite Z.compare_gt_iff in E. nia.
Qed.

(** A positive ratio below [2^8]: the double nearest to it is finite,
    stays within the integer bound of the ratio and lies within [2^-46]
    of it. *)
Lemma roundPositive_small (n d k : Z) :
  0 < n -> 0 < d -> n <= k * d -> k < 2 ^ 8 ->
  exists p,
    Double.roundPositive false n d = Double.Finite p
    /\ (0 <= p <= inject_Z k)%Q
    /\ (Qabs (p - (n # Z.to_pos d)) <= 1 # 2 ^ 46)%Q.
Proof.
  intros Hn Hd Hk Hk8. unfold Double.roundPositive.
  pose proof (reaches_exponent n d Hn Hd) as Hr.
  set (e := Double.exponent n d) in *.
  assert (He : e < 8).
  { destruct (Z.lt_ge_cases e 8) as [H|H]; [exact H|exfalso].
    unfold Double.reaches in Hr.
    replace (0 <=? e) with true in Hr by (symmetry; apply Z.leb_le; lia).
    apply Z.leb_le in Hr.
    assert (H8 : 2 ^ 8 <= 2 ^ e) by (apply Z.pow_le_mono_r; lia).
    nia. }
  set (E := Z.max e (-1022) - 52).
  assert (HE : E <= -45) by (unfold E; lia).
  replace (0 <=? E) with false by (symmetry; apply Z.leb_gt; lia).
  set (P := 2 ^ (- E)).
  assert (HP : 2 ^ 45 <= P) by (apply Z.pow_le_mono_r; lia).
  assert (HP0 : 0 < P) by (apply Z.pow_pos_nonneg; lia).
  set (m := Double.nearestEven (n * P) d).
  assert (Hm0 : 0 <= m) by (apply nearestEven_nonneg; nia).
  assert (Hmk : m <= k * P) by (apply nearestEven_le; nia).
  pose proof (nearestEven_near (n * P) d Hd) as Hnear. fold m in Hnear.
  exists (m # Z.to_pos P). simpl Double.signed. split; [reflexivity|]. split.
  - unfold Qle. simpl. rewrite Z2Pos.id by lia. lia.
  - unfold Qminus, Qplus, Qopp, Qabs, Qle. simpl.
    rewrite Pos2Z.inj_mul, !Z2Pos.id by lia.
    change (Z.pos (2 ^ 46)) with (2 * 2 ^ 45).
    apply Z.le_trans with (Z.abs (2 * (m * d - n * P)) * 2 ^ 45).
    + rewrite Z.abs_mul. change (Z.abs 2) with 2.
      assert (Z.abs (m * d + - n * P) = Z.abs (m * d - n * P)) by (f_equal; lia).
      nia.
    + nia.
Qed.

(** The product in [colorToHex]: for a channel in [0, 1] it is a finite
    double in [0, 255], within [2^-46] of the exact product. *)
Lemma mul_255_range (c : Q) :
  (0 <= c <= 1)%Q ->
  exists p,
    Double.mul c 255 = Double.Finite p
    /\ (0 <= p <= 255)%Q
    /\ (Qabs (p - c * 255) <= 1 # 2 ^ 46)%Q.
Proof.
  intros [H0 H1]. destruct c as [n d]. unfold Double.mul, Double.round.
  unfold Qle in H0, H1. simpl in H0, H1.
  destruct n as [|n|n]; [| |lia].
  - exists 0%Q. repeat split; discriminate.
  - change (Qnum ((Z.pos n # d) * 255)) with (Z.pos (n * 255)).
    change (Qden ((Z.pos n # d) * 255)) with (d * 1)%positive.
    destruct (roundPositive_small (Z.pos (n * 255)) (Z.pos (d * 1)) 255
                ltac:(lia) ltac:(lia) ltac:(lia) ltac:(reflexivity))
      as (p & Hp & Hrange & Hnear).
    exists p. repeat split; try apply Hrange; [exact Hp | exact Hnear].
Qed.

(** Rounding in [colorToHex]: [JS.round q] is the integer [n] with
    [n - 1/2 <= q < n + 1/2]. *)
Lemma round_half_up (q : Q) : roundsHalfUpTo q (JS.round q).
Proof.
  unfold roundsHalfUpTo, JS.round. split.
  - apply Qfloor_le.
  - pose proof (Qlt_floor (q + (1 # 2))) as H.
    rewrite inject_Z_plus in H. exact H.
Qed.

Lemma round_byte_range (p : Q) :
  (0 <= p <= 255)%Q -> 0 <= JS.round p <= 255.
Proof.
  intros [H0 H1]. unfold JS.round. split.
  - change 0 with (Qfloor 0). apply Qfloor_resp_le.
    apply Qle_trans with p; [assumption|].
    rewrite <- (Qplus_0_r p) at 1. apply Qplus_le_r. discriminate.
  - assert (H : (p + (1 # 2) < 256)%Q).
    { apply Qle_lt_trans with (255 + (1 # 2))%Q; [|reflexivity].
      apply Qplus_le_l. assumption. }
    assert (Hlt : Qfloor (p + (1 # 2)) < 256).
    { rewrite Zlt_Qlt. eapply Qle_lt_trans; [apply Qfloor_le | exact H]. }
    lia.
Qed.

Lemma checkTwoHexDigits_sound (s : string) (n : Z) :
  checkTwoHexDigits s n = true -> twoHexDigits s n.
Proof.
  unfold checkTwoHexDigits, twoHexDigits.
  destruct s as [|hi [|lo [|? ?]]]; try discriminate.
  destruct (hexValue hi) as [vh|] eqn:Eh; [|discriminate].
  destruct (hexValue lo) as [vl|] eqn:El; [|discriminate].
  intros H. apply Z.eqb_eq in H. exists hi, lo, vh, vl. auto.
Qed.

Lemma channelToHex_byte (n : Z) :
  0 <= n <= 255 -> twoHexDigits (FigmaParser.channelToHex n) n.
Proof.
  intros Hn.
  assert (Hall : forallb (fun k => checkTwoHexDigits
                                     (FigmaParser.channelToHex (Z.of_nat k)) (Z.of_nat k))
                         (seq 0 256) = true) by (vm_compute; reflexivity).
  rewrite forallb_forall in Hall.
  specialize (Hall (Z.to_nat n)). rewrite Z2Nat.id in Hall by lia.
  apply checkTwoHexDigits_sound, Hall, in_seq. lia.
Qed.

(** One channel of [colorToHex]. *)
Lemma channel_of_unit (c : Q) :
  (0 <= c <= 1)%Q ->
  exists hex,
    FigmaParser.roundedToHex (Double.mathRound (Double.mul c 255)) = hex
    /\ channelHex c hex.
Proof.
  intros Hc. destruct (mul_255_range c Hc) as (p & Hp & Hrange & Hnear).
  exists (FigmaParser.channelToHex (JS.round p)). split.
  - rewrite Hp. reflexivity.
  - exists p, (JS.round p). repeat split; try assumption;
      try apply round_half_up; try (apply round_byte_range; assumption).
    apply channelToHex_byte, round_byte_range. assumption.
Qed.

(** C7, as amended -- colour normalisation.  For a colour whose channels
    lie in [0, 1], [colorToHex] returns [#] followed by one two-digit
    lower-case hexadecimal string per channel: the digits of the integer
    nearest to the product of the channel and 255, a half going up, where
    the product is the one double arithmetic gives, the exact product
    rounded to the nearest double, which lies within [2^-46] of it.
    Channel 1 gives [ff], channel 0 gives [00] and channel 1/2 gives
    [80]. *)
Theorem colorToHex_round_half_up :
  (forall color : Color.t,
      (0 <= Color.r color <= 1)%Q ->
      (0 <= Color.g color <= 1)%Q ->
      (0 <= Color.b color <= 1)%Q ->
      exists rr gg bb,
        FigmaParser.colorToHex color = ("#" ++ rr ++ gg ++ bb)%string
        /\ channelHex (Color.r color) rr
        /\ channelHex (Color.g color) gg
        /\ channelHex (Color.b color) bb)
  /\ FigmaParser.colorToHex {| Color.r := 1; Color.g := 0; Color.b := 1 # 2;
                               Color.a := Some 1%Q |} = "#ff0080".
Proof.
  split; [|reflexivity].
  intros color Hr Hg Hb.
  destruct (channel_of_unit _ Hr) as (rr & Err & Hrr).
  destruct (channel_of_unit _ Hg) as (gg & Egg & Hgg).
  destruct (channel_of_unit _ Hb) as (bb & Ebb & Hbb).
  exists rr, gg, bb. split; [|auto].
  unfold FigmaParser.colorToHex. cbv zeta. cbn [map].
  rewrite Err, Egg, Ebb. reflexivity.
Qed.

Lemma colorToHex_round_half_up_witness :
  exists rr gg bb,
    FigmaParser.colorToHex {| Color.r := 1; Color.g := 0; Color.b := 1 # 2;
                              Color.a := None |} = ("#" ++ rr ++ gg ++ bb)%string
    /\ channelHex 1 rr /\ channelHex 0 gg /\ channelHex (1 # 2) bb.
Proof.
  apply (proj1 colorToHex_round_half_up
           {| Color.r := 1; Color.g := 0; Color.b := 1 # 2; Color.a := None |});
    simpl; split; discriminate.
Defined.

(** C7, as stated, fails where the product is rounded onto a half.
    [faintChannel] is a double in [0, 1]; its exact product with 255 is
    [(2^56 - 1) / 2^57], which rounds, a half going up, to 0, so that the
    channel would read [00].  The source multiplies in double arithmetic:
    the product is exactly 1/2, which rounds to 1, and the channel reads
    [01]. *)
Lemma colorToHex_rounds_the_double_product :
  Double.representable faintChannel = true
  /\ (0 <= faintChannel <= 1)%Q
  /\ (faintChannel * 255 == (2 ^ 56 - 1) # 2 ^ 57)%Q
  /\ roundsHalfUpTo (faintChannel * 255) 0
  /\ (exists p, Double.mul faintChannel 255 = Double.Finite p /\ (p == 1 # 2)%Q)
  /\ FigmaParser.colorToHex {| Color.r := faintChannel; Color.g := 1 # 2;
                               Color.b := 1; Color.a := None |} = "#0180ff".
Proof.
  split; [vm_compute; reflexivity|].
  split; [split; vm_compute; discriminate|].
  split; [vm_compute; reflexivity|].
  split; [split; vm_compute; [discriminate | reflexivity]|].
  split; [|vm_compute; reflexivity].
  eexists. split; [vm_compute; reflexivity | vm_compute; reflexivity].
Qed.

(* ===================================================================== *)
(** * Properties of the validator *)
(* ===================================================================== *)

Lemma calculateScore_spec (result : CodeValidator.ValidationResult) :
  CodeValidator.calculateScore result
  = specScore (errorCount result) (warningErrorCount result) (warningCount result).
Proof.
  unfold CodeValidator.calculateScore, specScore, errorCount, warningErrorCount,
    warningCount.
  f_equal. lia.
Qed.

Lemma count_nonneg {A : Type} (f : A -> bool) (l : list A) :
  0 <= CodeValidator.count f l.
Proof. unfold CodeValidator.count. lia. Qed.

(** C3 -- score and validity.  For every source text and every choice of
    options, the result of [validate] has the score
    max(0, 100 - 20 e - 5 w - 2 p), with [e] its error-severity diagnostics,
    [w] the warning-severity diagnostics of its error list and [p] its
    plain warnings: 100 without diagnostics, 0 from five error-severity
    diagnostics on, as [calculateScore] gives for any result; and [isValid]
    holds exactly when [e] is zero, whatever the score. *)
Theorem validate_score_and_validity :
  (forall (antdComponents : list string) (code : string)
          (options : CodeValidator.PartialOptions),
      let result := CodeValidator.validate antdComponents code options in
      CodeValidator.score result
      = specScore (errorCount result) (warningErrorCount result) (warningCount result)
      /\ (CodeValidator.isValid result = true <-> errorCount result = 0))
  /\ (forall result : CodeValidator.ValidationResult,
         CodeValidator.calculateScore result
         = specScore (errorCount result) (warningErrorCount result) (warningCount result)
         /\ 0 <= CodeValidator.calculateScore result <= 100
         /\ (CodeValidator.errors result = [] -> CodeValidator.warnings result = [] ->
             CodeValidator.calculateScore result = 100)
         /\ (5 <= errorCount result -> CodeValidator.calculateScore result = 0)).
Proof.
  split.
  - intros antdComponents code options result. split.
    + unfold result, CodeValidator.validate, CodeValidator.validateBody. cbv zeta.
      cbn [CodeValidator.score]. rewrite calculateScore_spec. reflexivity.
    + unfold result, CodeValidator.validate, CodeValidator.validateBody,
        errorCount, CodeValidator.count.
      cbv zeta. cbn [CodeValidator.isValid CodeValidator.errors].
      rewrite Nat.eqb_eq. lia.
  - intros result. rewrite calculateScore_spec.
    pose proof (count_nonneg CodeValidator.isError (CodeValidator.errors result)) as He.
    pose proof (count_nonneg CodeValidator.isWarning (CodeValidator.errors result)) as Hw.
    unfold specScore, errorCount, warningErrorCount, warningCount in *.
    repeat split; try lia.
    intros -> ->. reflexivity.
Qed.

(** A lone image without [alt] and without the React import: one error,
    one warning, score 78, not valid. *)
Lemma validate_score_and_validity_witness :
  CodeValidator.score
    (CodeValidator.validate CodeValidator.commonComponents "<img src='a.png' />"
       CodeValidator.noOptions) = specScore 1 0 1
  /\ CodeValidator.isValid
       (CodeValidator.validate CodeValidator.commonComponents "<img src='a.png' />"
          CodeValidator.noOptions) = false.
Proof.
  split.
  - exact (proj1 (proj1 validate_score_and_validity CodeValidator.commonComponents
                    "<img src='a.png' />" CodeValidator.noOptions)).
  - reflexivity.
Defined.

(** ** The matcher against the relation *)

Section MatcherFacts.
Import RegExp.
Context {R : Type}.

Lemma repeat_sound (greedy : bool)
    (body : string -> captures -> continuation (R := R) -> option R)
    (Rel : string -> captures -> string -> captures -> Prop)
    (k : continuation) :
  (forall s c k' res,
      body s c k' = Some res -> exists s' c', Rel s c s' c' /\ k' s' c' = Some res) ->
  forall fuel s c res,
    RegExp.repeat greedy body k fuel s c = Some res ->
    exists s' c', Iterates Rel s c s' c' /\ k s' c' = Some res.
Proof.
  intros Hbody. induction fuel as [|fuel IH]; intros s c res H; simpl in H.
  - exists s, c. split; [constructor | assumption].
  - set (again := body s c _) in H.
    assert (Hagain : forall r, again = Some r ->
              exists s' c', Iterates Rel s c s' c' /\ k s' c' = Some r).
    { intros r Hr. apply Hbody in Hr as (s1 & c1 & HR & Hk).
      destruct (String.length s1 <? String.length s)%nat; [|discriminate].
      apply IH in Hk as (s' & c' & Hit & Hk).
      exists s', c'. split; [econstructor; eassumption | assumption]. }
    assert (Hstop : forall r, k s c = Some r ->
              exists s' c', Iterates Rel s c s' c' /\ k s' c' = Some r).
    { intros r Hr. exists s, c. split; [constructor | assumption]. }
    destruct greedy.
    + destruct again as [r|]; [injection H as <-; now apply Hagain | now apply Hstop].
    + destruct (k s c) as [r|]; [injection H as <-; now apply Hstop | now apply Hagain].
Qed.

Lemma startsWith_app (s t : string) :
  JS.startsWith s t = true -> s = (t ++ drop (String.length t) s)%string.
Proof.
  revert s. induction t as [|ch t IH]; intros s H; simpl in *.
  - reflexivity.
  - destruct s as [|d s]; [discriminate|].
    apply andb_prop in H as [Hc Ht]. apply Ascii.eqb_eq in Hc as ->.
    f_equal. now apply IH.
Qed.

Lemma run_sound (p : pattern) :
  forall s c (k : continuation (R := R)) res,
    run p s c k = Some res ->
    exists s' c', Matches p s c s' c' /\ k s' c' = Some res.
Proof.
  induction p as [|cls|p1 IH1 p2 IH2|p1 IH1 p2 IH2|p1 IH1|p1 IH1|i p1 IH1|i];
    intros s c k res H; simpl in H.
  - exists s, c. simpl. auto.
  - destruct s as [|ch s]; [discriminate|].
    destruct (cls ch) eqn:E; [|discriminate].
    exists s, c. simpl. split; [exists ch; auto | assumption].
  - apply IH1 in H as (s1 & c1 & H1 & H).
    apply IH2 in H as (s' & c' & H2 & H).
    exists s', c'. simpl. split; [exists s1, c1; auto | assumption].
  - destruct (run p1 s c k) as [r|] eqn:E.
    + injection H as <-. apply IH1 in E as (s' & c' & H1 & H).
      exists s', c'. simpl. auto.
    + apply IH2 in H as (s' & c' & H2 & H). exists s', c'. simpl. auto.
  - eapply repeat_sound in H; [exact H | exact IH1].
  - eapply repeat_sound in H; [exact H | exact IH1].
  - apply IH1 in H as (s' & c1 & H1 & H).
    exists s', (setCapture i (consumed s s') c1). simpl. split; [exists c1; auto | assumption].
  - destruct (c i) as [t|] eqn:E.
    + destruct (JS.startsWith s t) eqn:Es; [|discriminate].
      exists (drop (String.length t) s), c. simpl. rewrite E.
      split; [split; [now apply startsWith_app | reflexivity] | assumption].
    + exists s, c. simpl. rewrite E. auto.
Qed.

End MatcherFacts.

Lemma matchHere_sound (p : RegExp.pattern) (s rest : string) (c : RegExp.captures) :
  RegExp.matchHere p s = Some (rest, c) -> Matches p s RegExp.noCaptures rest c.
Proof.
  unfold RegExp.matchHere. intros H.
  apply run_sound in H as (s' & c' & HM & [= -> ->]). exact HM.
Qed.

Lemma string_app_assoc (a b c : string) : ((a ++ b) ++ c = a ++ (b ++ c))%string.
Proof. induction a as [|ch a IH]; simpl; [reflexivity | now rewrite IH]. Qed.

Lemma string_app_length (a b : string) :
  String.length (a ++ b) = (String.length a + String.length b)%nat.
Proof. induction a as [|ch a IH]; simpl; [reflexivity | now rewrite IH]. Qed.

(** What a pattern consumes is a prefix of the input. *)
Lemma Matches_prefix (p : RegExp.pattern) :
  forall s c s' c', Matches p s c s' c' -> exists pre, s = (pre ++ s')%string.
Proof.
  assert (Hiter : forall Rel : string -> RegExp.captures -> string -> RegExp.captures -> Prop,
             (forall s c s' c', Rel s c s' c' -> exists pre, s = (pre ++ s')%string) ->
             forall s c s' c', Iterates Rel s c s' c' -> exists pre, s = (pre ++ s')%string).
  { intros Rel HRel s c s' c' H. induction H as [s c | s s1 s' c c1 c' H1 _ (pre2 & ->)].
    - now exists ""%string.
    - apply HRel in H1 as (pre1 & ->). exists (pre1 ++ pre2)%string.
      now rewrite string_app_assoc. }
  induction p as [|cls|p1 IH1 p2 IH2|p1 IH1 p2 IH2|p1 IH1|p1 IH1|i p1 IH1|i];
    intros s c s' c' H; simpl in H.
  - destruct H as [-> _]. now exists ""%string.
  - destruct H as (ch & -> & _). now exists (String ch "").
  - destruct H as (s1 & c1 & H1 & H2).
    apply IH1 in H1 as (pre1 & ->). apply IH2 in H2 as (pre2 & ->).
    exists (pre1 ++ pre2)%string. now rewrite string_app_assoc.
  - destruct H as [H | H]; eauto.
  - eapply Hiter; eauto.
  - eapply Hiter; eauto.
  - destruct H as (c1 & H & _). eauto.
  - destruct H as [H _]. destruct (c i) as [t|]; [now exists t | subst; now exists ""%string].
Qed.

(** A pattern without groups leaves the captures alone. *)
Lemma Matches_groupFree (p : RegExp.pattern) :
  groupFree p = true ->
  forall s c s' c', Matches p s c s' c' -> c' = c.
Proof.
  assert (Hiter : forall Rel : string -> RegExp.captures -> string -> RegExp.captures -> Prop,
             (forall s c s' c', Rel s c s' c' -> c' = c) ->
             forall s c s' c', Iterates Rel s c s' c' -> c' = c).
  { intros Rel HRel s c s' c' H. induction H as [| s s1 s' c c1 c' H1 _ ->]; [reflexivity|].
    now apply HRel in H1. }
  induction p as [|cls|p1 IH1 p2 IH2|p1 IH1 p2 IH2|p1 IH1|p1 IH1|i p1 IH1|i];
    simpl; intros Hg s c s' c' H.
  - now destruct H.
  - now destruct H as (ch & _ & _ & ->).
  - apply andb_prop in Hg as [Hg1 Hg2]. destruct H as (s1 & c1 & H1 & H2).
    apply (IH1 Hg1) in H1. apply (IH2 Hg2) in H2. congruence.
  - apply andb_prop in Hg as [Hg1 Hg2]. destruct H as [H | H]; eauto.
  - eapply Hiter; eauto.
  - eapply Hiter; eauto.
  - discriminate.
  - now destruct H.
Qed.

(** A repeated character class consumes a run of that class. *)
Lemma Iterates_class (cls : ascii -> bool) (s s' : string) (c c' : RegExp.captures) :
  Iterates (Matches (RegExp.Class cls)) s c s' c' ->
  exists run, s = (run ++ s')%string /\ allChars cls run = true.
Proof.
  induction 1 as [s c | s s1 s' c c1 c' H1 _ (run & -> & Hrun)].
  - now exists ""%string.
  - simpl in H1. destruct H1 as (ch & -> & Hch & _).
    exists (String ch run). simpl. now rewrite Hch.
Qed.

Lemma substring_prefix (pre s' : string) :
  substring 0 (String.length pre) (pre ++ s') = pre.
Proof.
  induction pre as [|ch pre IH]; simpl.
  - now destruct s'.
  - now rewrite IH.
Qed.

Lemma consumed_app (pre s' : string) : RegExp.consumed (pre ++ s') s' = pre.
Proof.
  unfold RegExp.consumed. rewrite string_app_length.
  replace (String.length pre + String.length s' - String.length s')%nat
    with (String.length pre) by lia.
  apply substring_prefix.
Qed.

Lemma includes_app_r (a b p : string) :
  JS.includes b p = true -> JS.includes (a ++ b) p = true.
Proof.
  intros H. induction a as [|ch a IH]; simpl; [assumption|].
  rewrite IH. apply orb_true_r.
Qed.

(** Every match the scan of [exec] reports is a match of the pattern at
    some place of the input. *)
Lemma execAllFrom_sound (p : RegExp.pattern) (m : RegExp.MatchResult) :
  forall s skip index,
    In m (RegExp.execAllFrom p skip index s) ->
    exists s0 rest,
      Matches p s0 RegExp.noCaptures rest (RegExp.groups m)
      /\ RegExp.matched m = RegExp.consumed s0 rest.
Proof.
  induction s as [|ch s IH]; intros skip index H; simpl in H.
  - destruct skip; [|destruct H].
    destruct (RegExp.matchHere p "") as [[rest c]|] eqn:E; [|destruct H].
    destruct H as [<- | []]. simpl. exists ""%string, rest.
    split; [now apply matchHere_sound | reflexivity].
  - destruct skip; [|eauto].
    destruct (RegExp.matchHere p (String ch s)) as [[rest c]|] eqn:E; [|eauto].
    destruct H as [<- | H]; [|eauto].
    simpl. exists (String ch s), rest.
    split; [now apply matchHere_sound | reflexivity].
Qed.

Lemma EndsIn_sound (last : ascii) (p : RegExp.pattern) :
  EndsIn last p ->
  forall s c s' c', Matches p s c s' c' -> exists pre, s = (pre ++ String last s')%string.
Proof.
  induction p as [|cls|p1 IH1 p2 IH2|p1 IH1 p2 IH2|p1 IH1|p1 IH1|i p1 IH1|i];
    simpl; intros He s c s' c' H; try contradiction.
  - destruct H as (ch & -> & Hch & _). apply He in Hch as ->. now exists ""%string.
  - destruct H as (s1 & c1 & H1 & H2).
    apply Matches_prefix in H1 as (pre1 & ->).
    apply (IH2 He) in H2 as (pre2 & ->).
    exists (pre1 ++ pre2)%string. now rewrite string_app_assoc.
  - destruct He as [He1 He2]. destruct H as [H | H]; eauto.
Qed.

Lemma jsxRegex_EndsIn : EndsIn ">" CodeValidator.jsxRegex.
Proof.
  unfold CodeValidator.jsxRegex, RegExp.char. cbn -[Ascii.eqb].
  split; intros ch H; apply Ascii.eqb_eq in H; now subst.
Qed.

(** The tag a match of the JSX pattern captures is a run of word
    characters, and the matched text holds a [>]. *)
Lemma jsxRegex_shape (s s' : string) (c' : RegExp.captures) :
  Matches CodeValidator.jsxRegex s RegExp.noCaptures s' c' ->
  (exists tag, c' 1%nat = Some tag /\ allChars RegExp.isWord tag = true)
  /\ JS.includes (RegExp.consumed s s') ">" = true.
Proof.
  intros H. split.
  - unfold CodeValidator.jsxRegex in H. cbn [RegExp.seq] in H.
    destruct H as (s1 & c1 & _ & s2 & c2 & Htag & s3 & c3 & Hattrs & Hclose).
    apply Matches_groupFree in Hattrs; [|reflexivity].
    apply Matches_groupFree in Hclose; [|reflexivity]. subst c' c3.
    destruct Htag as (c0 & Hplus & ->).
    destruct Hplus as (sa & ca & (ch & -> & Hch & _) & Hstar).
    apply Iterates_class in Hstar as (run & -> & Hrun).
    exists (String ch run). split.
    + unfold RegExp.setCapture. simpl Nat.eqb. cbv iota.
      change (String ch (run ++ s2)%string) with (String ch run ++ s2)%string.
      now rewrite consumed_app.
    + simpl. now rewrite Hch.
  - apply (EndsIn_sound _ _ jsxRegex_EndsIn) in H as (pre & ->).
    change (pre ++ String ">" s')%string with (pre ++ (">" ++ s'))%string.
    rewrite <- string_app_assoc, consumed_app.
    now apply includes_app_r.
Qed.

Lemma extractJSX_shape (antdComponents : list string) (code : string)
    (j : CodeValidator.JSXInfo) :
  In j (CodeValidator.extractJSX antdComponents code) ->
  (exists tag, CodeValidator.tagName j = Some tag /\ allChars RegExp.isWord tag = true)
  /\ JS.includes (CodeValidator.fullMatch j) ">" = true.
Proof.
  unfold CodeValidator.extractJSX. rewrite in_map_iff. intros (m & <- & Hm). simpl.
  apply execAllFrom_sound in Hm as (s0 & rest & HM & ->).
  now apply jsxRegex_shape.
Qed.

Section RuleFacts.
Import CodeValidator.

Lemma flat_map_nil {A B : Type} (f : A -> list B) (l : list A) :
  (forall a, In a l -> f a = []) -> flat_map f l = [].
Proof.
  induction l as [|a l IH]; simpl; intros H; [reflexivity|].
  rewrite (H a) by now left. apply IH. intros b Hb. apply H. now right.
Qed.

(** The diagnostics [validate] collects are those of the applicable rules,
    rule after rule. *)
Lemma runRules_errors (rs : list ValidationRule) (code : ParsedCode)
    (config : ValidationOptions) (result : ValidationResult) :
  errors (runRules rs code config result)
  = errors result
    ++ flat_map (fun rule => if shouldApplyRule rule config
                             then rule_errors (ruleValidate rule code config) else []) rs.
Proof.
  revert result. induction rs as [|rule rs IH]; intros result; simpl.
  - now rewrite app_nil_r.
  - rewrite IH. destruct (shouldApplyRule rule config); simpl.
    + now rewrite app_assoc.
    + reflexivity.
Qed.

Lemma runRules_warnings (rs : list ValidationRule) (code : ParsedCode)
    (config : ValidationOptions) (result : ValidationResult) :
  warnings (runRules rs code config result)
  = warnings result
    ++ flat_map (fun rule => if shouldApplyRule rule config
                             then rule_warnings (ruleValidate rule code config) else []) rs.
Proof.
  revert result. induction rs as [|rule rs IH]; intros result; simpl.
  - now rewrite app_nil_r.
  - rewrite IH. destruct (shouldApplyRule rule config); simpl.
    + now rewrite app_assoc.
    + reflexivity.
Qed.

(** No extracted tag is [Form.Item]: a tag is made of word characters. *)
Lemma tagName_not_FormItem (antdComponents : list string) (code : string) (j : JSXInfo) :
  In j (extractJSX antdComponents code) -> equals (tagName j) "Form.Item" = false.
Proof.
  intros Hj. apply extractJSX_shape in Hj as [(tag & -> & Hword) _]. simpl.
  destruct (String.eqb_spec tag "Form.Item") as [-> | _]; [discriminate | reflexivity].
Qed.

Lemma validateAntdUsage_silent (antdComponents : list string) (code : string) :
  rule_errors (validateAntdUsage (parseCode antdComponents code)) = [].
Proof.
  unfold validateAntdUsage. simpl. apply flat_map_nil. intros j Hj.
  rewrite (tagName_not_FormItem _ _ _ Hj). simpl. now destruct (isAntdComponent j).
Qed.

Lemma validateImports_errors (code : ParsedCode) :
  Forall (fun e => error_type e = import) (rule_errors (validateImports code)).
Proof.
  unfold validateImports. simpl.
  destruct (negb _ && _); repeat constructor.
Qed.

Lemma rule_errors_import (antdComponents : list string) (code : string)
    (config : ValidationOptions) (rule : ValidationRule) :
  Forall (fun e => error_type e = import)
    (rule_errors (ruleValidate rule (parseCode antdComponents code) config)).
Proof.
  destruct rule; cbn [ruleValidate]; try constructor.
  - apply validateImports_errors.
  - rewrite validateAntdUsage_silent. constructor.
Qed.

Lemma flat_map_ext_In {A B : Type} (f g : A -> list B) (l : list A) :
  (forall a, In a l -> f a = g a) -> flat_map f l = flat_map g l.
Proof.
  induction l as [|a l IH]; simpl; intros H; [reflexivity|].
  rewrite (H a) by now left. f_equal. apply IH. intros b Hb. apply H. now right.
Qed.

(** The check for buttons never fires: what is left of the accessibility
    rule is the check for images. *)
Lemma validateAccessibility_images_only (antdComponents : list string) (code : string) :
  rule_warnings (validateAccessibility (parseCode antdComponents code))
  = flat_map (fun j => if equals (tagName j) "img" && negb (JS.includes (fullMatch j) "alt=")
                       then [imageMissingAlt j] else [])
             (extractJSX antdComponents code).
Proof.
  unfold validateAccessibility. simpl. apply flat_map_ext_In. intros j Hj.
  apply extractJSX_shape in Hj as [_ Hgt]. rewrite Hgt. simpl.
  rewrite andb_false_r. now rewrite app_nil_r.
Qed.

Lemma inlineHandlers_messages (i : nat) (ls : list string) :
  Forall notButtonWarning (inlineHandlers i ls).
Proof.
  revert i. induction ls as [|line ls IH]; intros i; simpl; [constructor|].
  apply Forall_app. split; [|apply IH].
  destruct (JS.includes line "() =>" && JS.includes line "onClick");
    repeat constructor. discriminate.
Qed.

Lemma rule_warnings_not_button (antdComponents : list string) (code : string)
    (config : ValidationOptions) (rule : ValidationRule) :
  Forall notButtonWarning
    (rule_warnings (ruleValidate rule (parseCode antdComponents code) config)).
Proof.
  destruct rule; cbn [ruleValidate].
  - unfold validateImports. cbn [rule_warnings].
    apply Forall_flat_map, Forall_forall. intros imp _.
    destruct (equals (import_source imp) "antd"); [|constructor].
    apply Forall_flat_map, Forall_forall. intros name _.
    destruct (negb _); repeat constructor. discriminate.
  - constructor.
  - unfold validateProps. cbn [rule_warnings].
    apply Forall_flat_map, Forall_forall. intros p _.
    destruct (_ && _); repeat constructor. discriminate.
  - rewrite validateAccessibility_images_only.
    apply Forall_flat_map, Forall_forall. intros j _.
    destruct (_ && _); repeat constructor. discriminate.
  - apply inlineHandlers_messages.
  - unfold validateBestPractice. cbn [rule_warnings].
    apply Forall_flat_map, Forall_forall. intros comp _.
    destruct (negb _); repeat constructor. discriminate.
Qed.

End RuleFacts.

(** C4 -- [Form.Item] outside a [Form].  The specification asks for
    exactly one antd-usage diagnostic; the validator never produces one.
    The tag pattern of [extractJSX] captures word characters only, so no
    extracted tag name is [Form.Item] and the comparison in
    [AntdUsageValidationRule] is false for every source text: no diagnostic
    of [validate] has the kind antd-usage, and the text with a [Form.Item]
    and no [Form] validates clean. *)
Theorem validate_reports_no_antd_usage :
  (forall (antdComponents : list string) (code : string)
          (options : CodeValidator.PartialOptions),
      filter isAntdUsage
        (CodeValidator.errors (CodeValidator.validate antdComponents code options)) = [])
  /\ CodeValidator.validate CodeValidator.commonComponents formItemWithoutForm
       CodeValidator.noOptions = cleanResult
  /\ CodeValidator.validate ("Form.Item" :: CodeValidator.commonComponents)
       formItemWithoutForm CodeValidator.noOptions = cleanResult.
Proof.
  split; [|split; vm_compute; reflexivity].
  intros antdComponents code options.
  assert (H : Forall (fun e => CodeValidator.error_type e = CodeValidator.import)
                (CodeValidator.errors
                   (CodeValidator.validate antdComponents code options))).
  { unfold CodeValidator.validate, CodeValidator.validateBody. cbv zeta.
    cbn [CodeValidator.errors].
    rewrite runRules_errors. cbn [CodeValidator.errors app].
    apply Forall_flat_map, Forall_forall. intros rule _.
    destruct (CodeValidator.shouldApplyRule rule (CodeValidator.mergeOptions options));
      [|constructor].
    apply rule_errors_import. }
  induction H as [|e l He _ IH]; simpl; [reflexivity|].
  unfold isAntdUsage at 1. now rewrite He.
Qed.

(** C9 -- accessible labels.  The specification asks for a diagnostic on
    every button with neither an [aria-label] nor text, and on every image
    without [alt].  The check for buttons asks that the matched text hold no
    [>], and every match of the tag pattern ends in one: for every source
    text, no warning of [validate] is the missing-label warning, and a bare
    self-closing button validates clean.  The check for images works on the
    tags the scan reports, which are not those inside a reported tag: an
    image without [alt] is reported at top level and missed inside a
    [div]. *)
Theorem validate_never_flags_button :
  (forall (antdComponents : list string) (code : string)
          (options : CodeValidator.PartialOptions),
      Forall (fun w => CodeValidator.warning_message w <> "Button without accessible label")
        (CodeValidator.warnings (CodeValidator.validate antdComponents code options)))
  /\ CodeValidator.validate CodeValidator.commonComponents bareButton
       CodeValidator.noOptions = cleanResult
  /\ CodeValidator.validate CodeValidator.commonComponents nestedImage
       CodeValidator.noOptions = cleanResult
  /\ map CodeValidator.warning_message
       (CodeValidator.warnings
          (CodeValidator.validate CodeValidator.commonComponents topLevelImage
             CodeValidator.noOptions)) = ["Image missing alt text"].
Proof.
  split; [|repeat split; vm_compute; reflexivity].
  intros antdComponents code options.
  unfold CodeValidator.validate, CodeValidator.validateBody. cbv zeta.
  cbn [CodeValidator.warnings].
  rewrite runRules_warnings. cbn [CodeValidator.warnings app].
  apply Forall_flat_map, Forall_forall. intros rule _.
  destruct (CodeValidator.shouldApplyRule rule (CodeValidator.mergeOptions options));
    [|constructor].
  apply rule_warnings_not_button.
Qed.

(* ===================================================================== *)
(** * Properties of the synthesizer *)
(* ===================================================================== *)

Section SynthesisFacts.
Import CodeGenerator.
Variable analyzeComponents : list string -> JS.Completion (list AntdComponent).
Variable numberToString : Q -> string.

(** A [try] whose handler completes, completes. *)
Lemma tryCatch_total {A : Type} (body : M A) (handler : string -> M A) :
  (forall message st, exists a st', handler message st = (JS.Normal a, st')) ->
  forall st, exists a st', tryCatch body handler st = (JS.Normal a, st').
Proof.
  intros Hh st. unfold tryCatch.
  destruct (body st) as [[a | message] st']; [eauto | apply Hh].
Qed.

Lemma processComponent_total (component : ParsedComponent) (st : GenerationResult) :
  exists config st',
    processComponent analyzeComponents numberToString component st = (JS.Normal config, st').
Proof.
  destruct component as [id name type properties children layout styling content].
  cbn [processComponent]. apply tryCatch_total.
  intros message st0. eexists _, _. reflexivity.
Qed.

Lemma processComponents_total (components : list ParsedComponent) :
  forall st, exists configs st',
    processComponents analyzeComponents numberToString components st
    = (JS.Normal configs, st').
Proof.
  induction components as [|component rest IH]; intros st; cbn [processComponents].
  - eexists _, _. reflexivity.
  - unfold bind at 1.
    destruct (processComponent_total component st) as (config & st1 & ->).
    unfold bind at 1. destruct (IH st1) as (configs & st2 & ->).
    eexists _, _. reflexivity.
Qed.

(** What happens to a node whose catalog lookup throws, whose catalog
    entry is undefined, or that no registry entry matches. *)
Lemma processComponent_lookup_throws (component : ParsedComponent)
    (st : GenerationResult) (best : ComponentMapping) (rest : list ComponentMapping)
    (message : string) :
  getComponentMapping component None = best :: rest ->
  analyzeComponents [antdComponent best] = JS.Throw message ->
  processComponent analyzeComponents numberToString component st
  = (JS.Normal None,
     withWarning (withMapping st best)
       ("Failed to process component " ++ show (pc_name component) ++ ": " ++ message)%string).
Proof.
  intros Hmap Hthrow.
  destruct component as [id name type properties children layout styling content].
  cbn [processComponent]. rewrite Hmap. unfold tryCatch, bind, call, pushMapping.
  rewrite Hthrow. reflexivity.
Qed.

Lemma processComponent_entry_undefined (component : ParsedComponent)
    (st : GenerationResult) (best : ComponentMapping) (rest : list ComponentMapping) :
  getComponentMapping component None = best :: rest ->
  analyzeComponents [antdComponent best] = JS.Normal [] ->
  processComponent analyzeComponents numberToString component st
  = (JS.Normal None,
     withWarning (withMapping st best)
       ("Could not analyze Ant Design component: " ++ antdComponent best)%string).
Proof.
  intros Hmap Hnone.
  destruct component as [id name type properties children layout styling content].
  cbn [processComponent]. rewrite Hmap. unfold tryCatch, bind, call, pushMapping.
  rewrite Hnone. reflexivity.
Qed.

(** The empty component list: the [throw] of the body lands in the handler
    of [generateComponent]. *)
Lemma generateComponent_on_empty_list (config : GenerationConfig) :
  figmaData_components config = [] ->
  generateComponent analyzeComponents numberToString config
  = JS.Normal
      {| code := generateErrorComponent (componentName config) noComponents
                   (outputFormat config);
         imports := ["React"];
         dependencies := ["react"; "antd"];
         warnings := ["Code generation failed: No components found in Figma data"];
         mappings := [] |}.
Proof.
  intros Hempty.
  unfold generateComponent, tryCatch, generateComponentBody.
  rewrite Hempty. reflexivity.
Qed.

Lemma generateErrorComponent_holds_message (name message : string) (format : OutputFormat) :
  JS.includes (generateErrorComponent name message format) message = true.
Proof.
  assert (Hstart : forall m rest, JS.startsWith (m ++ rest) m = true).
  { induction m as [|ch m IH]; intros rest; simpl; [reflexivity|].
    now rewrite Ascii.eqb_refl, IH. }
  assert (Hinc : forall m rest, JS.includes (m ++ rest) m = true).
  { intros m rest. destruct m; simpl.
    - now destruct rest.
    - now rewrite Ascii.eqb_refl, Hstart. }
  unfold generateErrorComponent. cbv zeta.
  do 21 apply includes_app_r. apply Hinc.
Qed.

End SynthesisFacts.

(** C5, as amended -- no components.  When the component list handed to
    [generateComponent] is empty, it returns the fallback component, an
    [Alert] notice whose description is the message [No components found in
    Figma data], and records exactly one warning, [Code generation failed]
    followed by that message; imports, dependencies and mappings keep their
    initial values. *)
Theorem generateComponent_no_components :
  forall (analyzeComponents : list string -> JS.Completion (list AntdComponent))
         (numberToString : Q -> string) (config : CodeGenerator.GenerationConfig),
    CodeGenerator.figmaData_components config = [] ->
    CodeGenerator.generateComponent analyzeComponents numberToString config
    = JS.Normal
        {| CodeGenerator.code :=
             CodeGenerator.generateErrorComponent (CodeGenerator.componentName config)
               noComponents (CodeGenerator.outputFormat config);
           CodeGenerator.imports := ["React"];
           CodeGenerator.dependencies := ["react"; "antd"];
           CodeGenerator.warnings := ["Code generation failed: No components found in Figma data"];
           CodeGenerator.mappings := [] |}.
Proof.
  intros analyzeComponents numberToString config Hempty.
  now apply generateComponent_on_empty_list.
Qed.

Lemma generateComponent_no_components_witness :
  CodeGenerator.generateComponent fullCatalog integerToString (configOf [])
  = JS.Normal
      {| CodeGenerator.code :=
           CodeGenerator.generateErrorComponent "App" noComponents typescript;
         CodeGenerator.imports := ["React"];
         CodeGenerator.dependencies := ["react"; "antd"];
         CodeGenerator.warnings := ["Code generation failed: No components found in Figma data"];
         CodeGenerator.mappings := [] |}.
Proof.
  exact (generateComponent_no_components fullCatalog integerToString (configOf []) eq_refl).
Defined.

(** C5, as stated, fails: for an empty component list the code returned is
    not the empty-body definition the synthesizer writes around no
    configuration; it is the error notice, which renders an [Alert]. *)
Lemma generateComponent_empty_input_renders_alert :
  exists result,
    CodeGenerator.generateComponent fullCatalog integerToString (configOf [])
    = JS.Normal result
    /\ String.eqb (CodeGenerator.code result)
         (emptyBodyDefinition integerToString "App" typescript true) = false
    /\ JS.includes (CodeGenerator.code result) "<Alert" = true
    /\ JS.includes (CodeGenerator.code result) "Component Generation Error" = true
    /\ JS.includes (emptyBodyDefinition integerToString "App" typescript true) "<Alert"
       = false.
Proof.
  eexists. split; [reflexivity|]. repeat split; vm_compute; reflexivity.
Qed.

(** C6, as amended -- failures stay inside.  [generateComponent] never
    throws.  An exception that reaches its own handler, which is the one
    thrown at an empty component list, yields the fallback component, whose
    code holds the message, and a [Code generation failed] warning.  A
    failure while one node is processed is absorbed at that node: the node is
    dropped, a warning is recorded, and the ordinary code is produced from
    the nodes that are left; so it is for a node whose catalog lookup throws
    ([Failed to process component]) and for a node whose catalog entry is
    undefined ([Could not analyze Ant Design component]). *)
Theorem generateComponent_never_throws :
  forall (analyzeComponents : list string -> JS.Completion (list AntdComponent))
         (numberToString : Q -> string),
    (forall config : CodeGenerator.GenerationConfig,
        exists result,
          CodeGenerator.generateComponent analyzeComponents numberToString config
          = JS.Normal result
          /\ (CodeGenerator.figmaData_components config = [] ->
              CodeGenerator.code result
              = CodeGenerator.generateErrorComponent (CodeGenerator.componentName config)
                  noComponents (CodeGenerator.outputFormat config)
              /\ JS.includes (CodeGenerator.code result) noComponents = true
              /\ CodeGenerator.warnings result
                 = [("Code generation failed: " ++ noComponents)%string])
          /\ (CodeGenerator.figmaData_components config <> [] ->
              exists configs st,
                CodeGenerator.processComponents analyzeComponents numberToString
                  (CodeGenerator.figmaData_components config) CodeGenerator.initialResult
                = (JS.Normal configs, st)
                /\ CodeGenerator.code result
                   = Prettier.format
                       (CodeGenerator.generateReactCode numberToString
                          (CodeGenerator.componentName config) configs
                          (CodeGenerator.outputFormat config)
                          (CodeGenerator.includeStyles config))
                       (CodeGenerator.outputFormat config)
                /\ CodeGenerator.warnings result = CodeGenerator.warnings st
                /\ CodeGenerator.mappings result = CodeGenerator.mappings st))
    /\ (forall (component : ParsedComponent) (st : CodeGenerator.GenerationResult),
           exists config st',
             CodeGenerator.processComponent analyzeComponents numberToString component st
             = (JS.Normal config, st'))
    /\ (forall (component : ParsedComponent) (st : CodeGenerator.GenerationResult)
               (best : ComponentMapping) (rest : list ComponentMapping) (message : string),
           CodeGenerator.getComponentMapping component None = best :: rest ->
           analyzeComponents [antdComponent best] = JS.Throw message ->
           CodeGenerator.processComponent analyzeComponents numberToString component st
           = (JS.Normal None,
              withWarning (withMapping st best)
                ("Failed to process component " ++ CodeGenerator.show (pc_name component)
                 ++ ": " ++ message)%string))
    /\ (forall (component : ParsedComponent) (st : CodeGenerator.GenerationResult)
               (best : ComponentMapping) (rest : list ComponentMapping),
           CodeGenerator.getComponentMapping component None = best :: rest ->
           analyzeComponents [antdComponent best] = JS.Normal [] ->
           CodeGenerator.processComponent analyzeComponents numberToString component st
           = (JS.Normal None,
              withWarning (withMapping st best)
                ("Could not analyze Ant Design component: " ++ antdComponent best)%string)).
Proof.
  intros analyzeComponents numberToString. split; [|split; [|split]].
  - intros config.
    destruct (CodeGenerator.figmaData_components config) as [|component rest] eqn:Hcs.
    + eexists. split; [|split].
      * apply generateComponent_on_empty_list, Hcs.
      * intros _. cbn [CodeGenerator.code CodeGenerator.warnings].
        split; [reflexivity|]. split; [|reflexivity].
        apply generateErrorComponent_holds_message.
      * intros H. now contradiction H.
    + destruct (processComponents_total analyzeComponents numberToString
                  (component :: rest) CodeGenerator.initialResult) as (configs & st & Hp).
      eexists. split; [|split].
      * unfold CodeGenerator.generateComponent, CodeGenerator.tryCatch at 1,
          CodeGenerator.generateComponentBody.
        rewrite Hcs. unfold CodeGenerator.bind at 1. rewrite Hp. reflexivity.
      * intros H. discriminate H.
      * intros _. exists configs, st. split; [exact Hp | repeat split].
  - apply processComponent_total.
  - apply processComponent_lookup_throws.
  - apply processComponent_entry_undefined.
Qed.

(** C6, as stated, fails on its own example.  With a catalog in which no
    entry is defined, and with one whose lookup throws, a tree of one frame
    comes back as the ordinary empty-body definition with one warning about
    the node; the code holds neither the error notice nor the message. *)
Lemma generateComponent_undefined_entry_is_not_fallback :
  (exists result,
      CodeGenerator.generateComponent emptyCatalog integerToString (configOf [plainFrame])
      = JS.Normal result
      /\ CodeGenerator.warnings result = ["Could not analyze Ant Design component: Input"]
      /\ CodeGenerator.code result = emptyBodyDefinition integerToString "App" typescript true
      /\ JS.includes (CodeGenerator.code result) "Component Generation Error" = false
      /\ JS.includes (CodeGenerator.code result) "Could not analyze" = false)
  /\ (exists result,
         CodeGenerator.generateComponent failingCatalog integerToString (configOf [plainFrame])
         = JS.Normal result
         /\ CodeGenerator.warnings result = ["Failed to process component Container: EACCES"]
         /\ CodeGenerator.code result = emptyBodyDefinition integerToString "App" typescript true
         /\ JS.includes (CodeGenerator.code result) "Component Generation Error" = false
         /\ JS.includes (CodeGenerator.code result) "EACCES" = false).
Proof.
  split; (eexists; split; [reflexivity|]; repeat split; vm_compute; reflexivity).
Qed.

(** With the catalog whose lookup throws, the plain frame is dropped with
    a warning that carries the message. *)
Lemma generateComponent_never_throws_witness :
  CodeGenerator.processComponent failingCatalog integerToString plainFrame
    CodeGenerator.initialResult
  = (JS.Normal None,
     withWarning
       (withMapping CodeGenerator.initialResult
          (CodeGenerator.withConfidence
             {| figmaType := "FRAME"; figmaName := Some "input";
                antdComponent := "Input"; confidence := 0;
                rules :=
                  [ {| condition := "name_contains_input"; action := "increase_confidence"; weight := 50 |};
                    {| condition := "has_border"; action := "increase_confidence"; weight := 20 |};
                    {| condition := "rectangular_shape"; action := "increase_confidence"; weight := 15 |} ] |}
             30))
       "Failed to process component Container: EACCES").
Proof.
  exact (proj1 (proj2 (proj2 (generateComponent_never_throws failingCatalog integerToString)))
           plainFrame CodeGenerator.initialResult _ _ "EACCES" eq_refl eq_refl).
Defined.

(* ===================================================================== *)
(** * Further properties of the mapping engine *)
(* ===================================================================== *)

Lemma insert_byConfidence_sorted (a : ComponentMapping) (l : list ComponentMapping) :
  StronglySorted (fun m1 m2 => confidence m2 <= confidence m1) l ->
  StronglySorted (fun m1 m2 => confidence m2 <= confidence m1)
    (JS.insert CodeGenerator.byConfidence a l).
Proof.
  induction 1 as [|b l Hs IH Hb]; simpl.
  - repeat constructor.
  - unfold CodeGenerator.byConfidence at 1.
    destruct (Z.leb_spec (confidence b - confidence a) 0) as [Hle | Hgt].
    + constructor; [now constructor|].
      constructor; [lia|]. eapply Forall_impl; [|exact Hb]. simpl. intros m Hm. lia.
    + constructor; [exact IH|].
      eapply Permutation_Forall; [apply Permutation_sym, insert_perm|].
      constructor; [lia | exact Hb].
Qed.

Lemma sort_byConfidence_sorted (l : list ComponentMapping) :
  StronglySorted (fun m1 m2 => confidence m2 <= confidence m1)
    (JS.sort CodeGenerator.byConfidence l).
Proof.
  induction l as [|a l IH]; simpl; [constructor | now apply insert_byConfidence_sorted].
Qed.

Lemma collect_length (figmaNode : ParsedComponent) (context : option string)
    (registry : list ComponentMapping) :
  (List.length (CodeGenerator.collect registry figmaNode context)
   <= List.length registry)%nat.
Proof.
  induction registry as [|m registry IH]; simpl; [lia|].
  destruct (CodeGenerator.candidate m figmaNode context); simpl; lia.
Qed.

(** An element that need not follow the head of the list goes in front. *)
Lemma insert_front (a : ComponentMapping) (l : list ComponentMapping) :
  Forall (fun m => confidence m <= confidence a) l ->
  JS.insert CodeGenerator.byConfidence a l = a :: l.
Proof.
  intros H. destruct H as [|b l Hb _]; simpl; [reflexivity|].
  unfold CodeGenerator.byConfidence.
  destruct (Z.leb_spec (confidence b - confidence a) 0); [reflexivity | lia].
Qed.

Lemma collect_capped (figmaNode : ParsedComponent) (context : option string)
    (registry : list ComponentMapping) :
  Forall (fun m => confidence m <= 100)
    (CodeGenerator.collect registry figmaNode context).
Proof.
  apply Forall_forall. intros c Hc.
  apply collect_In in Hc as (m & _ & Hc). apply candidate_Some in Hc as [_ ->].
  simpl. lia.
Qed.

(** X1 -- the list of candidates.  For every node, the list
    [getComponentMapping] returns is sorted by confidence, largest first,
    names every target component at most once, and so has at most five
    entries. *)
Theorem getComponentMapping_sorted_distinct :
  forall (figmaNode : ParsedComponent) (context : option string),
    StronglySorted (fun m1 m2 => confidence m2 <= confidence m1)
      (CodeGenerator.getComponentMapping figmaNode context)
    /\ NoDup (map antdComponent (CodeGenerator.getComponentMapping figmaNode context))
    /\ (List.length (CodeGenerator.getComponentMapping figmaNode context) <= 5)%nat.
Proof.
  intros figmaNode context.
  unfold CodeGenerator.getComponentMapping, CodeGenerator.getComponentMappingIn.
  split; [apply sort_byConfidence_sorted | split].
  - eapply Permutation_NoDup.
    + apply Permutation_map, Permutation_sym, sort_perm.
    + apply collect_NoDup, componentMappings_NoDup.
  - rewrite (Permutation_length (sort_perm _ _)).
    apply (collect_length figmaNode context CodeGenerator.componentMappings).
Qed.

Lemma nameContains_nameScore (mapping : ComponentMapping) (figmaNode : ParsedComponent)
    (word : string) :
  figmaName mapping = Some word ->
  nameScore mapping figmaNode
  = if JS.truthy word && CodeGenerator.nameContains figmaNode word then 40 else 0.
Proof.
  intros H. unfold nameScore, CodeGenerator.nameContains. rewrite H.
  destruct (pc_name figmaNode) as [n|]; [reflexivity|].
  destruct word; reflexivity.
Qed.

(** X2 -- buttons.  A node whose name holds [button], in any letter
    case, and that is of type COMPONENT or carries text, gets [Button] as
    its best mapping with confidence 100, whatever the other entries
    accumulate: the entry reaches the cap and is registered first. *)
Theorem getComponentMapping_button :
  forall (figmaNode : ParsedComponent) (context : option string),
    CodeGenerator.nameContains figmaNode "button" = true ->
    pc_type figmaNode = "COMPONENT" \/ hasText figmaNode = true ->
    exists rest,
      CodeGenerator.getComponentMapping figmaNode context
      = CodeGenerator.withConfidence buttonEntry 100 :: rest.
Proof.
  intros figmaNode context Hname Hor.
  assert (Hacc : 110 <= CodeGenerator.accumulate buttonEntry figmaNode context).
  { rewrite accumulate_parts.
    rewrite (nameContains_nameScore buttonEntry figmaNode "button" eq_refl), Hname.
    unfold typeScore, ruleScore. simpl figmaType.
    destruct (String.eqb "COMPONENT" (pc_type figmaNode)) eqn:Etype;
      cbn -[CodeGenerator.nameContains Z.add]; rewrite Hname;
      fold (hasText figmaNode); destruct (hasText figmaNode); simpl; try lia.
    destruct Hor as [Hty | Htext]; [|discriminate].
    rewrite Hty in Etype. discriminate. }
  unfold CodeGenerator.getComponentMapping, CodeGenerator.getComponentMappingIn.
  change CodeGenerator.componentMappings
    with (buttonEntry :: tl CodeGenerator.componentMappings).
  cbn [CodeGenerator.collect]. rewrite candidate_above by lia.
  replace (Z.min (CodeGenerator.accumulate buttonEntry figmaNode context) 100)
    with 100 by lia.
  cbn [JS.sort]. eexists. apply insert_front.
  eapply Permutation_Forall; [apply Permutation_sym, sort_perm|].
  eapply Forall_impl; [|apply collect_capped]. simpl. intros m Hm. exact Hm.
Qed.

(** A component named [Primary Button], and a text layer named [Button
    label]: both become buttons. *)
Lemma getComponentMapping_button_witness :
  (exists rest,
      CodeGenerator.getComponentMapping (componentNode "Primary Button") None
      = CodeGenerator.withConfidence buttonEntry 100 :: rest)
  /\ (exists rest,
         CodeGenerator.getComponentMapping (textNode "Button label" "Submit") None
         = CodeGenerator.withConfidence buttonEntry 100 :: rest).
Proof.
  split.
  - exact (getComponentMapping_button (componentNode "Primary Button") None
             eq_refl (or_introl eq_refl)).
  - exact (getComponentMapping_button (textNode "Button label" "Submit") None
             eq_refl (or_intror eq_refl)).
Defined.

Ltac split_scores :=
  repeat match goal with
         | |- context [match ?x with _ => _ end] =>
             lazymatch x with
             | Z.add _ _ => fail
             | _ => destruct x
             end
         end.

(** Without a telling name, only the entry for text reaches 100 on a text
    node. *)
Lemma text_node_other_entries (figmaNode : ParsedComponent) (context : option string)
    (mapping : ComponentMapping) :
  pc_type figmaNode = "TEXT" ->
  plainName figmaNode ->
  In mapping CodeGenerator.componentMappings ->
  mapping = textEntry \/ CodeGenerator.accumulate mapping figmaNode context <= 60.
Proof.
  intros Hty (Hb & Hi & Hc) Hin. simpl in Hin.
  destruct Hin as [<- | [<- | [<- | [<- | [<- | []]]]]]; [right | right | right | now left | right];
    rewrite accumulate_parts;
    match goal with
    | |- context [nameScore ?m _] =>
        first [ rewrite (nameContains_nameScore m figmaNode _ eq_refl) | unfold nameScore ]
    end;
    unfold typeScore, ruleScore; simpl figmaType; rewrite Hty;
    cbn -[CodeGenerator.nameContains Z.add]; rewrite ?Hb, ?Hi, ?Hc;
    cbn -[Z.add]; split_scores; simpl; lia.
Qed.

Lemma text_node_text_entry (figmaNode : ParsedComponent) (context : option string) :
  pc_type figmaNode = "TEXT" ->
  CodeGenerator.candidate textEntry figmaNode context
  = Some (CodeGenerator.withConfidence textEntry 100).
Proof.
  intros Hty.
  assert (Hacc : CodeGenerator.accumulate textEntry figmaNode context = 110).
  { unfold CodeGenerator.accumulate. simpl figmaType. rewrite Hty.
    cbn. rewrite Hty. reflexivity. }
  rewrite candidate_above; rewrite Hacc; [reflexivity | lia].
Qed.

(** On a text node without a telling name the entry for text comes
    first. *)
Lemma text_node_head (figmaNode : ParsedComponent) (context : option string) :
  pc_type figmaNode = "TEXT" ->
  plainName figmaNode ->
  exists rest,
    CodeGenerator.getComponentMapping figmaNode context
    = CodeGenerator.withConfidence textEntry 100 :: rest.
Proof.
  intros Hty Hplain.
  assert (Hin : In (CodeGenerator.withConfidence textEntry 100)
                   (CodeGenerator.getComponentMapping figmaNode context)).
  { unfold CodeGenerator.getComponentMapping, CodeGenerator.getComponentMappingIn.
    apply sort_In, collect_In. exists textEntry. split.
    - simpl. tauto.
    - now apply text_node_text_entry. }
  pose proof (sort_byConfidence_sorted
                (CodeGenerator.collect CodeGenerator.componentMappings figmaNode context))
    as Hsorted.
  fold (CodeGenerator.getComponentMappingIn CodeGenerator.componentMappings figmaNode context)
    in Hsorted.
  fold (CodeGenerator.getComponentMapping figmaNode context) in Hsorted.
  destruct (CodeGenerator.getComponentMapping figmaNode context) as [|best rest] eqn:E;
    [destruct Hin|].
  exists rest. f_equal.
  assert (Hbest : 100 <= confidence best).
  { destruct Hin as [-> | Hin]; [simpl; lia|].
    apply StronglySorted_inv in Hsorted as [_ Hall].
    rewrite Forall_forall in Hall. apply (Hall _ Hin). }
  assert (Hb : In best (CodeGenerator.getComponentMapping figmaNode context))
    by (rewrite E; now left).
  unfold CodeGenerator.getComponentMapping, CodeGenerator.getComponentMappingIn in Hb.
  apply sort_In, collect_In in Hb as (mapping & Hm & Hc).
  destruct (text_node_other_entries figmaNode context mapping Hty Hplain Hm) as [-> | Hle].
  - rewrite (text_node_text_entry figmaNode context Hty) in Hc. congruence.
  - apply candidate_Some in Hc as [_ ->]. simpl in Hbest. lia.
Qed.

(** X3 -- text nodes.  A node of type TEXT always has [Typography.Text]
    among its candidates, with confidence 100; when its name holds none of
    [button], [input] and [card], that candidate is the best mapping. *)
Theorem getComponentMapping_text_node :
  forall (figmaNode : ParsedComponent) (context : option string),
    pc_type figmaNode = "TEXT" ->
    In (CodeGenerator.withConfidence textEntry 100)
       (CodeGenerator.getComponentMapping figmaNode context)
    /\ (plainName figmaNode ->
        exists rest,
          CodeGenerator.getComponentMapping figmaNode context
          = CodeGenerator.withConfidence textEntry 100 :: rest).
Proof.
  intros figmaNode context Hty.
  assert (Hin : In (CodeGenerator.withConfidence textEntry 100)
                   (CodeGenerator.getComponentMapping figmaNode context)).
  { unfold CodeGenerator.getComponentMapping, CodeGenerator.getComponentMappingIn.
    apply sort_In, collect_In. exists textEntry. split.
    - simpl. tauto.
    - now apply text_node_text_entry. }
  split; [exact Hin|]. intros Hplain.
  now apply text_node_head.
Qed.

Lemma getComponentMapping_text_node_witness :
  exists rest,
    CodeGenerator.getComponentMapping (textNode "Title" "Welcome") None
    = CodeGenerator.withConfidence textEntry 100 :: rest.
Proof.
  apply (proj2 (getComponentMapping_text_node (textNode "Title" "Welcome") None eq_refl)).
  repeat split.
Defined.

(* ===================================================================== *)
(** * Further properties of the synthesizer *)
(* ===================================================================== *)

Section ObjectFacts.
Import CodeGenerator.
Context {A : Type}.

(** Reading back what was assigned, and what was not touched. *)
Lemma lookup_assign_same (key : string) (value : A) (obj : list (string * A)) :
  lookup key (assign key value obj) = Some value.
Proof.
  induction obj as [|[k v] obj IH]; simpl.
  - now rewrite String.eqb_refl.
  - destruct (String.eqb k key) eqn:E; simpl; rewrite E; [reflexivity | exact IH].
Qed.

Lemma lookup_assign_other (key key' : string) (value : A) (obj : list (string * A)) :
  key <> key' -> lookup key (assign key' value obj) = lookup key obj.
Proof.
  intros Hne. induction obj as [|[k v] obj IH]; simpl.
  - destruct (String.eqb_spec key' key); [congruence | reflexivity].
  - destruct (String.eqb_spec k key') as [-> | Hk]; simpl.
    + destruct (String.eqb_spec key' key); [congruence | reflexivity].
    + destruct (String.eqb k key); [reflexivity | exact IH].
Qed.

End ObjectFacts.

Lemma generateProps_steps (figmaComponent : ParsedComponent) (antdComponent : AntdComponent) :
  CodeGenerator.generateProps figmaComponent antdComponent
  = hiddenProps figmaComponent
      (typeProps figmaComponent antdComponent
         (sizeProps figmaComponent antdComponent
            (textProps figmaComponent antdComponent []))).
Proof.
  unfold CodeGenerator.generateProps, hiddenProps, typeProps, sizeProps, textProps,
    typeOf, textOf, isHidden.
  cbv zeta.
  destruct (String.eqb (antd_name antdComponent) "Button");
    (destruct (pc_content figmaComponent) as [ct|];
     [destruct (text ct) as [t|]; [destruct (JS.truthy t)|]|]);
    (destruct (pc_styling figmaComponent) as [styling|];
     [destruct (match fills styling with Some fs => _ | None => _ end);
      [|destruct (match borderWidth styling with Some w => _ | None => _ end)]|]);
    reflexivity.
Qed.


Section PropsFacts.
Import CodeGenerator.
Variables (figmaComponent : ParsedComponent) (antdComponent : AntdComponent).

Lemma hiddenProps_other (key : string) (props : list (string * Json)) :
  key <> "style" -> lookup key (hiddenProps figmaComponent props) = lookup key props.
Proof.
  intros H. unfold hiddenProps. destruct (isHidden figmaComponent); [|reflexivity].
  now apply lookup_assign_other.
Qed.

Lemma typeProps_other (key : string) (props : list (string * Json)) :
  key <> "type" -> lookup key (typeProps figmaComponent antdComponent props) = lookup key props.
Proof.
  intros H. unfold typeProps. destruct (typeOf figmaComponent); [|reflexivity].
  destruct (String.eqb (antd_name antdComponent) "Button"); [|reflexivity].
  now apply lookup_assign_other.
Qed.

Lemma sizeProps_other (key : string) (props : list (string * Json)) :
  key <> "size" -> lookup key (sizeProps figmaComponent antdComponent props) = lookup key props.
Proof.
  intros H. unfold sizeProps. destruct (pc_layout figmaComponent) as [layout|]; [|reflexivity].
  destruct (String.eqb (antd_name antdComponent) "Button"); [|reflexivity].
  destruct (Qle_bool (height layout) 24); [|destruct (Qle_bool 40 (height layout))];
    now apply lookup_assign_other.
Qed.

Lemma textProps_other (key : string) (props : list (string * Json)) :
  key <> "children" -> key <> "placeholder" ->
  lookup key (textProps figmaComponent antdComponent props) = lookup key props.
Proof.
  intros H1 H2. unfold textProps. destruct (textOf figmaComponent); [|reflexivity].
  destruct (existsb _ _); [now apply lookup_assign_other|].
  destruct (String.eqb (antd_name antdComponent) "Input"); [|reflexivity].
  now apply lookup_assign_other.
Qed.

End PropsFacts.

(** The text step alone decides [children] and [placeholder], the last
    step alone decides [style]. *)
Lemma generateProps_text_keys (figmaComponent : ParsedComponent)
    (antdComponent : AntdComponent) (key : string) :
  key = "children" \/ key = "placeholder" ->
  CodeGenerator.lookup key (CodeGenerator.generateProps figmaComponent antdComponent)
  = CodeGenerator.lookup key (textProps figmaComponent antdComponent []).
Proof.
  intros Hk. rewrite generateProps_steps.
  rewrite hiddenProps_other, typeProps_other, sizeProps_other
    by (destruct Hk as [-> | ->]; discriminate).
  reflexivity.
Qed.

Lemma generateProps_style (figmaComponent : ParsedComponent)
    (antdComponent : AntdComponent) :
  CodeGenerator.lookup "style" (CodeGenerator.generateProps figmaComponent antdComponent)
  = if isHidden figmaComponent
    then Some (CodeGenerator.JObject [("display", CodeGenerator.JString "none")])
    else None.
Proof.
  assert (Hbefore : CodeGenerator.lookup "style"
                      (typeProps figmaComponent antdComponent
                         (sizeProps figmaComponent antdComponent
                            (textProps figmaComponent antdComponent []))) = None).
  { rewrite typeProps_other, sizeProps_other, textProps_other by discriminate.
    reflexivity. }
  rewrite generateProps_steps. unfold hiddenProps.
  destruct (isHidden figmaComponent).
  - rewrite lookup_assign_same, Hbefore. reflexivity.
  - exact Hbefore.
Qed.

(** X4 -- button size.  The [size] property [generateProps] writes for a
    [Button] on a node with a layout is [small] up to a height of 24,
    [large] from 40 on and [middle] in between; no other component gets a
    [size], and neither does a node without layout. *)
Theorem generateProps_size :
  forall (figmaComponent : ParsedComponent) (antdComponent : AntdComponent),
    (forall layout,
        antd_name antdComponent = "Button" ->
        pc_layout figmaComponent = Some layout ->
        ((height layout <= 24)%Q ->
         CodeGenerator.lookup "size" (CodeGenerator.generateProps figmaComponent antdComponent)
         = Some (CodeGenerator.JString "small"))
        /\ ((24 < height layout)%Q -> (height layout < 40)%Q ->
            CodeGenerator.lookup "size"
              (CodeGenerator.generateProps figmaComponent antdComponent)
            = Some (CodeGenerator.JString "middle"))
        /\ ((40 <= height layout)%Q ->
            CodeGenerator.lookup "size"
              (CodeGenerator.generateProps figmaComponent antdComponent)
            = Some (CodeGenerator.JString "large")))
    /\ (antd_name antdComponent <> "Button" \/ pc_layout figmaComponent = None ->
        CodeGenerator.lookup "size" (CodeGenerator.generateProps figmaComponent antdComponent)
        = None).
Proof.
  intros figmaComponent antdComponent.
  assert (Hsize : CodeGenerator.lookup "size"
                    (CodeGenerator.generateProps figmaComponent antdComponent)
                  = CodeGenerator.lookup "size"
                      (sizeProps figmaComponent antdComponent
                         (textProps figmaComponent antdComponent []))).
  { rewrite generateProps_steps.
    rewrite hiddenProps_other, typeProps_other by discriminate. reflexivity. }
  rewrite Hsize. unfold sizeProps. split.
  - intros layout Hname Hlayout. rewrite Hlayout, Hname. simpl String.eqb. cbv iota.
    repeat split.
    + intros Hh. apply Qle_bool_iff in Hh. rewrite Hh. apply lookup_assign_same.
    + intros Hlo Hhi.
      destruct (Qle_bool (height layout) 24) eqn:E1;
        [apply Qle_bool_iff in E1; exfalso; exact (Qlt_not_le _ _ Hlo E1)|].
      destruct (Qle_bool 40 (height layout)) eqn:E2;
        [apply Qle_bool_iff in E2; exfalso; exact (Qlt_not_le _ _ Hhi E2)|].
      apply lookup_assign_same.
    + intros Hh.
      destruct (Qle_bool (height layout) 24) eqn:E1.
      * apply Qle_bool_iff in E1. exfalso.
        assert (H : (40 <= 24)%Q) by (eapply Qle_trans; eassumption).
        revert H. apply Qlt_not_le. reflexivity.
      * apply Qle_bool_iff in Hh. rewrite Hh. apply lookup_assign_same.
  - intros [Hname | Hlayout].
    + destruct (pc_layout figmaComponent) as [layout|].
      * destruct (String.eqb_spec (antd_name antdComponent) "Button"); [contradiction|].
        now rewrite textProps_other by discriminate.
      * now rewrite textProps_other by discriminate.
    + rewrite Hlayout. now rewrite textProps_other by discriminate.
Qed.

Lemma generateProps_size_witness :
  CodeGenerator.lookup "size"
    (CodeGenerator.generateProps (sizedNode 32) (catalogEntry "Button"))
  = Some (CodeGenerator.JString "middle").
Proof.
  apply (proj1 (generateProps_size (sizedNode 32) (catalogEntry "Button"))
           _ eq_refl eq_refl); reflexivity.
Defined.

(** X5 -- text content.  The text of a node becomes the [children] of a
    [Button] or [Typography], the [placeholder] of an [Input], and is
    dropped for a component of any other name. *)
Theorem generateProps_text :
  forall (figmaComponent : ParsedComponent) (antdComponent : AntdComponent) (t : string),
    textOf figmaComponent = Some t ->
    (antd_name antdComponent = "Button" \/ antd_name antdComponent = "Typography" ->
     CodeGenerator.lookup "children" (CodeGenerator.generateProps figmaComponent antdComponent)
     = Some (CodeGenerator.JString t)
     /\ CodeGenerator.lookup "placeholder"
          (CodeGenerator.generateProps figmaComponent antdComponent) = None)
    /\ (antd_name antdComponent = "Input" ->
        CodeGenerator.lookup "placeholder"
          (CodeGenerator.generateProps figmaComponent antdComponent)
        = Some (CodeGenerator.JString t)
        /\ CodeGenerator.lookup "children"
             (CodeGenerator.generateProps figmaComponent antdComponent) = None)
    /\ (antd_name antdComponent <> "Button" -> antd_name antdComponent <> "Typography" ->
        antd_name antdComponent <> "Input" ->
        CodeGenerator.lookup "children"
          (CodeGenerator.generateProps figmaComponent antdComponent) = None
        /\ CodeGenerator.lookup "placeholder"
             (CodeGenerator.generateProps figmaComponent antdComponent) = None).
Proof.
  intros figmaComponent antdComponent t Ht.
  rewrite !(generateProps_text_keys _ _ "children") by now left.
  rewrite !(generateProps_text_keys _ _ "placeholder") by now right.
  unfold textProps. rewrite Ht. cbn [existsb].
  split; [|split].
  - intros [-> | ->]; simpl; auto.
  - intros ->. simpl. auto.
  - intros Hb Hty Hi.
    destruct (String.eqb_spec (antd_name antdComponent) "Button"); [contradiction|].
    destruct (String.eqb_spec (antd_name antdComponent) "Typography"); [contradiction|].
    destruct (String.eqb_spec (antd_name antdComponent) "Input"); [contradiction|].
    simpl. auto.
Qed.

(** The text of a text layer reaches a [Typography] but not the
    [Typography.Text] the registry maps text layers to. *)
Lemma generateProps_text_witness :
  CodeGenerator.lookup "children"
    (CodeGenerator.generateProps (textNode "Title" "Welcome") (catalogEntry "Typography"))
  = Some (CodeGenerator.JString "Welcome")
  /\ CodeGenerator.lookup "children"
       (CodeGenerator.generateProps (textNode "Title" "Welcome")
          (catalogEntry "Typography.Text")) = None.
Proof.
  split.
  - apply (proj1 (generateProps_text (textNode "Title" "Welcome")
                    (catalogEntry "Typography") "Welcome" eq_refl)).
    now right.
  - apply (proj2 (proj2 (generateProps_text (textNode "Title" "Welcome")
                           (catalogEntry "Typography.Text") "Welcome" eq_refl)));
      discriminate.
Defined.

(** X6 -- hidden nodes.  When the node carries a [visible] property that
    is [false], the [style] property of the result is the object with the
    one member [display: none], whatever the component and the rest of the
    node; otherwise [generateProps] writes no [style]. *)
Theorem generateProps_hidden :
  forall (figmaComponent : ParsedComponent) (antdComponent : AntdComponent),
    (isHidden figmaComponent = true ->
     CodeGenerator.lookup "style" (CodeGenerator.generateProps figmaComponent antdComponent)
     = Some (CodeGenerator.JObject [("display", CodeGenerator.JString "none")]))
    /\ (isHidden figmaComponent = false ->
        CodeGenerator.lookup "style" (CodeGenerator.generateProps figmaComponent antdComponent)
        = None).
Proof.
  intros figmaComponent antdComponent.
  rewrite generateProps_style. split; intros ->; reflexivity.
Qed.

Lemma generateProps_hidden_witness :
  CodeGenerator.lookup "style" (CodeGenerator.generateProps hiddenNode (catalogEntry "Card"))
  = Some (CodeGenerator.JObject [("display", CodeGenerator.JString "none")]).
Proof.
  exact (proj1 (generateProps_hidden hiddenNode (catalogEntry "Card")) eq_refl).
Defined.


(** Induction over a parsed tree, with the property at hand for every
    child. *)
Lemma ParsedComponent_children_ind (P : ParsedComponent -> Prop) :
  (forall id name type properties children layout styling content,
      match children with Some cs => Forall P cs | None => True end ->
      P (mkParsedComponent id name type properties children layout styling content)) ->
  forall component, P component.
Proof.
  intros step. fix IH 1.
  intros [id name type properties children layout styling content].
  apply step. destruct children as [cs|]; [|exact I].
  induction cs as [|c cs IHcs]; constructor; [apply IH | exact IHcs].
Qed.

Lemma extended_nil (st : CodeGenerator.GenerationResult) : extended st [] [] = st.
Proof. destruct st. unfold extended. simpl. now rewrite !app_nil_r. Qed.

Lemma extended_extended (st : CodeGenerator.GenerationResult) (ws ws' : list string)
    (ms ms' : list ComponentMapping) :
  extended (extended st ws ms) ws' ms' = extended st (ws ++ ws') (ms ++ ms').
Proof. unfold extended. simpl. now rewrite !app_assoc. Qed.

Section TreeFacts.
Import CodeGenerator.
Variable analyzeComponents : list string -> JS.Completion (list AntdComponent).
Variable numberToString : Q -> string.

(** The body of [processComponent], its loop over the children being
    the loop of [processComponents]. *)
Lemma processComponent_unfold (component : ParsedComponent) :
  processComponent analyzeComponents numberToString component
  = tryCatch
      match getComponentMapping component None with
      | [] =>
          pushWarning ("No suitable Ant Design component found for: "
                       ++ show (pc_name component)) ;;;
          ret None
      | bestMapping :: _ =>
          pushMapping bestMapping ;;;
          antdComponents <- call (analyzeComponents [antdComponent bestMapping]) ;;
          match antdComponents with
          | [] =>
              pushWarning ("Could not analyze Ant Design component: "
                           ++ antdComponent bestMapping) ;;;
              ret None
          | antdComponent :: _ =>
              childConfigs <-
                match pc_children component with
                | Some cs => processComponents analyzeComponents numberToString cs
                | None => ret []
                end ;;
              ret (Some {| cfg_component := antdComponent;
                           cfg_props := generateProps component antdComponent;
                           cfg_children :=
                             match childConfigs with
                             | [] => None
                             | _ => Some childConfigs
                             end;
                           cfg_style := generateStyling numberToString component |})
          end
      end
      (fun message =>
         pushWarning ("Failed to process component " ++ show (pc_name component)
                      ++ ": " ++ message) ;;;
         ret None).
Proof. destruct component. reflexivity. Qed.

Lemma processComponents_outcome_from (components : list ParsedComponent) :
  Forall (fun component => forall st, exists config ws ms,
              processComponent analyzeComponents numberToString component st
              = (JS.Normal config, extended st ws ms)
              /\ nodeOutcome analyzeComponents component config ws ms) components ->
  forall st, exists configs ws ms,
    processComponents analyzeComponents numberToString components st
    = (JS.Normal configs, extended st ws ms)
    /\ forestOutcome analyzeComponents components configs ws ms.
Proof.
  induction 1 as [|component rest Hhead _ IH]; intros st; cbn [processComponents].
  - exists [], [], []. rewrite extended_nil. split; [reflexivity|].
    unfold forestOutcome, configTotal, nodeTotal. simpl. repeat split; auto.
  - unfold bind at 1.
    destruct (Hhead st) as (config & ws1 & ms1 & -> & H1 & H2 & H3 & H4 & H5 & H6).
    unfold bind at 1.
    destruct (IH (extended st ws1 ms1))
      as (configs & ws2 & ms2 & -> & G1 & G2 & G3 & G4 & G5 & G6 & G7).
    rewrite extended_extended. unfold ret.
    eexists _, (ws1 ++ ws2)%list, (ms1 ++ ms2)%list. split; [reflexivity|].
    assert (Hcount : configTotal match config with
                                 | Some cfg => cfg :: configs
                                 | None => configs
                                 end
                     = (optionCount config + configTotal configs)%nat).
    { destruct config; reflexivity. }
    assert (Hlen : (List.length match config with
                                | Some cfg => cfg :: configs
                                | None => configs
                                end
                    + match config with Some _ => 0 | None => 1 end
                    = S (List.length configs))%nat).
    { destruct config; simpl; lia. }
    assert (Hnil : (ws1 ++ ws2)%list = [] <-> ws1 = [] /\ ws2 = []).
    { split; [apply app_eq_nil | intros [-> ->]; reflexivity]. }
    unfold forestOutcome. rewrite Hcount, !length_app.
    unfold nodeTotal in *. cbn [map List.length forallb].
    change (list_sum (nodeCount component :: map nodeCount rest))
      with (nodeCount component + list_sum (map nodeCount rest))%nat.
    rewrite andb_true_iff.
    split; [lia|]. split; [lia|].
    split; [destruct config; [simpl in *; lia | specialize (H3 eq_refl); lia]|].
    split; [destruct config; simpl; lia|].
    split; [tauto|].
    split; [|apply Forall_app; now split].
    intros Hw. apply Hnil in Hw as [Hw1 Hw2].
    specialize (H5 Hw1). destruct (G6 Hw2) as [Hl Ht].
    destruct config as [cfg|].
    + simpl. split; [now rewrite Hl | simpl in H5; lia].
    + specialize (H3 eq_refl). subst ws1. discriminate.
Qed.

Lemma everyNode_unfold (test : ParsedComponent -> bool) (component : ParsedComponent) :
  everyNode test component
  = test component && match pc_children component with
                      | Some cs => forallb (everyNode test) cs
                      | None => true
                      end.
Proof. destruct component. reflexivity. Qed.

Lemma nodeOutcome_dropped (component : ParsedComponent) (w : string)
    (ms : list ComponentMapping) :
  (List.length ms <= 1)%nat ->
  nodeWarning w = true ->
  convertible analyzeComponents component = false ->
  nodeOutcome analyzeComponents component None [w] ms.
Proof.
  intros Hms Hwarn Hconv. unfold nodeOutcome. destruct component. cbn [everyNode].
  rewrite Hconv. simpl. repeat split; try lia; try discriminate; auto.
Qed.

Lemma processComponent_outcome (component : ParsedComponent) :
  forall st, exists config ws ms,
    processComponent analyzeComponents numberToString component st
    = (JS.Normal config, extended st ws ms)
    /\ nodeOutcome analyzeComponents component config ws ms.
Proof.
  induction component as [id name type properties children layout styling content IH]
    using ParsedComponent_children_ind.
  intros st. rewrite processComponent_unfold.
  set (component := mkParsedComponent id name type properties children layout styling content).
  pose proof (nodeOutcome_dropped component) as Hdrop.
  unfold convertible in Hdrop.
  destruct (getComponentMapping component None) as [|best others] eqn:Hmap.
  - eexists None, [_], []. split.
    + unfold tryCatch, bind, pushWarning, ret, extended. cbn.
      now rewrite app_nil_r.
    + apply Hdrop; [simpl; lia | reflexivity | reflexivity].
  - unfold tryCatch, bind at 1, pushMapping. unfold bind at 1, call.
    destruct (analyzeComponents [antdComponent best]) as [[|entry entries]|message] eqn:Hcat.
    + eexists None, [_], [best]. split; [reflexivity|].
      apply Hdrop; [simpl; lia | reflexivity | reflexivity].
    + unfold bind at 1.
      assert (Hchildren : exists configs ws ms,
                 match pc_children component with
                 | Some cs => processComponents analyzeComponents numberToString cs
                 | None => ret []
                 end (extended st [] [best])
                 = (JS.Normal configs, extended st ws (best :: ms))
                 /\ forestOutcome analyzeComponents match children with Some cs => cs | None => [] end
                      configs ws ms).
      { subst component. cbn [pc_children]. destruct children as [cs|].
        - destruct (processComponents_outcome_from cs IH (extended st [] [best]))
            as (configs & ws & ms & -> & Hout).
          rewrite extended_extended. eexists _, _, _. split; [reflexivity | exact Hout].
        - exists [], [], []. split.
          + unfold ret. rewrite <- (extended_nil (extended st [] [best])) at 1.
            rewrite extended_extended. reflexivity.
          + unfold forestOutcome, configTotal, nodeTotal. simpl. repeat split; auto. }
      destruct Hchildren as (configs & ws & ms & Hrun & G1 & G2 & G3 & G4 & G5 & G6 & G7).
      assert (Hst : {| code := code st; imports := imports st;
                       dependencies := dependencies st; warnings := warnings st;
                       mappings := (mappings st ++ [best])%list |}
                    = extended st [] [best]).
      { unfold extended. now rewrite app_nil_r. }
      rewrite Hst, Hrun. unfold ret.
      eexists (Some _), ws, (best :: ms). split; [reflexivity|].
      assert (Hcfg : forall props style,
                 configCount {| cfg_component := entry; cfg_props := props;
                                cfg_children := match configs with
                                                | [] => None
                                                | _ => Some configs
                                                end;
                                cfg_style := style |}
                 = S (configTotal configs)).
      { intros props style. cbn [configCount cfg_children].
        destruct configs; reflexivity. }
      assert (Hnodes : nodeCount component
                       = S (nodeTotal match children with Some cs => cs | None => [] end)).
      { subst component. cbn [nodeCount pc_children]. destruct children; reflexivity. }
      assert (Hevery : everyNode (convertible analyzeComponents) component
                       = forallb (everyNode (convertible analyzeComponents))
                           match children with Some cs => cs | None => [] end).
      { assert (Hconv : convertible analyzeComponents component = true)
          by (unfold convertible; now rewrite Hmap, Hcat).
        rewrite everyNode_unfold, Hconv.
        subst component. cbn [pc_children andb]. destruct children; reflexivity. }
      unfold nodeOutcome. cbn [optionCount]. rewrite Hcfg, Hnodes, Hevery.
      cbn [List.length].
      split; [lia|]. split; [lia|]. split; [discriminate|]. split; [exact G5|].
      split; [|exact G7].
      intros Hw. destruct (G6 Hw) as [_ ->]. reflexivity.
    + eexists None, [_], [best]. split; [reflexivity|].
      apply Hdrop; [simpl; lia | reflexivity | reflexivity].
Qed.

Lemma processComponents_outcome (components : list ParsedComponent) :
  forall st, exists configs ws ms,
    processComponents analyzeComponents numberToString components st
    = (JS.Normal configs, extended st ws ms)
    /\ forestOutcome analyzeComponents components configs ws ms.
Proof.
  apply processComponents_outcome_from. apply Forall_forall.
  intros component _. apply processComponent_outcome.
Qed.

End TreeFacts.


(** X7 -- nothing is lost silently.  [processComponents] completes on
    every forest and with every catalog, touches neither the code, the
    imports nor the dependencies of [result], and only appends to its
    warnings and mappings.  Every top-level node is answered by a
    configuration or by a warning; configurations and warnings together
    never outnumber the nodes of the forest; every configuration has its
    mapping on record, a mapping without configuration has a warning, and
    every warning is one of the three node messages. *)
Theorem processComponents_accounting :
  forall (analyzeComponents : list string -> JS.Completion (list AntdComponent))
         (numberToString : Q -> string) (components : list ParsedComponent)
         (st : CodeGenerator.GenerationResult),
  exists configs ws ms,
    CodeGenerator.processComponents analyzeComponents numberToString components st
    = (JS.Normal configs, extended st ws ms)
    /\ (List.length configs <= List.length components
        <= List.length configs + List.length ws)%nat
    /\ (configTotal configs + List.length ws <= nodeTotal components)%nat
    /\ (configTotal configs <= List.length ms <= configTotal configs + List.length ws)%nat
    /\ Forall (fun w => nodeWarning w = true) ws.
Proof.
  intros analyzeComponents numberToString components st.
  destruct (processComponents_outcome analyzeComponents numberToString components st)
    as (configs & ws & ms & Hrun & H1 & H2 & H3 & H4 & _ & _ & H7).
  exists configs, ws, ms. repeat split; solve [exact Hrun | exact H7 | lia].
Qed.

(** X8 -- a run without warnings.  [processComponents] records no warning
    exactly when every node of the forest, at any depth, has a registry
    candidate whose component the catalog returns; the configurations then
    mirror the forest node for node, with one mapping recorded for each. *)
Theorem processComponents_clean_run :
  forall (analyzeComponents : list string -> JS.Completion (list AntdComponent))
         (numberToString : Q -> string) (components : list ParsedComponent)
         (st : CodeGenerator.GenerationResult),
  exists configs ws ms,
    CodeGenerator.processComponents analyzeComponents numberToString components st
    = (JS.Normal configs, extended st ws ms)
    /\ (ws = [] <-> forallb (everyNode (convertible analyzeComponents)) components = true)
    /\ (ws = [] ->
        List.length configs = List.length components
        /\ configTotal configs = nodeTotal components
        /\ List.length ms = nodeTotal components).
Proof.
  intros analyzeComponents numberToString components st.
  destruct (processComponents_outcome analyzeComponents numberToString components st)
    as (configs & ws & ms & Hrun & H1 & H2 & H3 & H4 & H5 & H6 & _).
  exists configs, ws, ms. split; [exact Hrun|]. split; [exact H5|].
  intros Hw. destruct (H6 Hw) as [Hl Ht]. subst ws. simpl in *.
  repeat split; solve [assumption | lia].
Qed.

(** The result for a non-empty component list, from the run of
    [processComponents]. *)
Lemma generateComponent_on_nonempty_list
    (analyzeComponents : list string -> JS.Completion (list AntdComponent))
    (numberToString : Q -> string) (config : CodeGenerator.GenerationConfig)
    (configs : list CodeGenerator.GeneratedComponentConfig)
    (st : CodeGenerator.GenerationResult) :
  CodeGenerator.figmaData_components config <> [] ->
  CodeGenerator.processComponents analyzeComponents numberToString
    (CodeGenerator.figmaData_components config) CodeGenerator.initialResult
  = (JS.Normal configs, st) ->
  CodeGenerator.generateComponent analyzeComponents numberToString config
  = JS.Normal
      {| CodeGenerator.code :=
           Prettier.format
             (CodeGenerator.generateReactCode numberToString
                (CodeGenerator.componentName config) configs
                (CodeGenerator.outputFormat config)
                (CodeGenerator.includeStyles config))
             (CodeGenerator.outputFormat config);
         CodeGenerator.imports :=
           CodeGenerator.generateImports configs (CodeGenerator.outputFormat config);
         CodeGenerator.dependencies := CodeGenerator.dependencies st;
         CodeGenerator.warnings := CodeGenerator.warnings st;
         CodeGenerator.mappings := CodeGenerator.mappings st |}.
Proof.
  intros Hsome Hrun.
  unfold CodeGenerator.generateComponent, CodeGenerator.tryCatch,
    CodeGenerator.generateComponentBody.
  destruct (CodeGenerator.figmaData_components config) as [|c cs]; [contradiction|].
  unfold CodeGenerator.bind at 1. rewrite Hrun. reflexivity.
Qed.

(** X9 -- a non-empty component list.  [generateComponent] then returns
    the formatted component code written around the configurations of
    [processComponents], never the fallback notice.  The warnings and
    mappings of the result are those of the nodes; [imports] is replaced
    by the package list of [generateImports], which for TypeScript holds
    [@types/react], a package [dependencies] does not list. *)
Theorem generateComponent_on_components :
  forall (analyzeComponents : list string -> JS.Completion (list AntdComponent))
         (numberToString : Q -> string) (config : CodeGenerator.GenerationConfig),
    CodeGenerator.figmaData_components config <> [] ->
    exists configs ws ms,
      CodeGenerator.processComponents analyzeComponents numberToString
        (CodeGenerator.figmaData_components config) CodeGenerator.initialResult
      = (JS.Normal configs, extended CodeGenerator.initialResult ws ms)
      /\ CodeGenerator.generateComponent analyzeComponents numberToString config
         = JS.Normal
             {| CodeGenerator.code :=
                  Prettier.format
                    (CodeGenerator.generateReactCode numberToString
                       (CodeGenerator.componentName config) configs
                       (CodeGenerator.outputFormat config)
                       (CodeGenerator.includeStyles config))
                    (CodeGenerator.outputFormat config);
                CodeGenerator.imports :=
                  match CodeGenerator.outputFormat config with
                  | typescript => ["react"; "antd"; "@types/react"]
                  | javascript => ["react"; "antd"]
                  end;
                CodeGenerator.dependencies := ["react"; "antd"];
                CodeGenerator.warnings := ws;
                CodeGenerator.mappings := ms |}
      /\ Forall (fun w => JS.startsWith w "Code generation failed" = false) ws.
Proof.
  intros analyzeComponents numberToString config Hsome.
  destruct (processComponents_outcome analyzeComponents numberToString
              (CodeGenerator.figmaData_components config) CodeGenerator.initialResult)
    as (configs & ws & ms & Hrun & _ & _ & _ & _ & _ & _ & Hws).
  exists configs, ws, ms. split; [exact Hrun|]. split.
  - rewrite (generateComponent_on_nonempty_list _ _ _ _ _ Hsome Hrun).
    unfold CodeGenerator.generateImports, extended. cbn.
    destruct (CodeGenerator.outputFormat config); reflexivity.
  - revert Hws. apply Forall_impl. intros w Hw. unfold nodeWarning in Hw.
    apply orb_prop in Hw as [Hw | Hw]; [apply orb_prop in Hw as [Hw | Hw]|];
      apply startsWith_app in Hw; rewrite Hw; reflexivity.
Qed.


Lemma generateComponent_on_components_witness :
  exists configs ws ms,
    CodeGenerator.processComponents fullCatalog integerToString [plainFrame]
      CodeGenerator.initialResult
    = (JS.Normal configs, extended CodeGenerator.initialResult ws ms)
    /\ CodeGenerator.generateComponent fullCatalog integerToString (configOf [plainFrame])
       = JS.Normal
           {| CodeGenerator.code :=
                Prettier.format
                  (CodeGenerator.generateReactCode integerToString "App" configs
                     typescript true)
                  typescript;
              CodeGenerator.imports := ["react"; "antd"; "@types/react"];
              CodeGenerator.dependencies := ["react"; "antd"];
              CodeGenerator.warnings := ws;
              CodeGenerator.mappings := ms |}
    /\ Forall (fun w => JS.startsWith w "Code generation failed" = false) ws.
Proof.
  apply (generateComponent_on_components fullCatalog integerToString (configOf [plainFrame])).
  simpl. discriminate.
Defined.


(* ===================================================================== *)
(** * Further properties of the import statements *)
(* ===================================================================== *)

Lemma GeneratedComponentConfig_children_ind
    (P : CodeGenerator.GeneratedComponentConfig -> Prop) :
  (forall component props children style,
      match children with Some cs => Forall P cs | None => True end ->
      P (CodeGenerator.mkConfig component props children style)) ->
  forall config, P config.
Proof.
  intros step. fix IH 1. intros [component props children style].
  apply step. destruct children as [cs|]; [|exact I].
  induction cs as [|c cs IHcs]; constructor; [apply IH | exact IHcs].
Qed.

Section ImportFacts.
Import CodeGenerator.

Lemma collectComponents_unfold (config : GeneratedComponentConfig) (set : list string) :
  collectComponents config set
  = match cfg_children config with
    | Some cs =>
        fold_left (fun set child => collectComponents child set) cs
          (add (antd_name (cfg_component config)) set)
    | None => add (antd_name (cfg_component config)) set
    end.
Proof. destruct config as [component props [cs|] style]; reflexivity. Qed.

Lemma add_In (name n : string) (set : list string) :
  In n (add name set) <-> n = name \/ In n set.
Proof.
  unfold add. destruct (existsb (String.eqb name) set) eqn:E.
  - split; [auto|]. intros [-> | H]; [|exact H].
    apply existsb_exists in E as (x & Hx & Heq). apply String.eqb_eq in Heq. now subst.
  - rewrite in_app_iff. simpl. split; [intros [H | [<- | []]]; auto|].
    intros [-> | H]; auto.
Qed.

Lemma add_NoDup (name : string) (set : list string) :
  NoDup set -> NoDup (add name set).
Proof.
  intros Hnd. unfold add. destruct (existsb (String.eqb name) set) eqn:E; [exact Hnd|].
  apply NoDup_app; [exact Hnd | repeat constructor; intros [] |].
  intros n Hn [<- | []].
  assert (Ht : existsb (String.eqb name) set = true)
    by (apply existsb_exists; exists name; split; [exact Hn | apply String.eqb_refl]).
  congruence.
Qed.

Lemma fold_collected (cs : list GeneratedComponentConfig) :
  Forall collected cs ->
  forall set,
    (NoDup set -> NoDup (fold_left (fun set child => collectComponents child set) cs set))
    /\ (forall n, In n (fold_left (fun set child => collectComponents child set) cs set)
                  <-> In n set \/ In n (flat_map namesOf cs)).
Proof.
  induction 1 as [|c cs Hc _ IH]; intros set; simpl.
  - split; [auto | intros n; tauto].
  - destruct (Hc set) as [Hnd Hin]. destruct (IH (collectComponents c set)) as [Hnd' Hin'].
    split; [auto|]. intros n. rewrite Hin', Hin, in_app_iff. tauto.
Qed.

Lemma collectComponents_collected (config : GeneratedComponentConfig) : collected config.
Proof.
  induction config as [component props children style IH]
    using GeneratedComponentConfig_children_ind.
  intros set. rewrite collectComponents_unfold. cbn [cfg_children cfg_component namesOf].
  destruct children as [cs|].
  - destruct (fold_collected cs IH (add (antd_name component) set)) as [Hnd Hin].
    split.
    + intros H. now apply Hnd, add_NoDup.
    + intros n. rewrite Hin, add_In. simpl. intuition auto.
  - split.
    + apply add_NoDup.
    + intros n. rewrite add_In. simpl. intuition auto.
Qed.

Lemma defaultCompare_le (a b : string) :
  defaultCompare a b <= 0 <-> String.compare a b <> Gt.
Proof.
  unfold defaultCompare. destruct (String.compare a b); split; intros H; try lia;
    try discriminate; congruence.
Qed.

Lemma compare_Lt_trans (a b c : string) :
  String.compare a b = Lt -> String.compare b c = Lt -> String.compare a c = Lt.
Proof.
  intros H1 H2.
  exact (@RelationClasses.StrictOrder_Transitive _ _ OrdersEx.String_as_OT.lt_strorder
           a b c H1 H2).
Qed.

Lemma insert_ascending (a : string) (l : list string) :
  ~ In a l -> ascending l -> ascending (JS.insert defaultCompare a l).
Proof.
  unfold ascending. intros Hnot Hs. induction Hs as [|b l Hs IH Hb]; simpl.
  - repeat constructor.
  - assert (Hab : String.compare a b <> Eq).
    { intros Heq. apply String.compare_eq_iff in Heq. subst. apply Hnot. now left. }
    destruct (Z.leb_spec (defaultCompare a b) 0) as [Hle | Hgt].
    + apply defaultCompare_le in Hle.
      assert (Hlt : String.compare a b = Lt) by (destruct (String.compare a b); congruence).
      constructor; [now constructor|].
      constructor; [exact Hlt|].
      eapply Forall_impl; [|exact Hb]. simpl. intros c Hc.
      now apply compare_Lt_trans with b.
    + assert (Hba : String.compare b a = Lt).
      { rewrite String.compare_antisym.
        unfold defaultCompare in Hgt.
        destruct (String.compare a b); simpl; solve [lia | congruence | reflexivity]. }
      constructor; [apply IH; intros Hin; apply Hnot; now right|].
      eapply Permutation_Forall; [apply Permutation_sym, insert_perm|].
      constructor; [exact Hba | exact Hb].
Qed.

Lemma sort_ascending (l : list string) :
  NoDup l -> ascending (JS.sort defaultCompare l).
Proof.
  induction 1 as [|a l Hnot Hnd IH]; simpl; [constructor|].
  apply insert_ascending; [|exact IH]. now rewrite sort_In.
Qed.

End ImportFacts.

(** X10 -- the import statement.  [generateImportStatements] writes the
    React import and one import from [antd] that lists the component
    names of all configurations, nested ones included, each once and in
    ascending order of the code units; a name is listed as it is, also
    when it contains a dot. *)
Theorem generateImportStatements_names :
  forall configs : list CodeGenerator.GeneratedComponentConfig,
  exists names,
    CodeGenerator.generateImportStatements configs
    = ("import React from 'react';" ++ JS.nl
       ++ "import { " ++ JS.join ", " names ++ " } from 'antd';")%string
    /\ ascending names
    /\ (forall n, In n names <-> In n (flat_map namesOf configs)).
Proof.
  intros configs.
  destruct (fold_collected configs) with (set := @nil string) as [Hnd Hin].
  { apply Forall_forall. intros c _. apply collectComponents_collected. }
  eexists. split; [reflexivity|]. split.
  - apply sort_ascending, Hnd. constructor.
  - intros n. rewrite sort_In, Hin. simpl. tauto.
Qed.


(* ===================================================================== *)
(** * Further properties of the validator *)
(* ===================================================================== *)

Lemma validate_errors_lookup (antdComponents : list string) (code : string)
    (options : CodeValidator.PartialOptions) :
  CodeValidator.errors (CodeValidator.validate antdComponents code options)
  = if lacksReactImport antdComponents code options then [missingReactImport] else [].
Proof.
  unfold CodeValidator.validate, CodeValidator.validateBody. cbv zeta.
  cbn [CodeValidator.errors]. rewrite runRules_errors.
  unfold CodeValidator.validationRules.
  cbn [flat_map CodeValidator.shouldApplyRule CodeValidator.ruleValidate
         CodeValidator.errors app].
  rewrite validateAntdUsage_silent.
  unfold CodeValidator.validateProps, CodeValidator.validateAccessibility,
    CodeValidator.validatePerformance, CodeValidator.validateBestPractice.
  cbn [CodeValidator.rule_errors].
  assert (Hnil : forall b : bool, (if b then @nil CodeValidator.ValidationError else [])
                                  = []) by (intros []; reflexivity).
  rewrite !Hnil, !app_nil_r.
  unfold lacksReactImport, CodeValidator.validateImports.
  cbn [CodeValidator.rule_errors CodeValidator.imports CodeValidator.jsx
         CodeValidator.parseCode].
  destruct (CodeValidator.checkImports (CodeValidator.mergeOptions options));
    [|reflexivity].
  cbn [andb]. destruct (negb _ && _); reflexivity.
Qed.

(** X11 -- the errors of a validation.  The only error [validate] ever
    reports is the missing React import, once, of severity error: it is
    reported exactly when imports are checked, no import statement has the
    source [react] and the tag scan found at least one tag.  The code is
    valid in every other case, and the score is 100 less 20 for that error
    and 2 per warning, not below 0; the deduction of 5 never applies. *)
Theorem validate_errors_exact :
  forall (antdComponents : list string) (code : string)
         (options : CodeValidator.PartialOptions),
    let result := CodeValidator.validate antdComponents code options in
    let missing := lacksReactImport antdComponents code options in
    CodeValidator.errors result = (if missing then [missingReactImport] else [])
    /\ CodeValidator.isValid result = negb missing
    /\ CodeValidator.score result
       = Z.max 0 (100 - (if missing then 20 else 0)
                  - 2 * Z.of_nat (List.length (CodeValidator.warnings result))).
Proof.
  intros antdComponents code options result missing.
  assert (Herrors : CodeValidator.errors result
                    = if missing then [missingReactImport] else [])
    by apply validate_errors_lookup.
  split; [exact Herrors|].
  assert (Hvalid : CodeValidator.isValid result
                   = (List.length (filter CodeValidator.isError (CodeValidator.errors result))
                      =? 0)%nat) by reflexivity.
  assert (Hscore : CodeValidator.score result
                   = Z.max 0 (100 - CodeValidator.count CodeValidator.isError
                                      (CodeValidator.errors result) * 20
                              - CodeValidator.count CodeValidator.isWarning
                                  (CodeValidator.errors result) * 5
                              - Z.of_nat (List.length (CodeValidator.warnings result)) * 2))
    by reflexivity.
  rewrite Hvalid, Hscore, Herrors. unfold CodeValidator.count.
  destruct missing;
    cbn [filter CodeValidator.isError CodeValidator.isWarning CodeValidator.severity
           missingReactImport List.length Nat.eqb negb];
    split; solve [reflexivity | lia].
Qed.


(** ** Where the matches of a scan lie *)

Lemma string_app_nil_r (s : string) : (s ++ "")%string = s.
Proof. induction s as [|ch s IH]; simpl; [reflexivity | now rewrite IH]. Qed.

Lemma drop_app (pre rest : string) : RegExp.drop (String.length pre) (pre ++ rest) = rest.
Proof. induction pre as [|ch pre IH]; simpl; [now destruct rest | exact IH]. Qed.

Lemma substring_zero (s : string) : substring 0 0 s = ""%string.
Proof. now destruct s. Qed.

Lemma split_nonempty (sep : ascii) (s : string) : JS.split sep s <> [].
Proof.
  destruct s as [|ch s]; simpl; [discriminate|].
  destruct (Ascii.eqb ch sep); [discriminate|].
  destruct (JS.split sep s); discriminate.
Qed.

Lemma split_length_cons (sep ch : ascii) (s : string) :
  List.length (JS.split sep (String ch s))
  = ((if Ascii.eqb ch sep then 1 else 0) + List.length (JS.split sep s))%nat.
Proof.
  simpl. destruct (Ascii.eqb ch sep); [reflexivity|].
  pose proof (split_nonempty sep s) as Hne.
  destruct (JS.split sep s); [contradiction | reflexivity].
Qed.

Lemma split_length_pos (sep : ascii) (s : string) :
  (1 <= List.length (JS.split sep s))%nat.
Proof.
  pose proof (split_nonempty sep s) as Hne.
  destruct (JS.split sep s); [contradiction | simpl; lia].
Qed.

Lemma split_length_prefix (sep : ascii) (s : string) (n : nat) :
  (List.length (JS.split sep (substring 0 n s)) <= List.length (JS.split sep s))%nat.
Proof.
  revert n. induction s as [|ch s IH]; intros n.
  - destruct n; simpl; lia.
  - destruct n as [|n].
    + rewrite substring_zero. rewrite split_length_cons.
      pose proof (split_length_pos sep s). simpl. lia.
    + cbn [substring]. rewrite !split_length_cons. specialize (IH n). lia.
Qed.

Lemma lineAt_range (code : string) (index : nat) :
  lineInRange code (Some (CodeValidator.lineAt code index)).
Proof.
  unfold lineInRange, CodeValidator.lineAt. split.
  - apply split_length_pos.
  - apply split_length_prefix.
Qed.

Lemma lineAt_prefix (before rest : string) :
  CodeValidator.lineAt (before ++ rest) (String.length before)
  = List.length (JS.split JS.LF before).
Proof. unfold CodeValidator.lineAt. now rewrite substring_prefix. Qed.

Lemma Scanned_shift (ch : ascii) (before rest : string) (found : list (nat * string)) :
  Scanned (before ++ String ch "") rest found -> Scanned before (String ch rest) found.
Proof.
  intros H. inversion H as [b r | b gap text r line fnd Hline Htail]; subst.
  - constructor.
  - change (String ch (gap ++ text ++ r))%string
      with ((String ch gap) ++ text ++ r)%string.
    constructor.
    + now rewrite string_app_assoc.
    + rewrite string_app_assoc in Htail. exact Htail.
Qed.

Lemma execAllFrom_Scanned (p : RegExp.pattern) (code : string) :
  forall s before skip,
    (before ++ s)%string = code ->
    Scanned (before ++ substring 0 skip s) (RegExp.drop skip s)
      (map (fun m => (CodeValidator.lineAt code (RegExp.index m), RegExp.matched m))
         (RegExp.execAllFrom p skip (String.length before) s)).
Proof.
  induction s as [|ch s IH]; intros before skip Hcode.
  - destruct skip as [|skip]; simpl; [|constructor].
    destruct (RegExp.matchHere p "") as [[rest c]|] eqn:E; [|constructor].
    simpl. apply matchHere_sound in E. apply Matches_prefix in E as (pre & Hpre).
    destruct pre; [|discriminate]. simpl in Hpre. subst rest.
    change (RegExp.consumed "" "") with ""%string.
    change ""%string with ("" ++ "" ++ "")%string at 2.
    constructor; [|constructor].
    rewrite <- Hcode. rewrite !string_app_nil_r.
    rewrite <- (string_app_nil_r before) at 1. apply lineAt_prefix.
  - assert (Hnext : ((before ++ String ch "") ++ s)%string = code).
    { rewrite string_app_assoc. exact Hcode. }
    assert (Hlen : String.length (before ++ String ch "") = S (String.length before)).
    { rewrite string_app_length. simpl. lia. }
    destruct skip as [|skip].
    + cbn [RegExp.execAllFrom RegExp.drop]. rewrite substring_zero, string_app_nil_r.
      destruct (RegExp.matchHere p (String ch s)) as [[rest c]|] eqn:E.
      * apply matchHere_sound in E. apply Matches_prefix in E as (pre & Hpre).
        rewrite Hpre, consumed_app. cbn [map RegExp.index RegExp.matched].
        change (pre ++ rest)%string with ("" ++ pre ++ rest)%string.
        constructor.
        { rewrite string_app_nil_r, <- Hcode. apply lineAt_prefix. }
        cbn [append].
        specialize (IH (before ++ String ch "")%string (String.length pre - 1)%nat Hnext).
        rewrite Hlen in IH.
        destruct pre as [|ch' pre].
        -- simpl in Hpre. subst rest. rewrite string_app_nil_r.
           cbn [String.length Nat.sub] in IH |- *.
           rewrite substring_zero, string_app_nil_r in IH. cbn [RegExp.drop] in IH.
           apply Scanned_shift. exact IH.
        -- simpl in Hpre. injection Hpre as <- ->.
           cbn [String.length Nat.sub] in IH |- *. rewrite Nat.sub_0_r in IH |- *.
           rewrite substring_prefix, drop_app, string_app_assoc in IH. exact IH.
      * specialize (IH (before ++ String ch "")%string 0%nat Hnext).
        rewrite Hlen, substring_zero, string_app_nil_r in IH. cbn [RegExp.drop] in IH.
        apply Scanned_shift. exact IH.
    + cbn [RegExp.execAllFrom RegExp.drop substring].
      specialize (IH (before ++ String ch "")%string skip Hnext).
      rewrite Hlen, string_app_assoc in IH. exact IH.
Qed.

Lemma execAll_Scanned (p : RegExp.pattern) (code : string) :
  Scanned "" code
    (map (fun m => (CodeValidator.lineAt code (RegExp.index m), RegExp.matched m))
       (RegExp.execAll p code)).
Proof.
  pose proof (execAllFrom_Scanned p code code "" 0%nat eq_refl) as H.
  rewrite substring_zero in H. exact H.
Qed.


Section LineFacts.
Import CodeValidator.

Lemma inlineHandlers_lines (ls : list string) :
  forall i, Forall (fun w => match warning_line w with
                             | Some n => (i + 1 <= n <= i + List.length ls)%nat
                             | None => True
                             end) (inlineHandlers i ls).
Proof.
  induction ls as [|line ls IH]; intros i; simpl; [constructor|].
  apply Forall_app. split.
  - destruct (JS.includes line "() =>" && JS.includes line "onClick");
      repeat constructor; simpl; lia.
  - eapply Forall_impl; [|apply (IH (S i))]. intros w. simpl.
    destruct (warning_line w); [lia | trivial].
Qed.

Lemma rule_warnings_lines (antdComponents : list string) (code : string)
    (config : ValidationOptions) (rule : ValidationRule) :
  Forall (fun w => lineInRange code (warning_line w))
    (rule_warnings (ruleValidate rule (parseCode antdComponents code) config)).
Proof.
  destruct rule; cbn [ruleValidate].
  - unfold validateImports. cbn [rule_warnings].
    apply Forall_flat_map, Forall_forall. intros imp _.
    destruct (equals (import_source imp) "antd"); [|constructor].
    apply Forall_flat_map, Forall_forall. intros name _.
    destruct (negb _); repeat constructor.
  - constructor.
  - unfold validateProps. cbn [rule_warnings props parseCode].
    apply Forall_flat_map, Forall_forall. intros p Hp.
    unfold extractProps in Hp. apply in_map_iff in Hp as (m & <- & _).
    destruct (_ && _); [|constructor].
    constructor; [apply lineAt_range | constructor].
  - unfold validateAccessibility. cbn [rule_warnings jsx parseCode].
    apply Forall_flat_map, Forall_forall. intros j Hj.
    unfold extractJSX in Hj. apply in_map_iff in Hj as (m & <- & _).
    apply Forall_app.
    split; (destruct (_ && _); [|constructor]);
      (constructor; [apply lineAt_range | constructor]).
  - unfold validatePerformance. cbn [rule_warnings lines parseCode].
    eapply Forall_impl; [|apply inlineHandlers_lines]. intros w. unfold lineInRange.
    destruct (warning_line w); [lia | trivial].
  - unfold validateBestPractice. cbn [rule_warnings components parseCode].
    apply Forall_flat_map, Forall_forall. intros comp Hcomp.
    unfold extractComponents in Hcomp. apply in_map_iff in Hcomp as (m & <- & _).
    destruct (negb _); [|constructor].
    constructor; [apply lineAt_range | constructor].
Qed.

End LineFacts.

(** X12 -- line numbers.  Every line number [validate] attaches to a
    warning or an error is a line of the code: at least 1 and at most the
    number of lines. *)
Theorem validate_lines_in_range :
  forall (antdComponents : list string) (code : string)
         (options : CodeValidator.PartialOptions),
    Forall (fun w => lineInRange code (CodeValidator.warning_line w))
      (CodeValidator.warnings (CodeValidator.validate antdComponents code options))
    /\ Forall (fun e => lineInRange code (CodeValidator.error_line e))
         (CodeValidator.errors (CodeValidator.validate antdComponents code options)).
Proof.
  intros antdComponents code options. split.
  - unfold CodeValidator.validate, CodeValidator.validateBody. cbv zeta.
    cbn [CodeValidator.warnings].
    rewrite runRules_warnings. cbn [CodeValidator.warnings app].
    apply Forall_flat_map, Forall_forall. intros rule _.
    destruct (CodeValidator.shouldApplyRule rule (CodeValidator.mergeOptions options));
      [|constructor].
    apply rule_warnings_lines.
  - unfold CodeValidator.validate, CodeValidator.validateBody. cbv zeta.
    cbn [CodeValidator.errors].
    rewrite runRules_errors. cbn [CodeValidator.errors app].
    apply Forall_flat_map, Forall_forall. intros rule _.
    destruct (CodeValidator.shouldApplyRule rule (CodeValidator.mergeOptions options));
      [|constructor].
    destruct rule; cbn [CodeValidator.ruleValidate]; try constructor.
    + unfold CodeValidator.validateImports. cbn [CodeValidator.rule_errors].
      destruct (negb _ && _); repeat constructor.
    + rewrite validateAntdUsage_silent. constructor.
Qed.


(** The text of a match of the tag pattern: [<], the captured tag, which is
    a non-empty run of word characters, and a rest that ends in [>]. *)
Lemma jsxRegex_tag (s s' : string) (c' : RegExp.captures) :
  Matches CodeValidator.jsxRegex s RegExp.noCaptures s' c' ->
  exists ch run tail,
    c' 1%nat = Some (String ch run)
    /\ allChars RegExp.isWord (String ch run) = true
    /\ RegExp.consumed s s' = ("<" ++ String ch run ++ tail ++ ">")%string.
Proof.
  intros H. unfold CodeValidator.jsxRegex in H. cbn [RegExp.seq] in H.
  destruct H as (s1 & c1 & Hlt & s2 & c2 & Htag & Hrest).
  pose proof Hrest as Hend.
  eapply (EndsIn_sound ">") in Hend; [|exact jsxRegex_EndsIn].
  destruct Hend as (tail & ->).
  apply Matches_groupFree in Hrest; [|reflexivity]. subst c'.
  destruct Hlt as (lt & -> & Hlt & _). apply Ascii.eqb_eq in Hlt as <-.
  destruct Htag as (c0 & Hplus & ->).
  destruct Hplus as (sa & ca & (ch & -> & Hch & _) & Hstar).
  apply Iterates_class in Hstar as (run & -> & Hrun).
  exists ch, run, tail. split; [|split].
  - unfold RegExp.setCapture. simpl Nat.eqb. cbv iota.
    change (String ch (run ++ tail ++ String ">" s')%string)
      with (String ch run ++ (tail ++ String ">" s'))%string.
    now rewrite consumed_app.
  - simpl. now rewrite Hch.
  - replace (String "<" (String ch (run ++ tail ++ String ">" s')))%string
      with (("<" ++ String ch run ++ tail ++ ">") ++ s')%string.
    + apply consumed_app.
    + simpl. do 2 f_equal. rewrite !string_app_assoc. reflexivity.
Qed.

(** X13 -- the tag scan.  The tags [extractJSX] reports are stretches of
    the code that follow one another without overlap, so that no tag inside
    a reported tag is reported; the line of each is the line on which it
    starts.  Each reported text is [<], the tag name, which is a non-empty
    run of word characters, and a rest that ends in [>]. *)
Theorem extractJSX_left_to_right :
  forall (antdComponents : list string) (code : string),
    Scanned "" code
      (map (fun j => (CodeValidator.jsx_line j, CodeValidator.fullMatch j))
         (CodeValidator.extractJSX antdComponents code))
    /\ Forall (fun j => exists ch run tail,
                   CodeValidator.tagName j = Some (String ch run)
                   /\ allChars RegExp.isWord (String ch run) = true
                   /\ CodeValidator.fullMatch j
                      = ("<" ++ String ch run ++ tail ++ ">")%string)
         (CodeValidator.extractJSX antdComponents code).
Proof.
  intros antdComponents code. split.
  - unfold CodeValidator.extractJSX. rewrite map_map.
    cbn [CodeValidator.jsx_line CodeValidator.fullMatch].
    apply execAll_Scanned.
  - apply Forall_forall. intros j Hj.
    unfold CodeValidator.extractJSX in Hj. apply in_map_iff in Hj as (m & <- & Hm).
    cbn [CodeValidator.tagName CodeValidator.fullMatch].
    apply execAllFrom_sound in Hm as (s0 & rest & HM & ->).
    now apply jsxRegex_tag.
Qed.


(* ===================================================================== *)
(** * Properties of the formatter *)
(* ===================================================================== *)

Section FormatFacts.

Lemma allChars_app (f : ascii -> bool) (a b : string) :
  allChars f (a ++ b) = allChars f a && allChars f b.
Proof. induction a as [|ch a IH]; simpl; [reflexivity | now rewrite IH, andb_assoc]. Qed.

Lemma allChars_trimStart (f : ascii -> bool) (s : string) :
  allChars f s = true -> allChars f (JS.trimStart s) = true.
Proof.
  induction s as [|ch s IH]; simpl; [auto|]. intros H.
  apply andb_prop in H as [Hch Hs].
  destruct (JS.isWhiteSpace ch); [auto | simpl; now rewrite Hch, Hs].
Qed.

Lemma allChars_trimEnd (f : ascii -> bool) (s : string) :
  allChars f s = true -> allChars f (JS.trimEnd s) = true.
Proof.
  induction s as [|ch s IH]; simpl; [auto|]. intros H.
  apply andb_prop in H as [Hch Hs]. specialize (IH Hs).
  destruct (JS.trimEnd s) as [|ch' t].
  - destruct (JS.isWhiteSpace ch); simpl; [reflexivity | now rewrite Hch].
  - simpl in *. now rewrite Hch, IH.
Qed.

Lemma allChars_repeat (f : ascii -> bool) (s : string) (n : nat) :
  allChars f s = true -> allChars f (JS.repeat s n) = true.
Proof.
  intros H. induction n as [|n IH]; simpl; [reflexivity|].
  now rewrite allChars_app, H, IH.
Qed.

(** *** Splitting and joining lines *)

Lemma split_line (a rest : string) :
  allChars noLineFeed a = true ->
  JS.split JS.LF (a ++ String JS.LF rest) = a :: JS.split JS.LF rest.
Proof.
  induction a as [|ch a IH]; intros H.
  - reflexivity.
  - simpl in H. apply andb_prop in H as [Hch Ha].
    cbn [append JS.split]. unfold noLineFeed in Hch.
    destruct (Ascii.eqb ch JS.LF); [discriminate|].
    now rewrite (IH Ha).
Qed.

Lemma split_single (a : string) :
  allChars noLineFeed a = true -> JS.split JS.LF a = [a].
Proof.
  induction a as [|ch a IH]; intros H.
  - reflexivity.
  - simpl in H. apply andb_prop in H as [Hch Ha].
    cbn [JS.split]. unfold noLineFeed in Hch.
    destruct (Ascii.eqb ch JS.LF); [discriminate|].
    now rewrite (IH Ha).
Qed.

Lemma split_join (ls : list string) :
  ls <> [] -> Forall (fun l => allChars noLineFeed l = true) ls ->
  JS.split JS.LF (JS.join JS.nl ls) = ls.
Proof.
  intros Hne H. induction H as [|a ls Ha Hls IH]; [contradiction|].
  destruct ls as [|b ls].
  - simpl. now apply split_single.
  - change (JS.join JS.nl (a :: b :: ls))
      with (a ++ String JS.LF (JS.join JS.nl (b :: ls)))%string.
    rewrite (split_line _ _ Ha). f_equal. apply IH. discriminate.
Qed.

Lemma split_lines (s : string) :
  Forall (fun l => allChars noLineFeed l = true) (JS.split JS.LF s).
Proof.
  induction s as [|ch s IH]; simpl.
  - repeat constructor.
  - destruct (Ascii.eqb ch JS.LF) eqn:E.
    + constructor; [reflexivity | exact IH].
    + destruct (JS.split JS.LF s) as [|piece pieces]; [repeat constructor|].
      * simpl. unfold noLineFeed. now rewrite E.
      * inversion IH as [|? ? Hpiece Hpieces]; subst.
        constructor; [|exact Hpieces]. simpl. unfold noLineFeed at 1. now rewrite E.
Qed.

(** *** Trimming *)

Lemma trimEnd_idempotent (s : string) : JS.trimEnd (JS.trimEnd s) = JS.trimEnd s.
Proof.
  induction s as [|ch s IH]; [reflexivity|]. cbn [JS.trimEnd].
  destruct (JS.trimEnd s) as [|ch' t] eqn:E.
  - destruct (JS.isWhiteSpace ch) eqn:Ews; [reflexivity|].
    simpl. now rewrite Ews.
  - cbn [JS.trimEnd]. cbn [JS.trimEnd] in IH. rewrite IH. reflexivity.
Qed.

Lemma trimEnd_head (ch : ascii) (s : string) :
  JS.isWhiteSpace ch = false -> exists t, JS.trimEnd (String ch s) = String ch t.
Proof.
  intros Hch. cbn [JS.trimEnd]. destruct (JS.trimEnd s); [rewrite Hch|]; eauto.
Qed.

Lemma trimStart_head (s : string) :
  JS.trimStart s = ""%string
  \/ exists ch t, JS.trimStart s = String ch t /\ JS.isWhiteSpace ch = false.
Proof.
  induction s as [|ch s IH]; simpl; [now left|].
  destruct (JS.isWhiteSpace ch) eqn:E; [exact IH | right; eauto].
Qed.

(** A trimmed text starts and ends with a code unit that is no white
    space, and trimming leaves it as it is. *)
Lemma trim_head (s : string) :
  JS.trim s = ""%string
  \/ exists ch t, JS.trim s = String ch t /\ JS.isWhiteSpace ch = false.
Proof.
  unfold JS.trim. destruct (trimStart_head s) as [-> | (ch & t & -> & Hch)]; [now left|].
  right. destruct (trimEnd_head ch t Hch) as (t' & ->). eauto.
Qed.

Lemma trimStart_trim (s : string) : JS.trimStart (JS.trim s) = JS.trim s.
Proof.
  destruct (trim_head s) as [-> | (ch & t & -> & Hch)]; [reflexivity|].
  simpl. now rewrite Hch.
Qed.

Lemma trim_idempotent (s : string) : JS.trim (JS.trim s) = JS.trim s.
Proof.
  unfold JS.trim at 1. rewrite trimStart_trim. unfold JS.trim.
  apply trimEnd_idempotent.
Qed.

Lemma trimStart_indent (indent s : string) :
  allChars JS.isWhiteSpace indent = true ->
  JS.trimStart (indent ++ s) = JS.trimStart s.
Proof.
  induction indent as [|ch indent IH]; simpl; [reflexivity|]. intros H.
  apply andb_prop in H as [-> Hrest]. now apply IH.
Qed.

Lemma trim_indent (indent s : string) :
  allChars JS.isWhiteSpace indent = true ->
  JS.trim (indent ++ JS.trim s) = JS.trim s.
Proof.
  intros H. unfold JS.trim at 1. rewrite (trimStart_indent _ _ H).
  fold (JS.trim (JS.trim s)). apply trim_idempotent.
Qed.

(** *** The loop over the lines *)

Lemma formatLines_trim (indent : string) (lines : list string) :
  allChars JS.isWhiteSpace indent = true ->
  forall level,
    map JS.trim (Prettier.formatLines indent level lines) = map JS.trim lines.
Proof.
  intros Hindent. induction lines as [|raw rest IH]; intros level; [reflexivity|].
  cbn [Prettier.formatLines]. cbv zeta.
  destruct (negb (JS.truthy (JS.trim raw))) eqn:E.
  - cbn [map]. rewrite IH. f_equal.
    destruct (JS.trim raw); [reflexivity | discriminate].
  - cbn [map]. rewrite IH. f_equal.
    apply trim_indent. now apply allChars_repeat.
Qed.

Lemma formatLines_idempotent (indent : string) (lines : list string) :
  allChars JS.isWhiteSpace indent = true ->
  forall level,
    Prettier.formatLines indent level (Prettier.formatLines indent level lines)
    = Prettier.formatLines indent level lines.
Proof.
  intros Hindent. induction lines as [|raw rest IH]; intros level; [reflexivity|].
  cbn [Prettier.formatLines]. cbv zeta.
  destruct (negb (JS.truthy (JS.trim raw))) eqn:E.
  - cbn [Prettier.formatLines]. cbv zeta. change (JS.trim "") with ""%string.
    cbn [JS.truthy negb]. now rewrite IH.
  - cbn [Prettier.formatLines]. cbv zeta.
    rewrite trim_indent by now apply allChars_repeat.
    rewrite E. now rewrite IH.
Qed.

Lemma formatLines_lines (indent : string) (lines : list string) :
  allChars noLineFeed indent = true ->
  Forall (fun l => allChars noLineFeed l = true) lines ->
  forall level,
    Forall (fun l => allChars noLineFeed l = true)
      (Prettier.formatLines indent level lines).
Proof.
  intros Hindent H. induction H as [|raw rest Hraw _ IH]; intros level; [constructor|].
  cbn [Prettier.formatLines]. cbv zeta.
  destruct (negb (JS.truthy (JS.trim raw))).
  - constructor; [reflexivity | apply IH].
  - constructor; [|apply IH].
    rewrite allChars_app, allChars_repeat by exact Hindent.
    unfold JS.trim. now apply allChars_trimEnd, allChars_trimStart.
Qed.

Lemma formatLines_nonempty (indent : string) (level : nat) (lines : list string) :
  lines <> [] -> Prettier.formatLines indent level lines <> [].
Proof.
  destruct lines as [|raw rest]; [contradiction|]. intros _.
  cbn [Prettier.formatLines]. cbv zeta.
  destruct (negb (JS.truthy (JS.trim raw))); discriminate.
Qed.

Lemma formatCode_split (code : string) (parser : OutputFormat) :
  JS.split JS.LF (Prettier.formatCode code parser)
  = Prettier.formatLines "  " 0 (JS.split JS.LF code).
Proof.
  unfold Prettier.formatCode. cbv zeta. change (JS.repeat " " 2) with "  "%string.
  apply split_join.
  - apply formatLines_nonempty, split_nonempty.
  - apply formatLines_lines; [reflexivity | apply split_lines].
Qed.

End FormatFacts.

(** X14 -- formatting keeps the lines.  [formatCode] returns as many lines
    as it was given, and each is the line of the input up to the white
    space at its two ends: formatting only re-indents. *)
Theorem formatCode_keeps_lines :
  forall (code : string) (parser : OutputFormat),
    map JS.trim (JS.split JS.LF (Prettier.formatCode code parser))
    = map JS.trim (JS.split JS.LF code).
Proof.
  intros code parser. rewrite formatCode_split.
  now apply formatLines_trim.
Qed.

(** X15 -- formatting twice.  [formatCode] is idempotent: formatted code
    is left as it is by a second pass, whatever the parser option. *)
Theorem formatCode_idempotent :
  forall (code : string) (parser parser' : OutputFormat),
    Prettier.formatCode (Prettier.formatCode code parser) parser'
    = Prettier.formatCode code parser.
Proof.
  intros code parser parser'.
  unfold Prettier.formatCode at 1. cbv zeta. rewrite formatCode_split.
  change (JS.repeat " " 2) with "  "%string.
  rewrite formatLines_idempotent by reflexivity. reflexivity.
Qed.


(* ===================================================================== *)
(** * Properties of the parser *)
(* ===================================================================== *)

Lemma Node_children_ind (P : FigmaTree.Node -> Prop) :
  (forall node,
      match FigmaTree.n_children node with
      | Some children => Forall P children
      | None => True
      end -> P node) ->
  forall node, P node.
Proof.
  intros step. fix IH 1. intros node. apply step.
  destruct node as [? ? ? ? ? ? ? ? ? ? ? ? ? ? ? ? ? ? children ? ?].
  cbn [FigmaTree.n_children]. destruct children as [cs|]; [|exact I].
  induction cs as [|c cs IHcs]; constructor; [apply IH | exact IHcs].
Qed.

Section ParserFacts.
Import FigmaTree.

Lemma find_app {A : Type} (f : A -> bool) (l1 l2 : list A) :
  find f (l1 ++ l2) = match find f l1 with Some a => Some a | None => find f l2 end.
Proof.
  induction l1 as [|a l1 IH]; simpl; [reflexivity|]. now destruct (f a).
Qed.

Lemma findNodeById_unfold (node : Node) (nodeId : string) :
  findNodeById node nodeId
  = if String.eqb (n_id node) nodeId then Some node
    else match n_children node with
         | Some children =>
             fold_right (fun child later =>
                           match findNodeById child nodeId with
                           | Some found => Some found
                           | None => later
                           end) None children
         | None => None
         end.
Proof.
  destruct node as [? ? ? ? ? ? ? ? ? ? ? ? ? ? ? ? ? ? children ? ?].
  cbn [findNodeById n_id n_children].
  destruct (String.eqb _ nodeId); [reflexivity|].
  destruct children as [cs|]; [|reflexivity].
  induction cs as [|c cs IH]; [reflexivity|]. cbn [fold_right].
  rewrite <- IH. reflexivity.
Qed.

Lemma parseNode_unfold (node : Node) :
  parseNode node
  = [ {| pc_id := n_id node;
         pc_name := Some (n_name node);
         pc_type := n_type node;
         pc_properties := extractProperties node;
         pc_children :=
           match n_children node with
           | Some (child :: children) => Some (flat_map parseNode (child :: children))
           | _ => None
           end;
         pc_layout := Some (extractLayout node);
         pc_styling := Some (extractStyling node);
         pc_content :=
           if String.eqb (n_type node) "TEXT" && JS.truthy_opt (n_characters node)
           then Some (extractContent node)
           else None |} ].
Proof.
  destruct node as [? ? ? ? ? ? ? ? ? ? ? ? ? ? ? ? ? ? children ? ?].
  cbn [parseNode n_children app]. do 2 f_equal.
  destruct children as [[|c cs]|]; reflexivity.
Qed.

End ParserFacts.

(** X16 -- finding a node.  [findNodeById] returns the first node of the
    document, in document order, whose id is the one asked for, and [null]
    exactly when the document holds no such node. *)
Theorem findNodeById_first :
  forall (node : FigmaTree.Node) (nodeId : string),
    FigmaTree.findNodeById node nodeId
    = find (fun n => String.eqb (FigmaTree.n_id n) nodeId) (documentOrder node).
Proof.
  intros node nodeId.
  induction node as [node IH] using Node_children_ind.
  rewrite findNodeById_unfold.
  destruct node as [id ? ? ? ? ? ? ? ? ? ? ? ? ? ? ? ? ? children ? ?].
  cbn [documentOrder find FigmaTree.n_id FigmaTree.n_children] in *.
  destruct (String.eqb id nodeId); [reflexivity|].
  destruct children as [cs|]; [|reflexivity].
  induction IH as [|c cs Hc _ IHcs]; [reflexivity|].
  cbn [fold_right flat_map]. rewrite find_app, Hc, IHcs. reflexivity.
Qed.


Lemma parseNode_singleton (node : FigmaTree.Node) :
  exists component, FigmaTree.parseNode node = [component].
Proof. rewrite parseNode_unfold. eexists. reflexivity. Qed.

Lemma parseNode_children (children : list FigmaTree.Node) :
  Forall (fun node => exists component,
              FigmaTree.parseNode node = [component]
              /\ parsedOrder component = flat_map FigmaTree.parseNode (documentOrder node)
              /\ Forall complete (parsedOrder component)) children ->
  flat_map parsedOrder (flat_map FigmaTree.parseNode children)
  = flat_map FigmaTree.parseNode (flat_map documentOrder children)
  /\ Forall complete (flat_map parsedOrder (flat_map FigmaTree.parseNode children)).
Proof.
  induction 1 as [|child children (component & Hone & Horder & Hcomplete) _ [IH1 IH2]].
  - split; [reflexivity | constructor].
  - cbn [flat_map]. rewrite Hone, !flat_map_app. cbn [flat_map app].
    rewrite app_nil_r. split; [now rewrite Horder, IH1|].
    apply Forall_app. now split.
Qed.

(** The parsed tree of a node, component by component. *)
Lemma parseNode_tree :
  forall node : FigmaTree.Node,
  exists component,
    FigmaTree.parseNode node = [component]
    /\ parsedOrder component = flat_map FigmaTree.parseNode (documentOrder node)
    /\ Forall complete (parsedOrder component).
Proof.
  induction node as [node IH] using Node_children_ind.
  rewrite parseNode_unfold. eexists. split; [reflexivity|].
  assert (Hhead : forall children content,
             complete {| pc_id := FigmaTree.n_id node;
                         pc_name := Some (FigmaTree.n_name node);
                         pc_type := FigmaTree.n_type node;
                         pc_properties := FigmaTree.extractProperties node;
                         pc_children :=
                           match children with
                           | Some (child :: children') =>
                               Some (flat_map FigmaTree.parseNode (child :: children'))
                           | _ => None
                           end;
                         pc_layout := Some (FigmaTree.extractLayout node);
                         pc_styling := Some (FigmaTree.extractStyling node);
                         pc_content := content |}).
  { intros children content. split.
    - simpl. eexists _, _, _. repeat split.
    - simpl. destruct children as [[|child children']|]; try discriminate.
      intros Hempty. injection Hempty as Hempty. cbn [flat_map] in Hempty.
      rewrite parseNode_unfold in Hempty. discriminate. }
  assert (Horder : documentOrder node
                   = node :: match FigmaTree.n_children node with
                             | Some children => flat_map documentOrder children
                             | None => []
                             end) by (destruct node; reflexivity).
  rewrite Horder. cbn [parsedOrder pc_children].
  change (flat_map FigmaTree.parseNode (node :: ?l))
    with (FigmaTree.parseNode node ++ flat_map FigmaTree.parseNode l).
  rewrite (parseNode_unfold node). cbn [app].
  destruct (FigmaTree.n_children node) as [[|child children]|] eqn:Hchildren.
  - split; [reflexivity|]. constructor; [apply (Hhead (Some [])) | constructor].
  - destruct (parseNode_children _ IH) as [H1 H2].
    split; [now rewrite H1|].
    constructor; [apply (Hhead (Some (child :: children))) | exact H2].
  - split; [reflexivity|]. constructor; [apply (Hhead None) | constructor].
Qed.

(** X17 -- parsing a node.  [parseNode] returns exactly one component for
    a node.  The components of the parsed tree, listed in document order,
    are the nodes of the document in document order, each parsed as it
    would be on its own; each has a name, a layout and a styling, and its
    list of children is never empty. *)
Theorem parseNode_document_order :
  forall node : FigmaTree.Node,
  exists component,
    FigmaTree.parseNode node = [component]
    /\ parsedOrder component = flat_map FigmaTree.parseNode (documentOrder node)
    /\ Forall complete (parsedOrder component).
Proof.
  intros node. destruct (parseNode_tree node) as (component & Hone & Horder & Hcomplete).
  exists component. split; [exact Hone|]. split; [exact Horder | exact Hcomplete].
Qed.


(* ===================================================================== *)
(** * From the document to the configurations *)
(* ===================================================================== *)

Lemma existsb_pushed {A B : Type} (f : A -> bool) (l : list A) (o : option B)
    (p : B -> A) :
  (forall v, f (p v) = false) ->
  existsb f match o with Some v => l ++ [p v] | None => l end = existsb f l.
Proof.
  intros H. destruct o as [v|]; [|reflexivity].
  rewrite existsb_app. simpl. now rewrite H, !orb_false_r.
Qed.

Lemma existsb_pushed_if {A B : Type} (f : A -> bool) (l : list A) (o : option B)
    (p : B -> A) (keep : B -> bool) :
  (forall v, f (p v) = false) ->
  existsb f match o with Some v => if keep v then l ++ [p v] else l | None => l end
  = existsb f l.
Proof.
  intros H. destruct o as [v|]; [|reflexivity]. destruct (keep v); [|reflexivity].
  rewrite existsb_app. simpl. now rewrite H, !orb_false_r.
Qed.

Lemma isHidden_parsed (node : FigmaTree.Node) (component : ParsedComponent) :
  FigmaTree.parseNode node = [component] ->
  isHidden component
  = match FigmaTree.n_visible node with
    | Some false => true
    | _ => false
    end.
Proof.
  rewrite parseNode_unfold. intros [= <-]. unfold isHidden. cbn [pc_properties].
  unfold FigmaTree.extractProperties. cbv zeta.
  rewrite (existsb_pushed_if _ _ (FigmaTree.n_layoutSizingVertical node)
             (fun v => {| property_name := "layoutSizingVertical";
                          property_value := VStr v; property_type := "string" |}))
    by reflexivity.
  rewrite (existsb_pushed_if _ _ (FigmaTree.n_layoutSizingHorizontal node)
             (fun v => {| property_name := "layoutSizingHorizontal";
                          property_value := VStr v; property_type := "string" |}))
    by reflexivity.
  rewrite (existsb_pushed _ _ (FigmaTree.n_layoutGrow node)
             (fun v => {| property_name := "layoutGrow";
                          property_value := VNum v; property_type := "number" |}))
    by reflexivity.
  rewrite (existsb_pushed_if _ _ (FigmaTree.n_layoutAlign node)
             (fun v => {| property_name := "layoutAlign";
                          property_value := VStr v; property_type := "string" |}))
    by reflexivity.
  rewrite (existsb_pushed _ _ (FigmaTree.n_opacity node)
             (fun v => {| property_name := "opacity";
                          property_value := VNum v; property_type := "number" |}))
    by reflexivity.
  rewrite (existsb_pushed _ _ (FigmaTree.n_locked node)
             (fun v => {| property_name := "locked";
                          property_value := VBool v; property_type := "boolean" |}))
    by reflexivity.
  destruct (FigmaTree.n_visible node) as [[|]|]; reflexivity.
Qed.

(** X18 -- hidden layers.  A node of the document whose [visible] is
    [false] is given the style [display: none] by [generateProps], whatever
    the component chosen for it; any other node gets no [style] property. *)
Theorem hidden_node_is_not_displayed :
  forall (node : FigmaTree.Node) (antdComponent : AntdComponent),
  exists component,
    FigmaTree.parseNode node = [component]
    /\ CodeGenerator.lookup "style" (CodeGenerator.generateProps component antdComponent)
       = match FigmaTree.n_visible node with
         | Some false =>
             Some (CodeGenerator.JObject [("display", CodeGenerator.JString "none")])
         | _ => None
         end.
Proof.
  intros node antdComponent.
  destruct (parseNode_singleton node) as (component & Hone).
  exists component. split; [exact Hone|].
  rewrite generateProps_style, (isHidden_parsed node component Hone).
  destruct (FigmaTree.n_visible node) as [[|]|]; reflexivity.
Qed.


Lemma ruleScore_nonneg (mapping : ComponentMapping) (figmaNode : ParsedComponent)
    (context : option string) :
  Forall (fun rule => 0 <= weight rule) (rules mapping) ->
  0 <= ruleScore mapping figmaNode context.
Proof.
  unfold ruleScore. induction 1 as [|rule rs Hrule _ IH]; simpl; [lia|].
  destruct (CodeGenerator.evaluateRule rule figmaNode context); simpl; lia.
Qed.

Lemma nameScore_nonneg (mapping : ComponentMapping) (figmaNode : ParsedComponent) :
  0 <= nameScore mapping figmaNode.
Proof.
  unfold nameScore.
  destruct (figmaName mapping) as [fname|]; [|lia].
  destruct (pc_name figmaNode); destruct (_ && _); lia.
Qed.

(** A node of a type the registry knows always has a candidate. *)
Lemma known_type_mappable (figmaNode : ParsedComponent) (context : option string) :
  knownType (pc_type figmaNode) = true ->
  CodeGenerator.getComponentMapping figmaNode context <> [].
Proof.
  intros Hknown.
  assert (Hsome : exists mapping,
             In mapping CodeGenerator.componentMappings
             /\ figmaType mapping = pc_type figmaNode
             /\ Forall (fun rule => 0 <= weight rule) (rules mapping)).
  { unfold knownType in Hknown. cbn [existsb] in Hknown.
    destruct (String.eqb_spec (pc_type figmaNode) "FRAME") as [-> | _];
      [|destruct (String.eqb_spec (pc_type figmaNode) "COMPONENT") as [-> | _];
        [|destruct (String.eqb_spec (pc_type figmaNode) "TEXT") as [-> | _];
          [|discriminate]]].
    - eexists. split; [right; left; reflexivity|]. split; [reflexivity|].
      repeat constructor; simpl; lia.
    - exists buttonEntry. split; [left; reflexivity|]. split; [reflexivity|].
      repeat constructor; simpl; lia.
    - exists textEntry. split; [simpl; tauto|]. split; [reflexivity|].
      repeat constructor; simpl; lia. }
  destruct Hsome as (mapping & Hin & Htype & Hweights).
  assert (Hacc : 20 < CodeGenerator.accumulate mapping figmaNode context).
  { rewrite accumulate_parts. unfold typeScore. rewrite Htype, String.eqb_refl.
    pose proof (nameScore_nonneg mapping figmaNode).
    pose proof (ruleScore_nonneg mapping figmaNode context Hweights). lia. }
  assert (Hcand : In (CodeGenerator.withConfidence mapping
                        (Z.min (CodeGenerator.accumulate mapping figmaNode context) 100))
                     (CodeGenerator.getComponentMapping figmaNode context)).
  { unfold CodeGenerator.getComponentMapping, CodeGenerator.getComponentMappingIn.
    apply sort_In, collect_In. exists mapping. split; [exact Hin|].
    now apply candidate_above. }
  intros Hnil. rewrite Hnil in Hcand. destruct Hcand.
Qed.

Lemma everyNode_parsedOrder (test : ParsedComponent -> bool) (component : ParsedComponent) :
  everyNode test component = forallb test (parsedOrder component).
Proof.
  induction component
    as [id name type properties children layout styling content IH]
    using ParsedComponent_children_ind.
  cbn [everyNode parsedOrder pc_children forallb]. f_equal.
  destruct children as [cs|]; [|reflexivity].
  induction IH as [|c cs Hc _ IHcs]; [reflexivity|].
  cbn [forallb flat_map]. rewrite forallb_app, Hc, IHcs. reflexivity.
Qed.

Lemma nodeCount_parsedOrder (component : ParsedComponent) :
  nodeCount component = List.length (parsedOrder component).
Proof.
  induction component
    as [id name type properties children layout styling content IH]
    using ParsedComponent_children_ind.
  cbn [nodeCount parsedOrder pc_children List.length]. f_equal.
  destruct children as [cs|]; [|reflexivity].
  induction IH as [|c cs Hc _ IHcs]; [reflexivity|].
  cbn [map list_sum fold_right flat_map]. rewrite length_app, <- Hc, <- IHcs. reflexivity.
Qed.

Lemma parseNode_each_length (nodes : list FigmaTree.Node) :
  List.length (flat_map FigmaTree.parseNode nodes) = List.length nodes.
Proof.
  induction nodes as [|node nodes IH]; [reflexivity|].
  cbn [flat_map]. rewrite parseNode_unfold. simpl. now rewrite IH.
Qed.

(** X19 -- documents of known node types.  With a catalog that returns an
    entry for every name, a document all of whose nodes are of type FRAME,
    COMPONENT or TEXT is converted without a single warning, into one
    configuration and one recorded mapping per node. *)
Theorem document_of_known_types_converts :
  forall (analyzeComponents : list string -> JS.Completion (list AntdComponent))
         (numberToString : Q -> string) (node : FigmaTree.Node)
         (st : CodeGenerator.GenerationResult),
    knowsEveryName analyzeComponents ->
    forallb (fun n => knownType (FigmaTree.n_type n)) (documentOrder node) = true ->
    exists configs ms,
      CodeGenerator.processComponents analyzeComponents numberToString
        (FigmaTree.parseNode node) st
      = (JS.Normal configs, extended st [] ms)
      /\ configTotal configs = List.length (documentOrder node)
      /\ List.length ms = List.length (documentOrder node).
Proof.
  intros analyzeComponents numberToString node st Hcatalog Hknown.
  destruct (parseNode_tree node) as (component & Hone & Horder & _).
  rewrite Hone.
  destruct (processComponents_outcome analyzeComponents numberToString [component] st)
    as (configs & ws & ms & Hrun & H1 & H2 & _ & _ & H5 & H6 & _).
  assert (Hall : forallb (everyNode (convertible analyzeComponents)) [component] = true).
  { cbn [forallb]. rewrite andb_true_r, everyNode_parsedOrder, Horder.
    apply forallb_forall. intros c Hc.
    apply in_flat_map in Hc as (n & Hn & Hc).
    rewrite forallb_forall in Hknown. specialize (Hknown n Hn).
    rewrite parseNode_unfold in Hc. destruct Hc as [<- | []].
    unfold convertible.
    match goal with
    | |- context [CodeGenerator.getComponentMapping ?c None] =>
        pose proof (known_type_mappable c None Hknown) as Hmap;
        destruct (CodeGenerator.getComponentMapping c None) as [|best rest]
    end; [contradiction|].
    destruct (Hcatalog (antdComponent best)) as (entry & others & ->). reflexivity. }
  apply H5 in Hall. subst ws. destruct (H6 eq_refl) as [_ Htotal].
  assert (Hnodes : nodeTotal [component] = List.length (documentOrder node)).
  { unfold nodeTotal. cbn [map list_sum fold_right]. rewrite Nat.add_0_r.
    now rewrite nodeCount_parsedOrder, Horder, parseNode_each_length. }
  exists configs, ms. split; [exact Hrun|]. simpl in H2. split; lia.
Qed.

Lemma document_of_known_types_converts_witness :
  exists configs ms,
    CodeGenerator.processComponents fullCatalog integerToString
      (FigmaTree.parseNode pageWithTitle) CodeGenerator.initialResult
    = (JS.Normal configs, extended CodeGenerator.initialResult [] ms)
    /\ configTotal configs = 2%nat
    /\ List.length ms = 2%nat.
Proof.
  apply (document_of_known_types_converts fullCatalog integerToString pageWithTitle
           CodeGenerator.initialResult).
  - intros name. eexists _, _. reflexivity.
  - reflexivity.
Defined.


(** X20 -- text layers.  A text layer of the document, whatever its
    characters, is mapped to [Typography.Text] when its name holds none of
    [button], [input] and [card]; the configuration made for it carries the
    catalog entry of that name and neither [children] nor [placeholder]:
    [generateProps] hands text to [Button], [Typography] and [Input] only,
    so the text of the layer is not part of the generated element. *)
Theorem text_layer_loses_its_text :
  forall (analyzeComponents : list string -> JS.Completion (list AntdComponent))
         (numberToString : Q -> string) (node : FigmaTree.Node)
         (component : ParsedComponent) (st : CodeGenerator.GenerationResult)
         (entry : AntdComponent) (others : list AntdComponent),
    FigmaTree.parseNode node = [component] ->
    FigmaTree.n_type node = "TEXT" ->
    plainName component ->
    analyzeComponents ["Typography.Text"] = JS.Normal (entry :: others) ->
    antd_name entry = "Typography.Text" ->
    exists config st',
      CodeGenerator.processComponent analyzeComponents numberToString component st
      = (JS.Normal (Some config), st')
      /\ CodeGenerator.cfg_component config = entry
      /\ CodeGenerator.lookup "children" (CodeGenerator.cfg_props config) = None
      /\ CodeGenerator.lookup "placeholder" (CodeGenerator.cfg_props config) = None.
Proof.
  intros analyzeComponents numberToString node component st entry others
    Hparse Htype Hplain Hcatalog Hname.
  assert (Hty : pc_type component = "TEXT").
  { rewrite parseNode_unfold in Hparse. injection Hparse as <-. exact Htype. }
  destruct (text_node_head component None Hty Hplain) as (rest & Hmap).
  rewrite processComponent_unfold, Hmap.
  unfold CodeGenerator.tryCatch, CodeGenerator.bind at 1, CodeGenerator.pushMapping.
  unfold CodeGenerator.bind at 1, CodeGenerator.call.
  cbn [antdComponent CodeGenerator.withConfidence textEntry]. rewrite Hcatalog.
  unfold CodeGenerator.bind at 1.
  match goal with
  | |- context [match pc_children component with
                | Some cs => _
                | None => _
                end ?s] =>
      assert (Hchildren : exists configs st1,
                 match pc_children component with
                 | Some cs =>
                     CodeGenerator.processComponents analyzeComponents numberToString cs
                 | None => CodeGenerator.ret []
                 end s = (JS.Normal configs, st1))
  end.
  { destruct (pc_children component) as [cs|].
    - apply processComponents_total.
    - eexists _, _. reflexivity. }
  destruct Hchildren as (configs & st1 & ->). unfold CodeGenerator.ret.
  eexists _, _. split; [reflexivity|]. cbn [CodeGenerator.cfg_component CodeGenerator.cfg_props].
  split; [reflexivity|].
  rewrite (generateProps_text_keys _ _ "children") by now left.
  rewrite (generateProps_text_keys _ _ "placeholder") by now right.
  unfold textProps. rewrite Hname. cbn [existsb String.eqb Ascii.eqb Bool.eqb orb andb].
  destruct (textOf component); split; reflexivity.
Qed.

Lemma text_layer_loses_its_text_witness :
  exists config st',
    CodeGenerator.processComponent fullCatalog integerToString
      (mkParsedComponent "0:2" (Some "Title") "TEXT" [] None
         (Some (FigmaTree.extractLayout titleLayer))
         (Some (FigmaTree.extractStyling titleLayer))
         (Some (FigmaTree.extractContent titleLayer)))
      CodeGenerator.initialResult
    = (JS.Normal (Some config), st')
    /\ CodeGenerator.cfg_component config = catalogEntry "Typography.Text"
    /\ CodeGenerator.lookup "children" (CodeGenerator.cfg_props config) = None
    /\ CodeGenerator.lookup "placeholder" (CodeGenerator.cfg_props config) = None.
Proof.
  apply (text_layer_loses_its_text fullCatalog integerToString titleLayer _
           CodeGenerator.initialResult (catalogEntry "Typography.Text") []);
    [reflexivity | reflexivity | repeat split | reflexivity | reflexivity].
Defined.


(* ===================================================================== *)
(** * Properties of the URL helpers *)
(* ===================================================================== *)

Section ApiFacts.
Import RegExp FigmaApi.

Lemma Matches_lit (t : string) :
  forall s c s' c', Matches (lit t) s c s' c' -> s = (t ++ s')%string /\ c' = c.
Proof.
  induction t as [|ch t IH]; intros s c s' c' H.
  - destruct H as [-> ->]. auto.
  - destruct t as [|ch' t'].
    + destruct H as (ch0 & -> & Hch & ->). apply Ascii.eqb_eq in Hch as ->. auto.
    + destruct H as (s1 & c1 & (ch0 & -> & Hch & ->) & H).
      apply Ascii.eqb_eq in Hch as ->. apply IH in H as [-> ->]. auto.
Qed.

Lemma Matches_group_plus (i : nat) (cls : ascii -> bool) (s s' : string)
    (c c' : captures) :
  Matches (Group i (plus (Class cls))) s c s' c' ->
  exists ch run,
    s = (String ch run ++ s')%string
    /\ allChars cls (String ch run) = true
    /\ c' = setCapture i (String ch run) c.
Proof.
  intros (c0 & Hplus & ->).
  destruct Hplus as (sa & ca & (ch & -> & Hch & ->) & Hstar).
  pose proof Hstar as Hcaps.
  apply (Matches_groupFree (Star (Class cls)) eq_refl) in Hcaps. subst c0.
  apply Iterates_class in Hstar as (run & -> & Hrun).
  exists ch, run. split; [reflexivity|]. split; [simpl; now rewrite Hch|].
  change (String ch (run ++ s')%string) with (String ch run ++ s')%string.
  now rewrite consumed_app.
Qed.

Lemma search_sound (p : pattern) :
  forall s c, search p s = Some c ->
    exists pre s0 rest, s = (pre ++ s0)%string /\ Matches p s0 noCaptures rest c.
Proof.
  induction s as [|ch s IH]; intros c H; cbn [search] in H.
  - destruct (matchHere p "") as [[rest c0]|] eqn:E; [|discriminate].
    injection H as <-. exists ""%string, ""%string, rest.
    split; [reflexivity | now apply matchHere_sound].
  - destruct (matchHere p (String ch s)) as [[rest c0]|] eqn:E.
    + injection H as <-. exists ""%string, (String ch s), rest.
      split; [reflexivity | now apply matchHere_sound].
    + apply IH in H as (pre & s0 & rest & -> & HM).
      exists (String ch pre), s0, rest. split; [reflexivity | exact HM].
Qed.

Lemma startsWith_prefix (t rest : string) : JS.startsWith (t ++ rest) t = true.
Proof. induction t as [|ch t IH]; simpl; [reflexivity | now rewrite Ascii.eqb_refl]. Qed.

Lemma includes_prefix (t rest : string) : JS.includes (t ++ rest) t = true.
Proof.
  destruct t as [|ch t]; [now destruct rest|].
  cbn [append JS.includes].
  change (String ch (t ++ rest)%string) with (String ch t ++ rest)%string.
  now rewrite startsWith_prefix.
Qed.

Lemma includes_self (t : string) : JS.includes t t = true.
Proof.
  pose proof (includes_prefix t "") as H. now rewrite string_app_nil_r in H.
Qed.

(** What the two URL patterns capture: a non-empty run of key characters
    that follows [figma.com/]. *)
Lemma filePattern_key (s rest : string) (c : captures) :
  Matches filePattern s noCaptures rest c ->
  exists key front,
    c 1%nat = Some key /\ key <> ""%string /\ allChars isKeyChar key = true
    /\ s = (("figma.com/" ++ front) ++ key ++ rest)%string.
Proof.
  unfold filePattern. cbn [seq]. intros (s1 & c1 & Hhost & s2 & c2 & Hkind & s3 & c3 & Hslash & Hkey).
  apply Matches_lit in Hhost as [-> ->]. apply Matches_lit in Hslash as [-> ->].
  apply Matches_group_plus in Hkey as (ch & run & -> & Hrun & ->).
  assert (Hfront : exists kind, s1 = (kind ++ "/" ++ String ch run ++ rest)%string
                                /\ c2 = noCaptures).
  { destruct Hkind as [H | H]; apply Matches_lit in H as [-> ->]; eauto. }
  destruct Hfront as (kind & -> & ->).
  exists (String ch run), (kind ++ "/")%string.
  split; [reflexivity|]. split; [discriminate|]. split; [exact Hrun|].
  now rewrite !string_app_assoc.
Qed.

Lemma fallbackPattern_key (s rest : string) (c : captures) :
  Matches fallbackPattern s noCaptures rest c ->
  exists key front,
    c 1%nat = Some key /\ key <> ""%string /\ allChars isKeyChar key = true
    /\ s = (("figma.com/" ++ front) ++ key ++ rest)%string.
Proof.
  unfold fallbackPattern. cbn [seq]. intros (s1 & c1 & Hhost & Hkey).
  apply Matches_lit in Hhost as [-> ->].
  apply Matches_group_plus in Hkey as (ch & run & -> & Hrun & ->).
  exists (String ch run), ""%string.
  split; [reflexivity|]. split; [discriminate|]. split; [exact Hrun|]. reflexivity.
Qed.

Lemma search_key (p : pattern) (url : string) (c : captures) :
  (forall s rest c, Matches p s noCaptures rest c ->
     exists key front,
       c 1%nat = Some key /\ key <> ""%string /\ allChars isKeyChar key = true
       /\ s = (("figma.com/" ++ front) ++ key ++ rest)%string) ->
  search p url = Some c ->
  exists key pre front rest,
    c 1%nat = Some key /\ allChars isKeyChar key = true
    /\ url = (pre ++ ("figma.com/" ++ front) ++ key ++ rest)%string.
Proof.
  intros Hshape H. apply search_sound in H as (pre & s0 & rest & -> & HM).
  apply Hshape in HM as (key & front & Hc & _ & Hkey & ->).
  exists key, pre, front, rest. auto.
Qed.

Lemma includes_inside (pre front key rest : string) :
  JS.includes (pre ++ front ++ key ++ rest) key = true.
Proof. do 2 apply includes_app_r. apply includes_prefix. Qed.

Lemma Matches_times_class (cls : ascii -> bool) (n : nat) :
  forall s c s' c',
    Matches (times n (Class cls)) s c s' c' ->
    exists run, s = (run ++ s')%string /\ allChars cls run = true
                /\ String.length run = n /\ c' = c.
Proof.
  induction n as [|n IH]; intros s c s' c' H.
  - destruct H as [-> ->]. now exists ""%string.
  - destruct n as [|n'].
    + destruct H as (ch & -> & Hch & ->). exists (String ch ""). simpl. now rewrite Hch.
    + destruct H as (s1 & c1 & (ch & -> & Hch & ->) & H).
      apply IH in H as (run & -> & Hrun & Hlen & ->).
      exists (String ch run). simpl. now rewrite Hch, Hrun, Hlen.
Qed.

Lemma whole_sound (p : pattern) (s : string) :
  whole p s = true -> exists c, Matches p s noCaptures "" c.
Proof.
  unfold whole. destruct (run p s noCaptures _) as [res|] eqn:E; [|discriminate].
  intros _. apply run_sound in E as (s' & c' & HM & Hk).
  destruct s'; [|discriminate]. now exists c'.
Qed.

Lemma bareKeyPattern_key (s : string) :
  whole bareKeyPattern s = true ->
  allChars isKeyChar s = true /\ (15 <= String.length s)%nat.
Proof.
  intros H. apply whole_sound in H as (c & s1 & c1 & Hfirst & Hrest).
  apply Matches_times_class in Hfirst as (run & -> & Hrun & Hlen & ->).
  apply Iterates_class in Hrest as (more & -> & Hmore).
  rewrite allChars_app, Hrun, allChars_app, Hmore, !string_app_length. split; [reflexivity | lia].
Qed.

End ApiFacts.

(** X21 -- the key that is returned.  Whatever the URL, a key that
    [extractFileKey] returns is part of the URL, has more than 10
    characters, and all of them are letters, digits, [_] or [-]; the
    empty URL is refused. *)
Theorem extractFileKey_key :
  forall url key : string,
    FigmaApi.extractFileKey url = JS.Normal key ->
    (10 < String.length key)%nat
    /\ allChars FigmaApi.isKeyChar key = true
    /\ JS.includes url key = true
    /\ url <> ""%string.
Proof.
  intros url key H. unfold FigmaApi.extractFileKey in H.
  destruct url as [|ch0 url0]; [discriminate|]. cbn [JS.truthy negb] in H.
  set (url := String ch0 url0) in *.
  assert (Hfound : forall p c k,
             (forall s rest c, Matches p s RegExp.noCaptures rest c ->
                exists key front,
                  c 1%nat = Some key /\ key <> ""%string
                  /\ allChars FigmaApi.isKeyChar key = true
                  /\ s = (("figma.com/" ++ front) ++ key ++ rest)%string) ->
             FigmaApi.search p url = Some c -> c 1%nat = Some k ->
             (JS.truthy k && (10 <? String.length k)%nat) = true ->
             (10 < String.length k)%nat
             /\ allChars FigmaApi.isKeyChar k = true
             /\ JS.includes url k = true /\ url <> ""%string).
  { intros p c k Hshape Hsearch Hc Hlong.
    apply (search_key p url c Hshape) in Hsearch
      as (key' & pre & front & rest & Hc' & Hkey & Hurl).
    rewrite Hc in Hc'. injection Hc' as <-.
    apply andb_prop in Hlong as [_ Hlong]. apply Nat.ltb_lt in Hlong.
    split; [exact Hlong|]. split; [exact Hkey|]. split; [|discriminate].
    rewrite Hurl. apply includes_inside. }
  destruct (FigmaApi.search FigmaApi.filePattern url) as [c|] eqn:E1;
    [destruct (c 1%nat) as [k|] eqn:Ec1;
     [destruct (JS.truthy k && (10 <? String.length k)%nat) eqn:El1|]|].
  1: { injection H as <-. exact (Hfound _ _ _ filePattern_key E1 Ec1 El1). }
  all: destruct (FigmaApi.search FigmaApi.fallbackPattern url) as [c'|] eqn:E2;
    [destruct (c' 1%nat) as [k'|] eqn:Ec2;
     [destruct (JS.truthy k' && (10 <? String.length k')%nat) eqn:El2|]|].
  all: try (injection H as <-; exact (Hfound _ _ _ fallbackPattern_key E2 Ec2 El2)).
  all: destruct (FigmaApi.whole FigmaApi.bareKeyPattern url) eqn:Ew; [|discriminate];
    injection H as <-; apply bareKeyPattern_key in Ew as [Hkey Hlen];
    (split; [lia|]); (split; [exact Hkey|]); (split; [|discriminate]);
    apply includes_self.
Qed.


Lemma extractFileKey_key_witness :
  (10 < String.length "abcDEF123456789")%nat
  /\ allChars FigmaApi.isKeyChar "abcDEF123456789" = true
  /\ JS.includes "https://www.figma.com/file/abcDEF123456789/Title" "abcDEF123456789" = true
  /\ "https://www.figma.com/file/abcDEF123456789/Title"%string <> ""%string.
Proof.
  apply (extractFileKey_key "https://www.figma.com/file/abcDEF123456789/Title"
           "abcDEF123456789").
  vm_compute. reflexivity.
Defined.

Section ApiRuns.
Import RegExp FigmaApi.
Context {R : Type}.

(** A greedy loop over a class takes the whole run in front of a text at
    which the class stops, when the continuation accepts there. *)
Lemma star_takes_run (cls : ascii -> bool) (k : continuation (R := R))
    (rest : string) (c : captures) (res : R) :
  stopsAt cls rest = true ->
  k rest c = Some res ->
  forall taken fuel,
    allChars cls taken = true ->
    (String.length taken <= fuel)%nat ->
    RegExp.repeat true (RegExp.run (Class cls)) k fuel (taken ++ rest) c = Some res.
Proof.
  intros Hstop Hk. induction taken as [|ch taken IH]; intros fuel Hrun Hfuel.
  - destruct fuel as [|fuel]; [exact Hk|]. cbn [append RegExp.repeat RegExp.run].
    destruct rest as [|ch rest]; [exact Hk|].
    cbn [stopsAt] in Hstop. apply negb_true_iff in Hstop. rewrite Hstop. exact Hk.
  - destruct fuel as [|fuel]; [simpl in Hfuel; lia|].
    cbn [allChars] in Hrun. apply andb_prop in Hrun as [Hch Hrun].
    cbn [append RegExp.repeat RegExp.run]. rewrite Hch.
    assert (Hshorter : (String.length (taken ++ rest) <? String.length (String ch (taken ++ rest)))%nat
                       = true) by (apply Nat.ltb_lt; simpl; lia).
    rewrite Hshorter. rewrite IH; [reflexivity | exact Hrun | simpl in Hfuel; lia].
Qed.

Lemma run_star_class (cls : ascii -> bool) (k : continuation (R := R))
    (taken rest : string) (c : captures) (res : R) :
  allChars cls taken = true ->
  stopsAt cls rest = true ->
  k rest c = Some res ->
  RegExp.run (Star (Class cls)) (taken ++ rest) c k = Some res.
Proof.
  intros Hrun Hstop Hk. cbn [RegExp.run].
  apply star_takes_run; try assumption. rewrite string_app_length. lia.
Qed.

(** A literal in front of the input is consumed. *)
Lemma run_lit (t : string) :
  forall (s : string) (c : captures) (k : continuation (R := R)),
    RegExp.run (lit t) (t ++ s) c k = k s c.
Proof.
  induction t as [|ch t IH]; intros s c k; [reflexivity|].
  destruct t as [|ch' t'].
  - cbn [lit char append RegExp.run]. now rewrite Ascii.eqb_refl.
  - change (lit (String ch (String ch' t'))) with (Seq (char ch) (lit (String ch' t'))).
    cbn [RegExp.run char append]. rewrite Ascii.eqb_refl.
    apply (IH s c k).
Qed.

(** A literal fails on an input that starts with another code unit. *)
Lemma run_lit_mismatch (ch ch' : ascii) (t s : string) (c : captures)
    (k : continuation (R := R)) :
  Ascii.eqb ch ch' = false ->
  RegExp.run (lit (String ch t)) (String ch' s) c k = None.
Proof.
  intros H. destruct t as [|ch2 t].
  - cbn [lit char RegExp.run]. now rewrite H.
  - change (lit (String ch (String ch2 t))) with (Seq (char ch) (lit (String ch2 t))).
    cbn [RegExp.run char]. now rewrite H.
Qed.

Lemma run_group_plus (i : nat) (cls : ascii -> bool) (k : continuation (R := R))
    (ch : ascii) (taken rest : string) (c : captures) (res : R) :
  allChars cls (String ch taken) = true ->
  stopsAt cls rest = true ->
  k rest (setCapture i (String ch taken) c) = Some res ->
  RegExp.run (Group i (plus (Class cls))) (String ch taken ++ rest) c k = Some res.
Proof.
  intros Hrun Hstop Hk. cbn [allChars] in Hrun. apply andb_prop in Hrun as [Hch Hrun].
  unfold plus. cbn [RegExp.run append]. rewrite Hch.
  apply run_star_class; [exact Hrun | exact Hstop|].
  change (String ch (taken ++ rest)%string) with (String ch taken ++ rest)%string.
  now rewrite consumed_app.
Qed.

Lemma run_times_class (cls : ascii -> bool) (n : nat) :
  forall (taken s : string) (c : captures) (k : continuation (R := R)),
    String.length taken = n ->
    allChars cls taken = true ->
    RegExp.run (times n (Class cls)) (taken ++ s) c k = k s c.
Proof.
  induction n as [|n IH]; intros taken s c k Hlen Hall.
  - destruct taken; [reflexivity | discriminate].
  - destruct taken as [|ch taken]; [discriminate|].
    cbn [allChars] in Hall. apply andb_prop in Hall as [Hch Hall].
    injection Hlen as Hlen. destruct n as [|n'].
    + destruct taken; [|discriminate]. cbn [times append RegExp.run]. now rewrite Hch.
    + change (times (S (S n')) (Class cls)) with (Seq (Class cls) (times (S n') (Class cls))).
      cbn [RegExp.run append]. rewrite Hch. now apply IH.
Qed.

End ApiRuns.


Section ApiKeys.
Import RegExp FigmaApi.

Lemma search_unfold (p : pattern) (s : string) :
  search p s
  = match matchHere p s with
    | Some (_, c) => Some c
    | None =>
        match s with
        | String _ s' => search p s'
        | EmptyString => None
        end
    end.
Proof. destruct s; reflexivity. Qed.

Lemma matchHere_filePattern (kind : string) (ch : ascii) (taken rest : string) :
  kind = "file"%string \/ kind = "design"%string ->
  allChars isKeyChar (String ch taken) = true ->
  stopsAt isKeyChar rest = true ->
  matchHere filePattern ("figma.com/" ++ kind ++ "/" ++ String ch taken ++ rest)
  = Some (rest, setCapture 1 (String ch taken) noCaptures).
Proof.
  intros Hkind Hkey Hstop. unfold matchHere, filePattern. cbn [seq].
  cbn [RegExp.run]. rewrite run_lit.
  assert (Htail : forall c,
             RegExp.run (lit "/") ("/" ++ String ch taken ++ rest) c
               (fun s' c' =>
                  RegExp.run (Group 1 (plus keyChar)) s' c'
                    (fun rest0 c0 => Some (rest0, c0)))
             = Some (rest, setCapture 1 (String ch taken) c)).
  { intros c. rewrite run_lit. now apply run_group_plus. }
  destruct Hkind as [-> | ->].
  - rewrite run_lit, Htail. reflexivity.
  - rewrite (run_lit_mismatch "f" "d" "ile" ("esign" ++ "/" ++ String ch taken ++ rest))
      by reflexivity.
    rewrite run_lit, Htail. reflexivity.
Qed.

Lemma search_filePattern (pre kind : string) (ch : ascii) (taken rest : string) :
  allChars notF pre = true ->
  kind = "file"%string \/ kind = "design"%string ->
  allChars isKeyChar (String ch taken) = true ->
  stopsAt isKeyChar rest = true ->
  search filePattern (pre ++ "figma.com/" ++ kind ++ "/" ++ String ch taken ++ rest)
  = Some (setCapture 1 (String ch taken) noCaptures).
Proof.
  intros Hpre Hkind Hkey Hstop. induction pre as [|ch0 pre IH].
  - change ("" ++ "figma.com/" ++ kind ++ "/" ++ String ch taken ++ rest)%string
      with ("figma.com/" ++ kind ++ "/" ++ String ch taken ++ rest)%string.
    rewrite search_unfold. now rewrite matchHere_filePattern.
  - cbn [allChars] in Hpre. apply andb_prop in Hpre as [Hch0 Hpre].
    unfold notF in Hch0. apply negb_true_iff in Hch0.
    change (String ch0 pre ++ "figma.com/" ++ kind ++ "/" ++ String ch taken ++ rest)%string
      with (String ch0 (pre ++ "figma.com/" ++ kind ++ "/" ++ String ch taken ++ rest))%string.
    rewrite search_unfold.
    assert (Hnone : matchHere filePattern
                      (String ch0 (pre ++ "figma.com/" ++ kind ++ "/"
                                   ++ String ch taken ++ rest)) = None).
    { unfold matchHere, filePattern. cbn [seq]. cbn [RegExp.run].
      now rewrite run_lit_mismatch. }
    rewrite Hnone. now apply IH.
Qed.

Lemma string_take (n : nat) :
  forall s, (n <= String.length s)%nat ->
    exists a b, s = (a ++ b)%string /\ String.length a = n.
Proof.
  induction n as [|n IH]; intros s Hlen.
  - now exists ""%string, s.
  - destruct s as [|ch s]; [simpl in Hlen; lia|].
    destruct (IH s) as (a & b & -> & Ha); [simpl in Hlen; lia|].
    exists (String ch a), b. simpl. now rewrite Ha.
Qed.

Lemma whole_bareKeyPattern (key : string) :
  allChars isKeyChar key = true ->
  (15 <= String.length key)%nat ->
  whole bareKeyPattern key = true.
Proof.
  intros Hkey Hlen. destruct (string_take 15 key Hlen) as (a & b & -> & Ha).
  rewrite allChars_app in Hkey. apply andb_prop in Hkey as [Hka Hkb].
  unfold whole, bareKeyPattern, keyChar. cbn [RegExp.run].
  rewrite (run_times_class isKeyChar 15 a b) by assumption.
  rewrite <- (string_app_nil_r b).
  rewrite (star_takes_run isKeyChar _ "" noCaptures tt); try reflexivity; try assumption.
  rewrite string_app_length. lia.
Qed.

Lemma search_none_without_dot (p : pattern) (key : string) :
  (forall s rest c, Matches p s noCaptures rest c ->
     exists key front,
       c 1%nat = Some key /\ key <> ""%string /\ allChars isKeyChar key = true
       /\ s = (("figma.com/" ++ front) ++ key ++ rest)%string) ->
  allChars isKeyChar key = true ->
  search p key = None.
Proof.
  intros Hshape Hkey. destruct (search p key) as [c|] eqn:E; [|reflexivity].
  apply (search_key p key c Hshape) in E as (k & pre & front & rest & _ & _ & Hurl).
  rewrite Hurl, allChars_app in Hkey. apply andb_prop in Hkey as [_ Hkey].
  vm_compute in Hkey. discriminate.
Qed.

End ApiKeys.

(** X22 -- the usual URLs.  From a URL that holds [figma.com/file/] or
    [figma.com/design/] after a prefix without the letter f (such as
    [https://www.]), [extractFileKey] returns the run of key characters
    that follows, provided it is longer than 10 characters; a text of 15 or
    more key characters is returned as it is. *)
Theorem extractFileKey_of_url :
  (forall pre kind key rest : string,
      allChars notF pre = true ->
      kind = "file"%string \/ kind = "design"%string ->
      allChars FigmaApi.isKeyChar key = true ->
      (10 < String.length key)%nat ->
      stopsAt FigmaApi.isKeyChar rest = true ->
      FigmaApi.extractFileKey (pre ++ "figma.com/" ++ kind ++ "/" ++ key ++ rest)
      = JS.Normal key)
  /\ (forall key : string,
         allChars FigmaApi.isKeyChar key = true ->
         (15 <= String.length key)%nat ->
         FigmaApi.extractFileKey key = JS.Normal key).
Proof.
  split.
  - intros pre kind key rest Hpre Hkind Hkey Hlen Hstop.
    destruct key as [|ch taken]; [simpl in Hlen; lia|].
    unfold FigmaApi.extractFileKey.
    assert (Htruthy : JS.truthy (pre ++ "figma.com/" ++ kind ++ "/" ++ String ch taken ++ rest)
                      = true) by (destruct pre; reflexivity).
    rewrite Htruthy. cbn [negb].
    rewrite (search_filePattern pre kind ch taken rest Hpre Hkind Hkey Hstop).
    cbn [RegExp.setCapture Nat.eqb JS.truthy andb].
    apply Nat.ltb_lt in Hlen. rewrite Hlen. reflexivity.
  - intros key Hkey Hlen. unfold FigmaApi.extractFileKey.
    destruct key as [|ch taken]; [simpl in Hlen; lia|]. cbn [JS.truthy negb].
    rewrite (search_none_without_dot _ _ filePattern_key Hkey).
    rewrite (search_none_without_dot _ _ fallbackPattern_key Hkey).
    now rewrite whole_bareKeyPattern.
Qed.

Lemma extractFileKey_of_url_witness :
  FigmaApi.extractFileKey "https://www.figma.com/design/abcDEF123456789/Title?node-id=1-2"
  = JS.Normal "abcDEF123456789"%string
  /\ FigmaApi.extractFileKey "abcDEF123456789" = JS.Normal "abcDEF123456789"%string.
Proof.
  split.
  - apply (proj1 extractFileKey_of_url "https://www." "design" "abcDEF123456789"
             "/Title?node-id=1-2");
      [reflexivity | now right | reflexivity | simpl; lia | reflexivity].
  - apply (proj2 extractFileKey_of_url "abcDEF123456789"); [reflexivity | simpl; lia].
Defined.


Section ApiNodeIds.
Import RegExp FigmaApi.

Lemma replace_includes (from to : ascii) (s : string) :
  JS.includes s (String from "") = true ->
  JS.includes (replace s from to) (String to "") = true.
Proof.
  induction s as [|ch s IH]; [discriminate|].
  cbn [JS.includes JS.startsWith replace]. rewrite andb_true_r.
  destruct (Ascii.eqb ch from) eqn:E.
  - intros _. cbn [JS.includes JS.startsWith]. now rewrite Ascii.eqb_refl.
  - rewrite Ascii.eqb_sym, E. cbn [orb]. intros H.
    cbn [JS.includes]. rewrite (IH H). apply orb_true_r.
Qed.

Lemma includes_char (c : ascii) (s : string) :
  JS.includes s (String c "") = negb (allChars (fun ch => negb (Ascii.eqb c ch)) s).
Proof.
  induction s as [|ch s IH]; [reflexivity|].
  cbn [JS.includes JS.startsWith allChars]. rewrite IH, andb_true_r.
  now destruct (Ascii.eqb c ch).
Qed.

Lemma allChars_impl (f g : ascii -> bool) (s : string) :
  (forall ch, f ch = true -> g ch = true) ->
  allChars f s = true -> allChars g s = true.
Proof.
  intros Hfg. induction s as [|ch s IH]; [reflexivity|]. cbn [allChars].
  intros H. apply andb_prop in H as [Hch Hs]. now rewrite (Hfg ch Hch), IH.
Qed.

Lemma digit_is_not (c : ascii) (ch : ascii) :
  isDigit c = false -> isDigit ch = true -> negb (Ascii.eqb c ch) = true.
Proof.
  intros Hc Hch. destruct (Ascii.eqb_spec c ch) as [-> | _]; [congruence | reflexivity].
Qed.

Lemma replace_after_digits (a b : string) :
  allChars isDigit a = true ->
  replace (a ++ "-" ++ b) "-" ":" = (a ++ ":" ++ b)%string.
Proof.
  induction a as [|ch a IH]; [reflexivity|]. cbn [allChars].
  intros H. apply andb_prop in H as [Hch Ha].
  change (replace (String ch a ++ "-" ++ b) "-" ":")
    with (if Ascii.eqb ch "-" then String ":" (a ++ "-" ++ b)
          else String ch (replace (a ++ "-" ++ b) "-" ":")).
  destruct (Ascii.eqb_spec ch "-") as [-> | _]; [discriminate|]. now rewrite (IH Ha).
Qed.

(** No match of [node-id=] starts inside a text that does not hold it and
    runs over into a [node-id=] that follows. *)
Lemma startsWith_no_straddle (pre x : string) :
  pre <> ""%string ->
  JS.startsWith pre "node-id=" = false ->
  JS.startsWith (pre ++ "node-id=" ++ x) "node-id=" = false.
Proof.
  intros Hne H. destruct pre as [|c1 pre]; [contradiction|]. clear Hne.
  cbn [append JS.startsWith] in *.
  do 8 (match goal with
        | |- context [Ascii.eqb ?a ?b && _] =>
            destruct (Ascii.eqb a b); [cbn [andb] in *|reflexivity]
        end;
        try (destruct pre as [|? pre]; [reflexivity|]; cbn [append JS.startsWith] in * )).
  all: try discriminate.
Qed.

Lemma run_lit_fail {R : Type} (t : string) :
  forall (s : string) (c : captures) (k : continuation (R := R)),
    JS.startsWith s t = false -> RegExp.run (lit t) s c k = None.
Proof.
  induction t as [|ch t IH]; intros s c k H; [discriminate|].
  cbn [JS.startsWith] in H. destruct s as [|ch' s].
  - destruct t; reflexivity.
  - destruct t as [|ch2 t].
    + cbn [lit char RegExp.run]. cbn [JS.startsWith] in H. rewrite andb_true_r in H.
      now rewrite H.
    + change (lit (String ch (String ch2 t))) with (Seq (char ch) (lit (String ch2 t))).
      cbn [RegExp.run char]. destruct (Ascii.eqb ch ch'); [|reflexivity].
      now apply IH.
Qed.

Lemma search_nodeIdPattern (pre : string) (ch : ascii) (taken rest : string) :
  JS.includes pre "node-id=" = false ->
  allChars notAmpersand (String ch taken) = true ->
  stopsAt notAmpersand rest = true ->
  search nodeIdPattern (pre ++ "node-id=" ++ String ch taken ++ rest)
  = Some (setCapture 1 (String ch taken) noCaptures).
Proof.
  intros Hpre Hraw Hstop. induction pre as [|ch0 pre IH].
  - change ("" ++ "node-id=" ++ String ch taken ++ rest)%string
      with ("node-id=" ++ String ch taken ++ rest)%string.
    rewrite search_unfold.
    assert (Hhere : matchHere nodeIdPattern ("node-id=" ++ String ch taken ++ rest)
                    = Some (rest, setCapture 1 (String ch taken) noCaptures)).
    { unfold matchHere, nodeIdPattern. cbn [seq].
      change (RegExp.run (Seq ?p1 ?p2) ?s ?c ?k)
        with (RegExp.run p1 s c (fun s' c' => RegExp.run p2 s' c' k)).
      rewrite run_lit.
      now apply (run_group_plus 1 notAmpersand). }
    now rewrite Hhere.
  - cbn [JS.includes] in Hpre. apply orb_false_elim in Hpre as [Hhere Hpre].
    change (String ch0 pre ++ "node-id=" ++ String ch taken ++ rest)%string
      with (String ch0 (pre ++ "node-id=" ++ String ch taken ++ rest))%string.
    rewrite search_unfold.
    assert (Hnone : matchHere nodeIdPattern
                      (String ch0 (pre ++ "node-id=" ++ String ch taken ++ rest)) = None).
    { unfold matchHere, nodeIdPattern. cbn [seq]. cbn [RegExp.run].
      apply run_lit_fail.
      apply (startsWith_no_straddle (String ch0 pre) (String ch taken ++ rest));
        [discriminate | exact Hhere]. }
    rewrite Hnone. now apply IH.
Qed.

Lemma search_nodeIdPattern_none (url : string) :
  JS.includes url "node-id=" = false -> search nodeIdPattern url = None.
Proof.
  intros H. destruct (search nodeIdPattern url) as [c|] eqn:E; [|reflexivity].
  apply search_sound in E as (pre & s0 & rest & -> & HM).
  unfold nodeIdPattern in HM. cbn [seq] in HM. destruct HM as (s1 & c1 & Hlit & _).
  apply Matches_lit in Hlit as [-> _].
  rewrite includes_app_r in H; [discriminate | apply includes_prefix].
Qed.

End ApiNodeIds.

(** X23 -- node ids.  [extractNodeId] returns [null] for a URL without
    [node-id=]; an id it returns never has a dash without a colon; and from
    a URL whose first [node-id=] is followed by digits, a dash and digits,
    up to the end or the next [&], it returns the two numbers joined by a
    colon, when decoding leaves that text as it is. *)
Theorem extractNodeId_of_url :
  forall decodeURIComponent : string -> JS.Completion string,
    (forall url : string,
        JS.includes url "node-id=" = false ->
        FigmaApi.extractNodeId decodeURIComponent url = JS.Normal None)
    /\ (forall url id : string,
           FigmaApi.extractNodeId decodeURIComponent url = JS.Normal (Some id) ->
           JS.includes id "-" = true -> JS.includes id ":" = true)
    /\ (forall pre a b rest : string,
           JS.includes pre "node-id=" = false ->
           allChars isDigit a = true ->
           allChars isDigit b = true ->
           stopsAt notAmpersand rest = true ->
           decodeURIComponent (a ++ "-" ++ b)%string = JS.Normal (a ++ "-" ++ b)%string ->
           FigmaApi.extractNodeId decodeURIComponent
             (pre ++ "node-id=" ++ a ++ "-" ++ b ++ rest)%string
           = JS.Normal (Some (a ++ ":" ++ b)%string)).
Proof.
  intros decodeURIComponent. split; [|split].
  - intros url H. unfold FigmaApi.extractNodeId.
    now rewrite search_nodeIdPattern_none.
  - intros url id H Hdash. unfold FigmaApi.extractNodeId in H.
    destruct (FigmaApi.search FigmaApi.nodeIdPattern url) as [c|]; [|discriminate].
    destruct (decodeURIComponent _) as [nodeId|message]; [|discriminate].
    cbv zeta in H.
    destruct (JS.includes nodeId "-") eqn:E1; cbn [andb] in H.
    + destruct (JS.includes nodeId ":") eqn:E2; cbn [negb] in H.
      * injection H as <-. exact E2.
      * injection H as <-. now apply replace_includes.
    + injection H as <-. congruence.
  - intros pre a b rest Hpre Ha Hb Hstop Hdecode.
    assert (Hdigit : forall c, isDigit c = false ->
               allChars (fun ch => negb (Ascii.eqb c ch)) a = true
               /\ allChars (fun ch => negb (Ascii.eqb c ch)) b = true).
    { intros c Hc. split; eapply allChars_impl; try eassumption;
        intros ch Hch; now apply digit_is_not. }
    assert (Hraw : exists ch taken, (a ++ "-" ++ b)%string = String ch taken
                                    /\ allChars notAmpersand (String ch taken) = true).
    { assert (Hall : allChars notAmpersand (a ++ "-" ++ b)%string = true).
      { rewrite !allChars_app.
        assert (Hamp : forall s, allChars isDigit s = true ->
                   allChars notAmpersand s = true).
        { intros s. apply allChars_impl. intros ch Hch. unfold notAmpersand.
          cbn [existsb]. rewrite orb_false_r, Ascii.eqb_sym.
          now apply (digit_is_not "&" ch). }
        now rewrite (Hamp a Ha), (Hamp b Hb). }
      destruct a as [|ch a]; [exists "-"%char, b | exists ch, (a ++ "-" ++ b)%string];
        split; solve [reflexivity | exact Hall]. }
    destruct Hraw as (ch & taken & Heq & Hall).
    unfold FigmaApi.extractNodeId.
    replace (pre ++ "node-id=" ++ a ++ "-" ++ b ++ rest)%string
      with (pre ++ "node-id=" ++ String ch taken ++ rest)%string
      by (rewrite <- Heq, !string_app_assoc; reflexivity).
    rewrite (search_nodeIdPattern pre ch taken rest Hpre Hall Hstop).
    cbn [RegExp.setCapture Nat.eqb]. rewrite <- Heq, Hdecode. cbv zeta.
    destruct (Hdigit "-"%char eq_refl) as [Hda Hdb].
    destruct (Hdigit ":"%char eq_refl) as [Hca Hcb].
    assert (Hhas : JS.includes (a ++ "-" ++ b)%string "-" = true).
    { apply includes_app_r. apply (includes_prefix "-" b). }
    assert (Hnot : JS.includes (a ++ "-" ++ b)%string ":" = false).
    { rewrite includes_char, !allChars_app, Hca, Hcb. reflexivity. }
    rewrite Hhas, Hnot. cbn [andb negb]. now rewrite (replace_after_digits a b Ha).
Qed.

Lemma extractNodeId_of_url_witness :
  FigmaApi.extractNodeId noEscapes
    "https://www.figma.com/design/abcDEF123456789/Title?node-id=28439-1428&t=x"
  = JS.Normal (Some "28439:1428"%string).
Proof.
  apply (proj2 (proj2 (extractNodeId_of_url noEscapes))
           "https://www.figma.com/design/abcDEF123456789/Title?" "28439" "1428" "&t=x");
    reflexivity.
Defined.


(* ===================================================================== *)
(** * The generated code under the validator *)
(* ===================================================================== *)

Section SelfCheck.
Import RegExp.

Lemma run_plus_class {R : Type} (cls : ascii -> bool) (k : continuation (R := R))
    (ch : ascii) (taken rest : string) (c : captures) (res : R) :
  allChars cls (String ch taken) = true ->
  stopsAt cls rest = true ->
  k rest c = Some res ->
  RegExp.run (plus (Class cls)) (String ch taken ++ rest) c k = Some res.
Proof.
  intros Hrun Hstop Hk. cbn [allChars] in Hrun. apply andb_prop in Hrun as [Hch Hrun].
  unfold plus. cbn [RegExp.run append]. rewrite Hch.
  now apply run_star_class.
Qed.

Lemma run_class {R : Type} (cls : ascii -> bool) (k : continuation (R := R))
    (ch : ascii) (s : string) (c : captures) :
  cls ch = true -> RegExp.run (Class cls) (String ch s) c k = k s c.
Proof. intros H. cbn [RegExp.run]. now rewrite H. Qed.

Lemma execAllFrom_unfold (p : pattern) (index : nat) (s : string) :
  execAllFrom p 0 index s
  = match matchHere p s with
    | Some (rest, c) =>
        {| RegExp.index := index; matched := consumed s rest; groups := c |} ::
        match s with
        | String _ s' => execAllFrom p (String.length (consumed s rest) - 1) (S index) s'
        | EmptyString => []
        end
    | None =>
        match s with
        | String _ s' => execAllFrom p 0 (S index) s'
        | EmptyString => []
        end
    end.
Proof. destruct s; reflexivity. Qed.

Lemma run_seq {R : Type} (p q : pattern) (s : string) (c : captures)
    (k : continuation (R := R)) :
  RegExp.run (Seq p q) s c k = RegExp.run p s c (fun s' c' => RegExp.run q s' c' k).
Proof. reflexivity. Qed.

Lemma run_alt {R : Type} (p q : pattern) (s : string) (c : captures)
    (k : continuation (R := R)) :
  RegExp.run (Alt p q) s c k
  = match RegExp.run p s c k with
    | Some r => Some r
    | None => RegExp.run q s c k
    end.
Proof. reflexivity. Qed.

(** The import pattern matches the first line of the generated code and
    captures [react] as the source. *)
Lemma importRegex_reactLine (tail : string) :
  exists c,
    matchHere CodeValidator.importRegex (reactLine ++ tail) = Some ((";" ++ tail)%string, c)
    /\ c 4%nat = Some "react"%string.
Proof.
  eexists. split.
  - unfold matchHere, CodeValidator.importRegex, CodeValidator.quote. cbn [seq].
    change (reactLine ++ tail)%string
      with ("import" ++ (" React from 'react';" ++ tail))%string.
    rewrite run_seq, run_lit. rewrite run_seq.
    apply (run_plus_class isSpace _ " " "" ("React from 'react';" ++ tail));
      [reflexivity | reflexivity |].
    rewrite run_seq, run_alt, run_seq.
    rewrite (run_lit_mismatch "{" "R" "" ("eact from 'react';" ++ tail)) by reflexivity.
    rewrite run_alt, run_seq.
    rewrite (run_lit_mismatch "*" "R" "" ("eact from 'react';" ++ tail)) by reflexivity.
    apply (run_group_plus 3 isWord _ "R" "eact" (" from 'react';" ++ tail));
      [reflexivity | reflexivity |].
    rewrite run_seq.
    apply (run_plus_class isSpace _ " " "" ("from 'react';" ++ tail));
      [reflexivity | reflexivity |].
    change ("from 'react';" ++ tail)%string with ("from" ++ (" 'react';" ++ tail))%string.
    rewrite run_seq, run_lit. rewrite run_seq.
    apply (run_plus_class isSpace _ " " "" ("'react';" ++ tail));
      [reflexivity | reflexivity |].
    change ("'react';" ++ tail)%string with (String "'" ("react';" ++ tail)).
    rewrite run_seq, run_class by reflexivity. rewrite run_seq.
    apply (run_group_plus 4 _ _ "r" "eact" ("';" ++ tail));
      [reflexivity | reflexivity |].
    change ("';" ++ tail)%string with (String "'" (";" ++ tail)).
    rewrite run_class by reflexivity.
    reflexivity.
  - reflexivity.
Qed.

Lemma existsb_map_cons {A B : Type} (f : B -> bool) (g : A -> B) (a : A) (l : list A) :
  existsb f (map g (a :: l)) = f (g a) || existsb f (map g l).
Proof. reflexivity. Qed.

Lemma extractImports_reactLine (tail : string) :
  existsb (fun imp => CodeValidator.equals (CodeValidator.import_source imp) "react")
    (CodeValidator.extractImports (reactLine ++ tail)) = true.
Proof.
  unfold CodeValidator.extractImports, execAll. rewrite execAllFrom_unfold.
  destruct (importRegex_reactLine tail) as (c & -> & Hc).
  rewrite existsb_map_cons. cbv beta. cbn [CodeValidator.import_source groups].
  rewrite Hc. apply orb_true_l.
Qed.

Lemma validate_reactLine (antdComponents : list string) (tail : string)
    (options : CodeValidator.PartialOptions) :
  CodeValidator.errors (CodeValidator.validate antdComponents (reactLine ++ tail) options)
  = []
  /\ CodeValidator.isValid
       (CodeValidator.validate antdComponents (reactLine ++ tail) options) = true.
Proof.
  assert (Herrors : CodeValidator.errors
                      (CodeValidator.validate antdComponents (reactLine ++ tail) options)
                    = []).
  { rewrite validate_errors_lookup. unfold lacksReactImport.
    rewrite extractImports_reactLine. cbn [negb]. now rewrite andb_false_r. }
  split; [exact Herrors|].
  change (CodeValidator.isValid
            (CodeValidator.validate antdComponents (reactLine ++ tail) options))
    with (List.length
            (filter CodeValidator.isError
               (CodeValidator.errors
                  (CodeValidator.validate antdComponents (reactLine ++ tail) options)))
          =? 0)%nat.
  now rewrite Herrors.
Qed.

(** *** The generated code starts with the React import *)

Lemma startsWith_app_l (a b p : string) :
  JS.startsWith a p = true -> JS.startsWith (a ++ b) p = true.
Proof.
  intros H. apply startsWith_app in H. rewrite H, string_app_assoc.
  apply startsWith_prefix.
Qed.

Lemma startsWith_two (a b rest : string) : JS.startsWith (a ++ b ++ rest) (a ++ b) = true.
Proof. rewrite <- string_app_assoc. apply startsWith_prefix. Qed.

Lemma fold_left_startsWith {A : Type} (f : A -> string) (l : list A) (p : string) :
  forall code, JS.startsWith code p = true ->
    JS.startsWith (fold_left (fun code a => code ++ f a)%string l code) p = true.
Proof.
  induction l as [|a l IH]; intros code H; [exact H|].
  cbn [fold_left]. apply IH. now apply startsWith_app_l.
Qed.

Lemma generateReactCode_starts (numberToString : Q -> string) (name : string)
    (configs : list CodeGenerator.GeneratedComponentConfig) (format : OutputFormat)
    (includeStyles : bool) :
  JS.startsWith
    (CodeGenerator.generateReactCode numberToString name configs format includeStyles)
    (reactLine ++ JS.nl) = true.
Proof.
  unfold CodeGenerator.generateReactCode. cbv zeta.
  do 4 apply startsWith_app_l. apply fold_left_startsWith.
  do 3 apply startsWith_app_l.
  assert (Himports : JS.startsWith
                       (CodeGenerator.generateImportStatements configs ++ JS.nl ++ JS.nl)
                       (reactLine ++ JS.nl) = true).
  { apply startsWith_app_l. unfold CodeGenerator.generateImportStatements. cbv zeta.
    cbn [JS.join]. apply startsWith_two. }
  destruct format; [apply startsWith_app_l|]; exact Himports.
Qed.

Lemma formatLines_reactLine (rest : list string) :
  Prettier.formatLines "  " 0 (reactLine :: rest)
  = reactLine :: Prettier.formatLines "  " 0 rest.
Proof.
  cbn [Prettier.formatLines]. cbv zeta.
  assert (Htrim : JS.trim reactLine = reactLine) by reflexivity.
  rewrite Htrim.
  assert (H1 : negb (JS.truthy reactLine) = false) by reflexivity.
  assert (H2 : Prettier.startsWithAny reactLine ["}"; "]"; ")"]%string = false)
    by reflexivity.
  assert (H3 : Prettier.endsWithAny reactLine ["{"; "["; "("]%string = false)
    by reflexivity.
  assert (H4 : JS.includes reactLine "<" = false) by reflexivity.
  assert (H5 : JS.includes reactLine "</" = false) by reflexivity.
  rewrite H1, H2, H3, H4, H5. reflexivity.
Qed.

Lemma format_starts (code : string) (format : OutputFormat) :
  JS.startsWith code (reactLine ++ JS.nl) = true ->
  JS.startsWith (Prettier.format code format) (reactLine ++ JS.nl) = true.
Proof.
  intros H. apply startsWith_app in H.
  set (tail := RegExp.drop (String.length (reactLine ++ JS.nl)) code) in H.
  rewrite H. unfold Prettier.format, Prettier.formatCode. cbv zeta.
  change (JS.repeat " " 2) with "  "%string.
  change ((reactLine ++ JS.nl) ++ tail)%string with (reactLine ++ String JS.LF tail)%string.
  rewrite split_line by reflexivity. rewrite formatLines_reactLine.
  pose proof (formatLines_nonempty "  " 0 (JS.split JS.LF tail) (split_nonempty _ _)) as Hne.
  destruct (Prettier.formatLines "  " 0 (JS.split JS.LF tail)) as [|l ls]; [contradiction|].
  change (JS.join JS.nl (reactLine :: l :: ls))
    with (reactLine ++ JS.nl ++ JS.join JS.nl (l :: ls))%string.
  apply startsWith_two.
Qed.

End SelfCheck.

(** X24 -- the generator under the validator.  Whatever the input and the
    catalog, the code [generateComponent] returns, the fallback notice
    included, starts with the React import, so that [validate] reports no
    error for it and holds it valid, with every choice of options. *)
Theorem generated_code_validates :
  forall (analyzeComponents : list string -> JS.Completion (list AntdComponent))
         (numberToString : Q -> string) (config : CodeGenerator.GenerationConfig)
         (antdComponents : list string) (options : CodeValidator.PartialOptions),
  exists result,
    CodeGenerator.generateComponent analyzeComponents numberToString config
    = JS.Normal result
    /\ JS.startsWith (CodeGenerator.code result) (reactLine ++ JS.nl) = true
    /\ CodeValidator.errors
         (CodeValidator.validate antdComponents (CodeGenerator.code result) options) = []
    /\ CodeValidator.isValid
         (CodeValidator.validate antdComponents (CodeGenerator.code result) options) = true.
Proof.
  intros analyzeComponents numberToString config antdComponents options.
  assert (Hresult : exists result,
             CodeGenerator.generateComponent analyzeComponents numberToString config
             = JS.Normal result
             /\ JS.startsWith (CodeGenerator.code result) (reactLine ++ JS.nl) = true).
  { destruct (CodeGenerator.figmaData_components config) as [|c cs] eqn:Hcomponents.
    - rewrite (generateComponent_on_empty_list _ _ _ Hcomponents).
      eexists. split; [reflexivity|]. cbn [CodeGenerator.code].
      unfold CodeGenerator.generateErrorComponent. cbv zeta. apply startsWith_two.
    - destruct (processComponents_total analyzeComponents numberToString
                  (CodeGenerator.figmaData_components config) CodeGenerator.initialResult)
        as (configs & st & Hrun).
      rewrite (generateComponent_on_nonempty_list _ _ _ configs st); [|congruence|exact Hrun].
      eexists. split; [reflexivity|]. cbn [CodeGenerator.code].
      apply format_starts, generateReactCode_starts. }
  destruct Hresult as (result & Hrun & Hstart).
  exists result. split; [exact Hrun|]. split; [exact Hstart|].
  apply startsWith_app in Hstart. rewrite Hstart, string_app_assoc.
  apply validate_reactLine.
Qed.
